(** * Import-test helpers of RustPython

    A shallow embedding of [Lib/test/test_importlib/util.py].

    Python code that reads and writes interpreter state is embedded in a
    state-and-exception monad [SE S A := S -> result A * S]: a computation
    always hands back the state it reached, together with either a value
    or the exception that is propagating.  Dictionaries are [gmap]s, the
    [sys] module is a dictionary of attributes together with the module
    cache [sys.modules], and generator-based context managers are split at
    their single [yield]. *)

From Stdlib Require Import ZArith NArith List String Ascii Bool Lia.
From stdpp Require Import base option list gmap strings.

Set Default Proof Using "Type".
#[global] Set Warnings "-clear-no-such-hyp".
Local Open Scope string_scope.

(** ** Python exceptions *)

Module Py.

(** The part of the built-in exception hierarchy the helpers touch.
    [UserClass] stands for a class declared with [class name(base)]. *)
Inductive exc_class : Type :=
  | BaseException
  | SystemExit
  | KeyboardInterrupt
  | GeneratorExit
  | Exception
  | StopIteration
  | AssertionError
  | AttributeError
  | ImportError
  | ModuleNotFoundError
  | LookupError
  | KeyError
  | NameError
  | UnboundLocalError
  | OSError
  | FileNotFoundError
  | RuntimeError
  | TypeError
  | ValueError
  | UserClass (name : string) (base : exc_class).

Definition exc_class_eq_dec (c d : exc_class) : {c = d} + {c <> d}.
Proof. decide equality. apply string_dec. Defined.

#[global] Instance exc_class_eq : EqDecision exc_class := exc_class_eq_dec.

(** The method resolution order of a class: the class, then its bases. *)
Fixpoint mro (c : exc_class) : list exc_class :=
  match c with
  | BaseException => [BaseException]
  | SystemExit => [SystemExit; BaseException]
  | KeyboardInterrupt => [KeyboardInterrupt; BaseException]
  | GeneratorExit => [GeneratorExit; BaseException]
  | Exception => [Exception; BaseException]
  | StopIteration => [StopIteration; Exception; BaseException]
  | AssertionError => [AssertionError; Exception; BaseException]
  | AttributeError => [AttributeError; Exception; BaseException]
  | ImportError => [ImportError; Exception; BaseException]
  | ModuleNotFoundError =>
      [ModuleNotFoundError; ImportError; Exception; BaseException]
  | LookupError => [LookupError; Exception; BaseException]
  | KeyError => [KeyError; LookupError; Exception; BaseException]
  | NameError => [NameError; Exception; BaseException]
  | UnboundLocalError =>
      [UnboundLocalError; NameError; Exception; BaseException]
  | OSError => [OSError; Exception; BaseException]
  | FileNotFoundError => [FileNotFoundError; OSError; Exception; BaseException]
  | RuntimeError => [RuntimeError; Exception; BaseException]
  | TypeError => [TypeError; Exception; BaseException]
  | ValueError => [ValueError; Exception; BaseException]
  | UserClass _ base => c :: mro base
  end.

Definition issubclass (c d : exc_class) : bool := bool_decide (d ∈ mro c).

(** Classes that come with the interpreter, as opposed to [UserClass]. *)
Definition builtin_class (c : exc_class) : bool :=
  match c with
  | UserClass _ _ => false
  | _ => true
  end.

(** An exception instance: its class and the text it was built with. *)
Record exc : Type := mk_exc { exc_type : exc_class; exc_msg : string }.

#[global] Instance exc_eq : EqDecision exc.
Proof. solve_decision. Defined.

Definition isinstance_exc (e : exc) (c : exc_class) : bool :=
  issubclass (exc_type e) c.

(** Python values, as far as the helpers look into them. *)
#[local] Set Warnings "-register-all".
Inductive pyval : Type :=
  | VNone
  | VBool (b : bool)
  | VInt (z : Z)
  | VStr (s : string)
  | VExc (e : exc)
  | VObj (id : nat)
  | VList (items : list pyval)
  | VDict (items : list (pyval * pyval)).
#[local] Set Warnings "register-all".

(** [isinstance(v, Exception)]. *)
Definition is_Exception_instance (v : pyval) : bool :=
  match v with
  | VExc e => isinstance_exc e Exception
  | _ => false
  end.

(** Truth value testing, [bool(v)]. *)
Definition truthy (v : pyval) : bool :=
  match v with
  | VNone => false
  | VBool b => b
  | VInt z => negb (z =? 0)%Z
  | VStr s => negb (String.eqb s EmptyString)
  | VExc _ => true
  | VObj _ => true
  | VList l => match l with [] => false | _ => true end
  | VDict d => match d with [] => false | _ => true end
  end.

(** ** Results and the state-and-exception monad *)

Inductive result (A : Type) : Type :=
  | Ok (a : A)
  | Raise (e : exc).
Arguments Ok {A} a.
Arguments Raise {A} e.

Definition SE (S A : Type) : Type := S -> result A * S.

Definition ret {S A} (a : A) : SE S A := fun s => (Ok a, s).

Definition bind {S A B} (m : SE S A) (k : A -> SE S B) : SE S B :=
  fun s =>
    match m s with
    | (Ok a, s1) => k a s1
    | (Raise e, s1) => (Raise e, s1)
    end.

#[global] Instance SE_ret S : MRet (SE S) := fun A => @ret S A.
#[global] Instance SE_bind S : MBind (SE S) := fun A B k m => @bind S A B m k.

(** [raise e]. *)
Definition raise {S A} (e : exc) : SE S A := fun s => (Raise e, s).

Definition get {S} : SE S S := fun s => (Ok s, s).
Definition modify {S} (f : S -> S) : SE S unit := fun s => (Ok tt, f s).

(** [try: body finally: fin].  The [finally] block runs on every way out of
    [body]; an exception raised by the block itself replaces the pending
    outcome. *)
Definition try_finally {S A} (body : SE S A) (fin : SE S unit) : SE S A :=
  fun s =>
    let '(r, s1) := body s in
    match fin s1 with
    | (Ok _, s2) => (r, s2)
    | (Raise e, s2) => (Raise e, s2)
    end.

(** [try: body except cls: handler].  [raise] without argument inside the
    handler is written [raise e] with the exception caught. *)
Definition try_except {S A} (body : SE S A) (cls : exc_class)
    (handler : exc -> SE S A) : SE S A :=
  fun s =>
    match body s with
    | (Ok a, s1) => (Ok a, s1)
    | (Raise e, s1) =>
        if isinstance_exc e cls then handler e s1 else (Raise e, s1)
    end.

(** A [for] loop over a list whose body is a statement. *)
Fixpoint for_each {S A} (l : list A) (body : A -> SE S unit) : SE S unit :=
  match l with
  | [] => ret tt
  | x :: rest => bind (body x) (fun _ => for_each rest body)
  end.

(** Code that keeps local variables [L] next to the state [S]: run a
    computation on [S] alone, read and update the locals. *)
Definition lift {L S A} (m : SE S A) : SE (L * S) A :=
  fun ls =>
    let '(r, s1) := m (snd ls) in (r, (fst ls, s1)).

Definition locals {L S} : SE (L * S) L := fun ls => (Ok (fst ls), ls).

Definition set_locals {L S} (f : L -> L) : SE (L * S) unit :=
  fun ls => (Ok tt, (f (fst ls), snd ls)).

(** ** Generator-based context managers

    A function decorated with [contextlib.contextmanager] whose body yields
    once.  Entering runs the generator up to its [yield]: it either raises,
    or hands over the yielded value and the suspended rest of the generator.
    The rest is resumed with [None] when the [with] block ended normally and
    with [Some e] when [e] is thrown in at the [yield]. *)
Definition resume_fn (S : Type) : Type := option exc -> SE S unit.
Abbreviation gen_cm S Y := (SE S (Y * resume_fn S)) (only parsing).

(** The outcome of resuming at a bare [yield]. *)
Definition thrown {S} (t : option exc) : SE S unit :=
  match t with
  | None => ret tt
  | Some e => raise e
  end.

(** [try: pre; yield y finally: fin], with locals [L] that [pre] fills in
    and [fin] reads. *)
Definition try_yield_finally {L S Y} (init : L) (pre : SE (L * S) Y)
    (fin : SE (L * S) unit) : gen_cm S Y :=
  fun s =>
    match pre (init, s) with
    | (Raise e, ls1) =>
        match fin ls1 with
        | (Ok _, ls2) => (Raise e, snd ls2)
        | (Raise e', ls2) => (Raise e', snd ls2)
        end
    | (Ok y, ls1) =>
        (Ok (y, fun t s2 =>
                  let '(r, ls3) := try_finally (thrown t) fin (fst ls1, s2) in
                  (r, snd ls3)),
         snd ls1)
    end.

(** [with cm as y: body y].  None of the generators below swallows a thrown
    exception, so a raising body propagates unless the exit code raises
    something else. *)
Definition with_ {S Y} (cm : gen_cm S Y) (body : Y -> SE S unit) : SE S unit :=
  fun s =>
    match cm s with
    | (Raise e, s1) => (Raise e, s1)
    | (Ok (y, resume), s1) =>
        match body y s1 with
        | (Ok _, s2) => resume None s2
        | (Raise e, s2) =>
            match resume (Some e) s2 with
            | (Ok _, s3) => (Ok tt, s3)
            | (Raise e', s3) => (Raise e', s3)
            end
        end
    end.

(** A context-manager object driven by hand through [__enter__] and
    [__exit__(None, None, None)]: once entered it is either suspended at its
    [yield] or, when entering raised, finished. *)
Inductive manager (S : Type) : Type :=
  | Suspended (resume : resume_fn S)
  | Finished.
Arguments Suspended {S} resume.
Arguments Finished {S}.

(** [__exit__(None, None, None)]: a suspended generator is resumed; a
    finished one stops at once and the call returns. *)
Definition manager_exit {S} (m : manager S) : SE S unit :=
  match m with
  | Suspended resume => resume None
  | Finished => ret tt
  end.

End Py.

(** ** The interpreter state the helpers act on *)

Module Sys.
Import Py.

(** A [types.ModuleType] object.  [mod_attr] is the [attr] attribute the
    mocks set; [mod_loader] is the identity of the loader object. *)
Record ModuleSpec : Type := mk_spec {
  spec_name : string;
  spec_loader : nat;
  spec_origin : option string;
  spec_submodule_search_locations : option (list string)
}.

Record module : Type := mk_module {
  mod_name : string;
  mod_loader : option nat;
  mod_file : option string;
  mod_package : option string;
  mod_attr : option string;
  mod_path : option (list string);
  mod_spec : option ModuleSpec
}.

(** Files and directories, by path. *)
Inductive fs_node : Type :=
  | Dir
  | File (content : string).

(** [sys_attrs] holds the attributes of the [sys] module other than
    [modules]; [sys_modules] is the dictionary [sys.modules]. *)
Record world : Type := mk_world {
  sys_attrs : gmap string pyval;
  sys_modules : gmap string module;
  filesystem : gmap string fs_node
}.

Definition with_attrs (f : gmap string pyval -> gmap string pyval)
    (w : world) : world :=
  mk_world (f (sys_attrs w)) (sys_modules w) (filesystem w).

Definition with_modules (f : gmap string module -> gmap string module)
    (w : world) : world :=
  mk_world (sys_attrs w) (f (sys_modules w)) (filesystem w).

Definition with_filesystem (f : gmap string fs_node -> gmap string fs_node)
    (w : world) : world :=
  mk_world (sys_attrs w) (sys_modules w) (f (filesystem w)).

(** [getattr(sys, attr)]. *)
Definition sys_getattr (attr : string) : SE world pyval :=
  fun w =>
    match sys_attrs w !! attr with
    | Some v => (Ok v, w)
    | None => (Raise (mk_exc AttributeError attr), w)
    end.

(** [setattr(sys, attr, value)]. *)
Definition sys_setattr (attr : string) (value : pyval) : SE world unit :=
  modify (with_attrs (insert attr value)).

(** [name in sys.modules]. *)
Definition modules_contains (name : string) : SE world bool :=
  fun w => (Ok (bool_decide (is_Some (sys_modules w !! name))), w).

(** [sys.modules[name] = m]. *)
Definition modules_setitem (name : string) (m : module) : SE world unit :=
  modify (with_modules (insert name m)).

(** [del sys.modules[name]]. *)
Definition modules_delitem (name : string) : SE world unit :=
  fun w =>
    match sys_modules w !! name with
    | Some _ => (Ok tt, with_modules (delete name) w)
    | None => (Raise (mk_exc KeyError name), w)
    end.

End Sys.

(** ** String operations of [str] used by the helpers *)

Module Str.

(** [s.endswith(suffix)]. *)
Definition endswith (s suffix : string) : bool :=
  let n := String.length s in
  let k := String.length suffix in
  (k <=? n)%nat && String.eqb (String.substring (n - k) k s) suffix.

(** [s[:-k]] for a positive [k]. *)
Definition drop_last (k : nat) (s : string) : string :=
  String.substring 0 (String.length s - k) s.

(** [c in s] for a one-character [c]. *)
Fixpoint contains (c : ascii) (s : string) : bool :=
  match s with
  | EmptyString => false
  | String d rest => Ascii.eqb d c || contains c rest
  end.

(** [s.split(sep)] for a one-character [sep]. *)
Fixpoint split (sep : ascii) (s : string) : list string :=
  match s with
  | EmptyString => [EmptyString]
  | String c rest =>
      if Ascii.eqb c sep then EmptyString :: split sep rest
      else match split sep rest with
           | [] => [String c EmptyString]
           | p :: ps => String c p :: ps
           end
  end.

(** [sep.join(parts)]. *)
Fixpoint join (sep : string) (parts : list string) : string :=
  match parts with
  | [] => EmptyString
  | [p] => p
  | p :: rest => p +:+ sep +:+ join sep rest
  end.

(** [s.rsplit(sep, 1)[0]]: what precedes the last [sep], or [s] itself. *)
Definition rsplit1_head (sep : ascii) (s : string) : string :=
  match List.rev (split sep s) with
  | [] => s
  | [_] => s
  | _ :: init => join (String sep EmptyString) (List.rev init)
  end.

End Str.

(** ** [Lib/test/test_importlib/util.py] *)

Module Util.
Import Py Sys.

(** What the helpers call in the standard library: [tempfile], [os],
    [os.path], [test.support], [repr] and [importlib.util].  The file
    operations act on the file system only. *)
Record host : Type := mk_host {
  mkdtemp : SE (gmap string fs_node) string;
  path_join : string -> string -> string;
  path_exists : string -> gmap string fs_node -> bool;
  mkdir : string -> SE (gmap string fs_node) unit;
  write_file : string -> string -> SE (gmap string fs_node) unit;
  rmtree : string -> SE (gmap string fs_node) unit;
  repr : string -> string;
  spec_from_file_location :
    string -> string -> nat -> option (list string) -> option ModuleSpec
}.

(** Run a file-system operation inside the interpreter state. *)
Definition on_fs {A} (m : SE (gmap string fs_node) A) : SE world A :=
  fun w =>
    let '(r, fs1) := m (filesystem w) in
    (r, with_filesystem (fun _ => fs1) w).

(** [try: del sys.modules[name] except KeyError: pass]. *)
Definition discard_module (name : string) : SE world unit :=
  try_except (modules_delitem name) KeyError (fun _ => ret tt).

(** One turn of the first loop of [uncache]. *)
Definition uncache_one (name : string) : SE world unit :=
  if bool_decide (name ∈ ["sys"; "marshal"; "imp"]) then
    raise (mk_exc ValueError ("cannot uncache " +:+ name))
  else discard_module name.

(** [uncache], applied to the names it is given. *)
Definition uncache (names : list string) : gen_cm world unit :=
  for_each names uncache_one;;
  try_yield_finally tt (mret tt) (lift (for_each names discard_module)).

(** [sys.modules] once every name of [names] was deleted from it. *)
Definition without (names : list string) (m : gmap string module)
    : gmap string module :=
  fold_left (fun m name => delete name m) names m.

(** Dictionaries that are iterated, as insertion-ordered association
    lists: [d[k] = v], [k in d] with [d[k]], [del d[k]]. *)
Fixpoint dict_set {V} (k : string) (v : V) (d : list (string * V))
    : list (string * V) :=
  match d with
  | [] => [(k, v)]
  | (k', v') :: rest =>
      if String.eqb k' k then (k, v) :: rest else (k', v') :: dict_set k v rest
  end.

Fixpoint dict_get {V} (k : string) (d : list (string * V)) : option V :=
  match d with
  | [] => None
  | (k', v') :: rest => if String.eqb k' k then Some v' else dict_get k rest
  end.

Definition dict_del {V} (k : string) (d : list (string * V))
    : list (string * V) :=
  List.filter (fun kv => negb (String.eqb (fst kv) k)) d.

(** The text of [kwargs.keys()] for keys that are identifiers. *)
Definition dict_keys_repr {V} (d : list (string * V)) : string :=
  "dict_keys([" +:+
  Str.join ", " (List.map (fun kv => "'" +:+ fst kv +:+ "'") d) +:+ "])".

Record import_state_locals : Type := mk_import_state_locals {
  originals : list (string * pyval);
  kwargs : list (string * pyval)
}.

Definition import_state_defaults : list (string * pyval) :=
  [("meta_path", VList []); ("path", VList []);
   ("path_hooks", VList []); ("path_importer_cache", VDict [])].

(** One turn of the loop of [import_state]. *)
Definition import_state_assign (item : string * pyval)
    : SE (import_state_locals * world) unit :=
  let '(attr, default) := item in
  v ← lift (sys_getattr attr);
  set_locals (fun l => mk_import_state_locals
                (dict_set attr v (originals l)) (kwargs l));;
  l ← locals;
  new_value ←
    match dict_get attr (kwargs l) with
    | Some given =>
        set_locals (fun l => mk_import_state_locals
                      (originals l) (dict_del attr (kwargs l)));;
        mret given
    | None => mret default
    end;
  lift (sys_setattr attr new_value).

(** The four assignments and the check on the remaining keywords, inside
    the [try]. *)
Definition import_state_replace : SE (import_state_locals * world) unit :=
  for_each import_state_defaults import_state_assign;;
  l ← locals;
  if (0 <? List.length (kwargs l))%nat then
    raise (mk_exc ValueError
             ("unrecognized arguments: " +:+ dict_keys_repr (kwargs l)))
  else mret tt.

(** The [finally] block. *)
Definition import_state_reset (item : string * pyval)
    : SE (import_state_locals * world) unit :=
  lift (sys_setattr (fst item) (snd item)).

Definition import_state_restore : SE (import_state_locals * world) unit :=
  l ← locals;
  for_each (originals l) import_state_reset.

(** [import_state], applied to its keyword arguments. *)
Definition import_state (kwargs : list (string * pyval)) : gen_cm world unit :=
  try_yield_finally (mk_import_state_locals [] kwargs)
    import_state_replace import_state_restore.

(** [writes_bytecode_files(fxn)]: the decorator reads
    [sys.dont_write_bytecode] once, when it is applied. *)
Definition writes_bytecode_files {Args} (fxn : Args -> SE world pyval)
    : SE world (Args -> SE world pyval) :=
  flag ← sys_getattr "dont_write_bytecode";
  if truthy flag then mret (fun _ => mret VNone)
  else
    mret (fun args =>
      original ← sys_getattr "dont_write_bytecode";
      sys_setattr "dont_write_bytecode" (VBool false);;
      to_return ← try_finally (fxn args)
                    (sys_setattr "dont_write_bytecode" original);
      mret to_return).

(** [temporary_pycache_prefix(prefix)]. *)
Definition temporary_pycache_prefix (prefix : pyval) : gen_cm world unit :=
  _orig_prefix ← sys_getattr "pycache_prefix";
  sys_setattr "pycache_prefix" prefix;;
  try_yield_finally tt (mret tt)
    (lift (sys_setattr "pycache_prefix" _orig_prefix)).

(** *** Importer mocks *)

(** An instance of [_ImporterMock]: [self_id] is the identity of the
    object, the two dictionaries are its attributes.  Registered module
    code is a callable that acts on the interpreter state. *)
Record ImporterMock : Type := mk_ImporterMock {
  self_id : nat;
  modules : gmap string module;
  module_code : gmap string (SE world unit)
}.

(** The name a mock registers a module under. *)
Definition mock_import_name (name : string) : string :=
  if negb (Str.endswith name ".__init__") then name
  else Str.drop_last (String.length ".__init__") name.

(** One turn of the loop of [_ImporterMock.__init__]. *)
Definition ImporterMock_add (given_code : gmap string (SE world unit))
    (self : ImporterMock) (name : string) : ImporterMock :=
  let import_name := mock_import_name name in
  let package :=
    if negb (Str.contains "." name) then None
    else if String.eqb import_name name then Some (Str.rsplit1_head "." name)
    else Some import_name in
  let module :=
    {| mod_name := import_name;
       mod_loader := Some (self_id self);
       mod_file := Some "<mock __file__>";
       mod_package := package;
       mod_attr := Some name;
       mod_path :=
         if negb (String.eqb import_name name) then Some ["<mock __path__>"]
         else None;
       mod_spec := None |} in
  {| self_id := self_id self;
     modules := <[import_name := module]> (modules self);
     module_code :=
       match given_code !! import_name with
       | Some code => <[import_name := code]> (module_code self)
       | None => module_code self
       end |}.

(** [_ImporterMock.__init__(self, *names, module_code)]. *)
Definition ImporterMock_init (self : nat) (names : list string)
    (given_code : gmap string (SE world unit)) : ImporterMock :=
  fold_left (ImporterMock_add given_code) names (mk_ImporterMock self ∅ ∅).

(** [mock_modules.find_module]: [None] or [self]. *)
Definition find_module (self : ImporterMock) (fullname : string)
    : option ImporterMock :=
  if negb (bool_decide (is_Some (modules self !! fullname))) then None
  else Some self.

(** [mock_modules.load_module]. *)
Definition load_module (self : ImporterMock) (fullname : string)
    : SE world module :=
  match modules self !! fullname with
  | None => raise (mk_exc ImportError EmptyString)
  | Some m =>
      modules_setitem fullname m;;
      match module_code self !! fullname with
      | Some code =>
          try_except code Exception
            (fun e => modules_delitem fullname;; raise e)
      | None => mret tt
      end;;
      mret m
  end.

(** [mock_spec.find_spec].  A module whose [__file__] is missing makes the
    attribute access fail. *)
Definition find_spec (h : host) (self : ImporterMock) (fullname : string)
    : result (option ModuleSpec) :=
  match modules self !! fullname with
  | None => Ok None
  | Some m =>
      match mod_file m with
      | None => Raise (mk_exc AttributeError "__file__")
      | Some file =>
          Ok (spec_from_file_location h fullname file (self_id self)
                (mod_path m))
      end
  end.

(** [mock_spec.create_module]. *)
Definition create_module (self : ImporterMock) (spec : ModuleSpec)
    : result module :=
  match modules self !! spec_name spec with
  | None => Raise (mk_exc ImportError EmptyString)
  | Some m => Ok m
  end.

(** [mock_spec.exec_module]: the lookup of the code and its call are both
    inside the [try]. *)
Definition exec_module (self : ImporterMock) (m : module) : SE world unit :=
  try_except
    (match mod_spec m with
     | None => raise (mk_exc AttributeError "__spec__")
     | Some spec =>
         match module_code self !! spec_name spec with
         | None => raise (mk_exc KeyError (spec_name spec))
         | Some code => code
         end
     end)
    KeyError (fun _ => mret tt).

(** [mock_path_hook], applied to its entries and importer, returns
    [hook]; this is [hook(entry)]. *)
Definition mock_path_hook {E I} `{EqDecision E} (entries : list E)
    (importer : I) (entry : E) : result I :=
  if negb (bool_decide (entry ∈ entries))
  then Raise (mk_exc ImportError EmptyString)
  else Ok importer.

(** *** [create_modules] *)

Record create_modules_locals : Type := mk_create_modules_locals {
  created_paths : list string;
  mapping : gmap string string;
  state_manager : option (manager world);
  uncache_manager : option (manager world);
  temp_dir : option string;
  import_names : gset string
}.

Definition set_created_paths (f : list string -> list string)
    (l : create_modules_locals) : create_modules_locals :=
  mk_create_modules_locals (f (created_paths l)) (mapping l)
    (state_manager l) (uncache_manager l) (temp_dir l) (import_names l).

Definition set_mapping (f : gmap string string -> gmap string string)
    (l : create_modules_locals) : create_modules_locals :=
  mk_create_modules_locals (created_paths l) (f (mapping l))
    (state_manager l) (uncache_manager l) (temp_dir l) (import_names l).

Definition set_state_manager (m : manager world)
    (l : create_modules_locals) : create_modules_locals :=
  mk_create_modules_locals (created_paths l) (mapping l)
    (Some m) (uncache_manager l) (temp_dir l) (import_names l).

Definition set_uncache_manager (m : manager world)
    (l : create_modules_locals) : create_modules_locals :=
  mk_create_modules_locals (created_paths l) (mapping l)
    (state_manager l) (Some m) (temp_dir l) (import_names l).

Definition set_temp_dir (d : string)
    (l : create_modules_locals) : create_modules_locals :=
  mk_create_modules_locals (created_paths l) (mapping l)
    (state_manager l) (uncache_manager l) (Some d) (import_names l).

Definition set_import_names (f : gset string -> gset string)
    (l : create_modules_locals) : create_modules_locals :=
  mk_create_modules_locals (created_paths l) (mapping l)
    (state_manager l) (uncache_manager l) (temp_dir l) (f (import_names l)).

(** [mgr = cm; mgr.__enter__()]: the variable is bound before the generator
    runs, so it also holds the manager when entering raises; the generator
    is then finished. *)
Definition enter_manager {L Y} (store : manager world -> L -> L)
    (cm : gen_cm world Y) : SE (L * world) Y :=
  fun ls =>
    match cm (snd ls) with
    | (Raise e, w1) => (Raise e, (store Finished (fst ls), w1))
    | (Ok (y, resume), w1) => (Ok y, (store (Suspended resume) (fst ls), w1))
    end.

(** The loop over [name_parts[:-1]]; it hands back the last [file_path]. *)
Fixpoint make_directories (h : host) (directories : list string)
    (file_path : string) : SE (create_modules_locals * world) string :=
  match directories with
  | [] => mret file_path
  | directory :: rest =>
      let file_path := path_join h file_path directory in
      w ← lift get;
      (if negb (path_exists h file_path (filesystem w)) then
         lift (on_fs (mkdir h file_path));;
         set_locals (set_created_paths (fun l => (l ++ [file_path])%list))
       else mret tt);;
      make_directories h rest file_path
  end.

(** The name [create_modules] imports a file under. *)
Definition created_import_name (name : string) : string :=
  if negb (Str.endswith name "__init__") then name
  else Str.drop_last (String.length ".__init__") name.

(** One turn of the loop over [names]. *)
Definition create_one_module (h : host) (temp_dir : string) (name : string)
    : SE (create_modules_locals * world) unit :=
  let import_name := created_import_name name in
  set_locals (set_import_names (fun s => s ∪ {[import_name]}));;
  present ← lift (modules_contains import_name);
  (if present : bool
   then lift (modules_delitem import_name) else mret tt);;
  let name_parts := Str.split "." name in
  file_path ← make_directories h (List.removelast name_parts) temp_dir;
  let file_path :=
    path_join h file_path (List.last name_parts EmptyString +:+ ".py") in
  lift (on_fs (write_file h file_path ("attr = " +:+ repr h name)));;
  set_locals (set_created_paths (fun l => (l ++ [file_path])%list));;
  set_locals (set_mapping (insert name file_path)).

(** The body of the [try] up to the [yield]. *)
Definition create_modules_setup (h : host) (names : list string)
    : SE (create_modules_locals * world) (gmap string string) :=
  temp_dir ← lift (on_fs (mkdtemp h));
  set_locals (set_temp_dir temp_dir);;
  set_locals (set_mapping (insert ".root" temp_dir));;
  for_each names (create_one_module h temp_dir);;
  l ← locals;
  enter_manager set_uncache_manager (uncache (elements (import_names l)));;
  enter_manager set_state_manager
    (import_state [("path", VList [VStr temp_dir])]);;
  l ← locals;
  mret (mapping l).

(** The [finally] block.  [temp_dir] is unbound when [mkdtemp] raised. *)
Definition create_modules_cleanup (h : host)
    : SE (create_modules_locals * world) unit :=
  l ← locals;
  match state_manager l with
  | Some m => lift (manager_exit m)
  | None => mret tt
  end;;
  match uncache_manager l with
  | Some m => lift (manager_exit m)
  | None => mret tt
  end;;
  match temp_dir l with
  | Some d => lift (on_fs (rmtree h d))
  | None => raise (mk_exc UnboundLocalError "temp_dir")
  end.

(** [create_modules], applied to the names it is given. *)
Definition create_modules (h : host) (names : list string)
    : gen_cm world (gmap string string) :=
  try_yield_finally (mk_create_modules_locals [] ∅ None None None ∅)
    (create_modules_setup h names) (create_modules_cleanup h).

(** *** [create_package] and its resource reader *)

(** A [Reader] instance: the variables of [create_package] its methods
    close over, and its [_path] attribute, unset until a method stores it. *)
Record Reader : Type := mk_Reader {
  cl_file : pyval;
  cl_path : pyval;
  cl_contents : list string;
  _path : option pyval
}.


(** [raise v] for a value [v]. *)
Definition raise_value {S A} (v : pyval) : SE S A :=
  match v with
  | VExc e => raise e
  | _ => raise (mk_exc TypeError "exceptions must derive from BaseException")
  end.



(** [s == v] for a string [s]. *)
Definition str_eq (s : string) (v : pyval) : bool :=
  match v with
  | VStr t => String.eqb s t
  | _ => false
  end.



(** [Reader.contents] is a generator function: calling it runs none of its
    body and returns a generator, which [next] then advances. *)
Inductive contents_generator : Type :=
  | Created (self : Reader)
  | Running (remaining : list string)
  | Exhausted.

Definition contents (self : Reader) : contents_generator := Created self.

(** The [for entry in contents: yield entry] part. *)
Definition contents_step (remaining : list string)
    : result string * contents_generator :=
  match remaining with
  | [] => (Raise (mk_exc StopIteration EmptyString), Exhausted)
  | entry :: rest => (Ok entry, Running rest)
  end.

(** What [next] raises when the body of a generator raised: a
    [StopIteration] does not leave a generator, [RuntimeError] is raised
    in its place. *)
Definition generator_raise {A} (r : result A) : result A :=
  match r with
  | Ok a => Ok a
  | Raise e =>
      if isinstance_exc e StopIteration
      then Raise (mk_exc RuntimeError "generator raised StopIteration")
      else Raise e
  end.

(** [next(g)] on the generator. *)
Definition contents_next : SE contents_generator string :=
  fun g =>
    match g with
    | Created self =>
        if is_Exception_instance (cl_path self) then
          (generator_raise (fst (raise_value (A := string) (cl_path self) g)),
           Exhausted)
        else contents_step (cl_contents self)
    | Running remaining => contents_step remaining
    | Exhausted => (Raise (mk_exc StopIteration EmptyString), Exhausted)
    end.

(** [list(g)]: [next] until [StopIteration]. *)
Fixpoint contents_drain (fuel : nat) (g : contents_generator)
    : result (list string) :=
  match fuel with
  | O => Raise (mk_exc RuntimeError "fuel")
  | S fuel =>
      match contents_next g with
      | (Ok entry, g1) =>
          match contents_drain fuel g1 with
          | Ok l => Ok (entry :: l)
          | Raise e => Raise e
          end
      | (Raise e, _) =>
          if isinstance_exc e StopIteration then Ok [] else Raise e
      end
  end.

(** [create_package(file, path, is_package, contents)]: the module and the
    [Reader] it carries as [__loader__]; [loader] is the identity of that
    new object. *)
Definition create_package (loader : nat) (file path : pyval)
    (is_package : bool) (contents : list string) : module * Reader :=
  let name := "testingpackage" in
  let spec :=
    {| spec_name := name;
       spec_loader := loader;
       spec_origin := Some "does-not-exist";
       spec_submodule_search_locations :=
         if is_package then Some [] else None |} in
  ({| mod_name := name;
      mod_loader := Some loader;
      mod_file := None;
      mod_package := None;
      mod_attr := None;
      mod_path := None;
      mod_spec := Some spec |},
   mk_Reader file path contents None).

End Util.

(** ** Notions used to state the behaviour of the helpers *)

Module UtilNotions.
Import Py Sys Util.

(** The names [uncache] refuses to remove. *)
Definition protected : list string := ["sys"; "marshal"; "imp"].

(** Setting each saved attribute back, in the order of the dictionary
    of originals. *)
Definition restore (o : list (string * pyval)) (a : gmap string pyval)
    : gmap string pyval :=
  fold_left (fun a kv => <[fst kv := snd kv]> a) o a.

(** Every saved value is the value the attribute had in [a0]. *)
Definition saved_from (a0 : gmap string pyval) (o : list (string * pyval))
    : Prop :=
  ∀ k v, (k, v) ∈ o → a0 !! k = Some v.

(** The keyword arguments left once those named [keys] are taken out. *)
Definition remaining (keys : list string) (kw : list (string * pyval))
    : list (string * pyval) :=
  fold_left (fun kw k => dict_del k kw) keys kw.

(** The attributes of [sys] that [import_state] manages. *)
Definition four : list string := import_state_defaults.*1.

(** The part of the locals and of the state the file operations leave
    alone. *)
Definition same_sys (l : create_modules_locals) (w : world)
    (l' : create_modules_locals) (w' : world) : Prop :=
  sys_attrs w' = sys_attrs w ∧ sys_modules w' = sys_modules w ∧
  state_manager l' = state_manager l ∧
  uncache_manager l' = uncache_manager l ∧
  temp_dir l' = temp_dir l ∧ import_names l' = import_names l.

(** A manager whose exit leaves [sys.modules] alone. *)
Definition quiet (m : option (manager world)) : Prop :=
  match m with
  | Some (Suspended rs) =>
      ∀ w, ∃ w', rs None w = (Ok tt, w') ∧ sys_modules w' = sys_modules w
  | _ => True
  end.

(** A manager whose exit deletes [names] from [sys.modules], if it does
    anything. *)
Definition removing (names : list string) (m : option (manager world))
    : Prop :=
  match m with
  | Some (Suspended ru) =>
      ∀ w, ru None w = (Ok tt, with_modules (without names) w)
  | _ => True
  end.

(** Whether the manager was entered and is waiting for its exit. *)
Definition suspended (m : option (manager world)) : bool :=
  match m with
  | Some (Suspended _) => true
  | _ => false
  end.

End UtilNotions.

(** ** Concrete interpreter states, mocks and hosts *)

Module Examples.
Import Py Sys Util.

Definition spam : module :=
  {| mod_name := "spam"; mod_loader := None; mod_file := Some "spam.py";
     mod_package := None; mod_attr := None; mod_path := None;
     mod_spec := None |}.

(** An interpreter with the attributes of [sys] the helpers touch and one
    cached module. *)
Definition interpreter : world :=
  {| sys_attrs :=
       list_to_map
         [("meta_path", VList []); ("path", VList [VStr "/usr/lib/python"]);
          ("path_hooks", VList []); ("path_importer_cache", VDict []);
          ("dont_write_bytecode", VBool false); ("pycache_prefix", VNone)];
     sys_modules := {["spam" := spam]};
     filesystem := ∅ |}.

(** Module code that calls [sys.exit()], and module code that fails. *)
Definition exiting : SE world unit := raise (mk_exc SystemExit EmptyString).
Definition failing : SE world unit := raise (mk_exc RuntimeError "boom").

Definition exiting_mock : ImporterMock :=
  ImporterMock_init 1 ["spam"] {["spam" := exiting]}.

Definition failing_mock : ImporterMock :=
  ImporterMock_init 2 ["eggs"; "pkg.__init__"] {["eggs" := failing]}.

(** The module [eggs] once the import machinery gave it its spec. *)
Definition eggs_loaded : module :=
  {| mod_name := "eggs"; mod_loader := Some 2;
     mod_file := Some "<mock __file__>"; mod_package := None;
     mod_attr := Some "eggs"; mod_path := None;
     mod_spec := Some (mk_spec "eggs" 2 (Some "<mock __file__>") None) |}.

(** A host whose file operations always succeed. *)
Definition simple_host : host :=
  {| mkdtemp := fun fs => (Ok "/tmp/t", <["/tmp/t" := Dir]> fs);
     path_join := fun a b => a +:+ "/" +:+ b;
     path_exists := fun p fs => bool_decide (is_Some (fs !! p));
     mkdir := fun p fs => (Ok tt, <[p := Dir]> fs);
     write_file := fun p c fs => (Ok tt, <[p := File c]> fs);
     rmtree := fun p fs =>
       (Ok tt, filter (fun kv => String.prefix p (fst kv) = false) fs);
     repr := fun s => "'" +:+ s +:+ "'";
     spec_from_file_location := fun name file loader locations =>
       Some (mk_spec name loader (Some file) locations) |}.

End Examples.

(** ** Module-level code of [util.py]: the search for an extension module *)

Module Extensions.
Import Py Sys Util.

(** The namespace [EXTENSIONS]: four attributes that are [None] until the
    search fills them in, and the name of the extension module. *)
Record namespace : Type := mk_namespace {
  path : option string;
  ext : option string;
  filename : option string;
  file_path : option string;
  name : string
}.

Definition EXTENSIONS : namespace :=
  {| path := None; ext := None; filename := None; file_path := None;
     name := "_testcapi" |}.

(** The inner loop, [for ext in machinery.EXTENSION_SUFFIXES], for one
    [path]: [Some] is the namespace at the [return], [None] means the loop
    ran to its end. *)
Fixpoint try_suffixes (h : host) (fs : gmap string fs_node) (E : namespace)
    (path_ : string) (suffixes : list string) : option namespace :=
  match suffixes with
  | [] => None
  | ext_ :: rest =>
      let filename_ := name E +:+ ext_ in
      let file_path_ := path_join h path_ filename_ in
      if path_exists h file_path_ fs then
        Some {| path := Some path_; ext := Some ext_;
                filename := Some filename_; file_path := Some file_path_;
                name := name E |}
      else try_suffixes h fs E path_ rest
  end.

(** [_extension_details()], with [sys.path] and
    [machinery.EXTENSION_SUFFIXES] as lists of strings; it updates the
    global [EXTENSIONS]. *)
Fixpoint _extension_details (h : host) (fs : gmap string fs_node)
    (sys_path suffixes : list string) (E : namespace) : namespace :=
  match sys_path with
  | [] => E
  | path_ :: rest =>
      match try_suffixes h fs E path_ suffixes with
      | Some found => found
      | None => _extension_details h fs rest suffixes E
      end
  end.

End Extensions.

(** ** The importer mocks as context managers *)

Module MockManager.
Import Py Sys Util.

(** [self.modules.keys()] for a mock built from [names].  The dictionary
    itself is kept as a map without order; a Python dictionary lists its
    keys in the order they were first inserted. *)
Definition modules_keys (names : list string) : list string :=
  fold_left
    (fun keys name =>
       let import_name := mock_import_name name in
       if bool_decide (import_name ∈ keys) then keys
       else (keys ++ [import_name])%list)
    names [].

(** [_ImporterMock.__getitem__]. *)
Definition __getitem__ (self : ImporterMock) (name : string)
    : result module :=
  match modules self !! name with
  | Some m => Ok m
  | None => Raise (mk_exc KeyError name)
  end.

(** The attribute [self._uncache], unset until [__enter__] ran.  Once
    [__exit__] resumed the generator it is finished. *)
Definition mock_state : Type := option (manager world) * world.

(** [_ImporterMock.__enter__]; [keys] is [self.modules.keys()]. *)
Definition __enter__ (keys : list string) : SE mock_state unit :=
  enter_manager (fun m _ => Some m) (uncache keys).

(** [_ImporterMock.__exit__]: [self._uncache.__exit__(None, None, None)],
    whatever the arguments. *)
Definition __exit__ : SE mock_state unit :=
  _uncache ← locals;
  match _uncache with
  | None => raise (mk_exc AttributeError "_uncache")
  | Some m =>
      set_locals (fun _ => Some Finished);;
      lift (manager_exit m)
  end.

(** [with mock: body].  [__exit__] returns [None], so an exception of the
    body propagates once [__exit__] returned; one raised by [__exit__]
    replaces it. *)
Definition with_mock (keys : list string) (body : SE world unit)
    : SE mock_state unit :=
  __enter__ keys;;
  try_finally (lift body) __exit__.

End MockManager.

(** ** [ZipSetupBase] *)

Module ZipSetupBase.
Import Py Sys Util.

(** What the class calls in [pathlib] and [importlib]. *)
Record zip_host : Type := mk_zip_host {
  parent : string -> string;
  joinpath : string -> string -> string;
  import_module : string -> SE world module
}.

(** The class the methods are called on: its own attributes.
    [ZIP_MODULE] is [None] in [ZipSetupBase] and a module in [ZipSetup].
    Neither class defines [_zip_path] or [data], so they exist only once
    [setUpClass] set them. *)
Record cls : Type := mk_cls {
  ZIP_MODULE : option module;
  _zip_path : option string;
  data : option module
}.

Definition set__zip_path (v : option string) (c : cls) : cls :=
  mk_cls (ZIP_MODULE c) v (data c).

Definition set_data (v : option module) (c : cls) : cls :=
  mk_cls (ZIP_MODULE c) (_zip_path c) v.

(** Reading an attribute that may be missing. *)
Definition getattr {S A} (attr : string) (v : option A) : SE S A :=
  match v with
  | Some a => mret a
  | None => raise (mk_exc AttributeError attr)
  end.

(** [sys.path.append(x)].  The list object is reached through [sys.path]
    only, so changing it in place is giving the attribute the new items. *)
Definition sys_path_append (x : string) : SE world unit :=
  v ← sys_getattr "path";
  match v with
  | VList items => sys_setattr "path" (VList (items ++ [VStr x]))
  | _ => raise (mk_exc AttributeError "append")
  end.

(** [items.remove(x)] on the items of a list: the first item equal to [x]
    is taken out. *)
Fixpoint list_remove (x : string) (items : list pyval)
    : option (list pyval) :=
  match items with
  | [] => None
  | item :: rest =>
      if str_eq x item then Some rest
      else cons item <$> list_remove x rest
  end.

(** [sys.path.remove(x)]. *)
Definition sys_path_remove (x : string) : SE world unit :=
  v ← sys_getattr "path";
  match v with
  | VList items =>
      match list_remove x items with
      | Some items' => sys_setattr "path" (VList items')
      | None => raise (mk_exc ValueError "list.remove(x): x not in list")
      end
  | _ => raise (mk_exc AttributeError "remove")
  end.

(** [del sys.path_importer_cache[key]]. *)
Definition cache_delitem (key : string) : SE world unit :=
  v ← sys_getattr "path_importer_cache";
  match v with
  | VDict items =>
      if existsb (fun kv => str_eq key (fst kv)) items then
        sys_setattr "path_importer_cache"
          (VDict (List.filter (fun kv => negb (str_eq key (fst kv))) items))
      else raise (mk_exc KeyError key)
  | _ => raise (mk_exc TypeError "object does not support item deletion")
  end.

(** [ZipSetupBase.setUpClass]. *)
Definition setUpClass (h : zip_host) : SE (cls * world) unit :=
  c ← locals;
  data_path ← getattr "__file__" (ZIP_MODULE c ≫= mod_file);
  let data_dir := parent h data_path in
  set_locals (set__zip_path (Some (joinpath h data_dir "ziptestdata.zip")));;
  c ← locals;
  zip_path ← getattr "_zip_path" (_zip_path c);
  lift (sys_path_append zip_path);;
  m ← lift (import_module h "ziptestdata");
  set_locals (set_data (Some m)).

(** [ZipSetupBase.tearDownClass]: three [try] statements in a row. *)
Definition tearDownClass : SE (cls * world) unit :=
  try_except
    (c ← locals;
     zip_path ← getattr "_zip_path" (_zip_path c);
     lift (sys_path_remove zip_path))
    ValueError (fun _ => mret tt);;
  try_except
    (c ← locals;
     zip_path ← getattr "_zip_path" (_zip_path c);
     lift (cache_delitem zip_path);;
     c ← locals;
     d ← getattr "data" (data c);
     lift (modules_delitem (mod_name d)))
    KeyError (fun _ => mret tt);;
  try_except
    (c ← locals;
     _ ← getattr (A := module) "data" (data c);
     set_locals (set_data None);;
     c ← locals;
     _ ← getattr (A := string) "_zip_path" (_zip_path c);
     set_locals (set__zip_path None))
    AttributeError (fun _ => mret tt).

End ZipSetupBase.

(** ** [ensure_bytecode_path] *)

Module Bytecode.
Import Py Sys Util.

(** What the function needs of [os.path] and of [OSError] objects: the
    directory part of a path, and the [errno] attribute of an exception,
    which may be [None]. *)
Record os_host : Type := mk_os_host {
  dirname : string -> string;
  errno : exc -> option Z
}.

(** [errno.EEXIST]. *)
Definition EEXIST : Z := 17.

(** [ensure_bytecode_path(bytecode_path)]. *)
Definition ensure_bytecode_path (h : host) (o : os_host)
    (bytecode_path : string) : SE world unit :=
  try_except (on_fs (mkdir h (dirname o bytecode_path))) OSError
    (fun error =>
       if negb (bool_decide (errno o error = Some EEXIST)) then raise error
       else mret tt).

End Bytecode.

(** ** Further notions used to state the behaviour of the helpers *)

Module MoreNotions.
Import Py Sys Util.

(** The namespace the search leaves when it found the suffix [ext_] under
    the directory [path_]. *)
Definition found_at (h : host) (E : Extensions.namespace)
    (path_ ext_ : string) : Extensions.namespace :=
  {| Extensions.path := Some path_; Extensions.ext := Some ext_;
     Extensions.filename := Some (Extensions.name E +:+ ext_);
     Extensions.file_path :=
       Some (path_join h path_ (Extensions.name E +:+ ext_));
     Extensions.name := Extensions.name E |}.

(** The shape of a module made by [__init__] for [name]. *)
Definition made_for (id : nat) (k : string) (m : module) (name : string)
    : Prop :=
  mock_import_name name = k ∧
  mod_name m = k ∧ mod_loader m = Some id ∧
  mod_file m = Some "<mock __file__>" ∧ mod_spec m = None ∧
  mod_attr m = Some name ∧
  (name = k →
   mod_path m = None ∧
   mod_package m =
     if Str.contains "." name then Some (Str.rsplit1_head "." name)
     else None) ∧
  (name ≠ k →
   name = k +:+ ".__init__" ∧
   mod_path m = Some ["<mock __path__>"] ∧ mod_package m = Some k).

(** The file [create_modules] writes for [name] under [temp_dir]: one
    directory for each part of the dotted name but the last, then the last
    part with [.py]. *)
Definition module_file_path (h : host) (temp_dir name : string) : string :=
  let name_parts := Str.split "." name in
  path_join h
    (fold_left (path_join h) (List.removelast name_parts) temp_dir)
    (List.last name_parts EmptyString +:+ ".py").

(** The dictionary [create_modules] yields. *)
Definition created_mapping (h : host) (temp_dir : string)
    (names : list string) : gmap string string :=
  fold_left (fun m name => <[name := module_file_path h temp_dir name]> m)
    names {[".root" := temp_dir]}.

(** A [mkdir] that, like the one of POSIX, fails with the [OSError] of
    [EEXIST] and changes nothing when it is asked for a directory that an
    earlier [mkdir] made or found to exist. *)
Definition mkdir_reports_existing (h : host) (o : Bytecode.os_host)
    : Prop :=
  ∀ p fs r fs',
    mkdir h p fs = (r, fs') →
    (r = Ok tt ∨
     ∃ e, r = Raise e ∧ isinstance_exc e OSError = true ∧
          Bytecode.errno o e = Some Bytecode.EEXIST) →
    ∃ e, mkdir h p fs' = (Raise e, fs') ∧
         isinstance_exc e OSError = true ∧
         Bytecode.errno o e = Some Bytecode.EEXIST.

End MoreNotions.

(** ** More concrete hosts and states *)

Module MoreExamples.
Import Py Sys Util Examples.

(** A host on a full disk: [mkdtemp] fails. *)
Definition full_disk_host : host :=
  {| mkdtemp := fun fs => (Raise (mk_exc OSError "No space left"), fs);
     path_join := path_join simple_host;
     path_exists := path_exists simple_host;
     mkdir := mkdir simple_host;
     write_file := write_file simple_host;
     rmtree := rmtree simple_host;
     repr := repr simple_host;
     spec_from_file_location := spec_from_file_location simple_host |}.

(** An interpreter whose [sys] has none of the attributes. *)
Definition bare_interpreter : world :=
  {| sys_attrs := ∅; sys_modules := ∅; filesystem := ∅ |}.

(** A host whose [mkdir] refuses a path that exists, and the [errno] of
    its error. *)
Definition posix_host : host :=
  {| mkdtemp := mkdtemp simple_host;
     path_join := path_join simple_host;
     path_exists := path_exists simple_host;
     mkdir := fun p fs =>
       match fs !! p with
       | Some _ => (Raise (mk_exc OSError "File exists"), fs)
       | None => (Ok tt, <[p := Dir]> fs)
       end;
     write_file := write_file simple_host;
     rmtree := rmtree simple_host;
     repr := repr simple_host;
     spec_from_file_location := spec_from_file_location simple_host |}.

Definition posix_errors : Bytecode.os_host :=
  {| Bytecode.dirname := Str.rsplit1_head "/";
     Bytecode.errno := fun e =>
       if String.eqb (exc_msg e) "File exists" then Some Bytecode.EEXIST
       else None |}.

(** A file system with one extension module. *)
Definition lib_dynload : gmap string fs_node :=
  {["/lib/_testcapi.so" := File "ELF"]}.

Definition zipdata01 : module :=
  {| mod_name := "zipdata01"; mod_loader := None;
     mod_file := Some "/t/zipdata01/__init__.py";
     mod_package := Some "zipdata01"; mod_attr := None;
     mod_path := Some ["/t/zipdata01"]; mod_spec := None |}.

Definition ziptestdata : module :=
  {| mod_name := "ziptestdata"; mod_loader := Some 7;
     mod_file := Some "/t/zipdata01/ziptestdata.zip/ziptestdata/__init__.py";
     mod_package := Some "ziptestdata"; mod_attr := None;
     mod_path := Some ["/t/zipdata01/ziptestdata.zip/ziptestdata"];
     mod_spec := None |}.

Definition zip_path : string := "/t/zipdata01/ziptestdata.zip".

(** An import system that finds [ziptestdata] through a zip importer, which
    it caches under the path of the archive. *)
Definition zip_importer : ZipSetupBase.zip_host :=
  {| ZipSetupBase.parent := Str.rsplit1_head "/";
     ZipSetupBase.joinpath := fun a b => a +:+ "/" +:+ b;
     ZipSetupBase.import_module := fun name w =>
       (Ok ziptestdata,
        with_modules (insert name ziptestdata)
          (with_attrs
             (insert "path_importer_cache" (VDict [(VStr zip_path, VObj 7)]))
             w)) |}.

(** The class [ZipSetup] before [setUpClass] and after it. *)
Definition ZipSetup : ZipSetupBase.cls :=
  {| ZipSetupBase.ZIP_MODULE := Some zipdata01;
     ZipSetupBase._zip_path := None; ZipSetupBase.data := None |}.

Definition ZipSetup_ready : ZipSetupBase.cls :=
  {| ZipSetupBase.ZIP_MODULE := Some zipdata01;
     ZipSetupBase._zip_path := Some zip_path;
     ZipSetupBase.data := Some ziptestdata |}.

(** The interpreter after [setUpClass], with the importer cached or not. *)
Definition zip_interpreter (cached : bool) : world :=
  {| sys_attrs :=
       list_to_map
         [("path", VList [VStr "/usr/lib/python"; VStr zip_path]);
          ("path_importer_cache",
           VDict (if cached then [(VStr zip_path, VObj 7)] else []))];
     sys_modules := {["ziptestdata" := ziptestdata]};
     filesystem := ∅ |}.

End MoreExamples.

Module UtilFacts.
Import Py Sys Util UtilNotions.

(** Unfold the monad, one layer of it. *)
Ltac se_unfold :=
  unfold mbind, mret, SE_bind, SE_ret, bind, ret, raise, modify, get,
    lift, locals, set_locals, try_except, try_finally, thrown in *.

Lemma world_eq (w w' : world) :
  sys_attrs w = sys_attrs w' -> sys_modules w = sys_modules w' ->
  filesystem w = filesystem w' -> w = w'.
Proof. destruct w, w'; simpl; intros; subst; reflexivity. Qed.

Lemma lookup_without names (m : gmap string module) k :
  without names m !! k = if bool_decide (k ∈ names) then None else m !! k.
Proof.
  unfold without. revert m.
  induction names as [|n names IH]; intros m; simpl.
  - reflexivity.
  - rewrite IH. destruct (decide (k = n)) as [->|Hne].
    + rewrite lookup_delete_eq.
      rewrite (bool_decide_eq_true_2 (n ∈ n :: names)) by left.
      by destruct (bool_decide _).
    + rewrite lookup_delete_ne by done.
      destruct (decide (k ∈ names)) as [Hin|Hout].
      * rewrite !bool_decide_eq_true_2; [done| by right | done].
      * rewrite !bool_decide_eq_false_2; [done| | done].
        intros [?|?]%elem_of_cons; done.
Qed.

Lemma discard_module_run name w :
  discard_module name w = (Ok tt, with_modules (delete name) w).
Proof.
  unfold discard_module, modules_delitem. se_unfold.
  destruct (sys_modules w !! name) eqn:Hk; simpl.
  - reflexivity.
  - f_equal. apply world_eq; simpl; try reflexivity.
    symmetry. by apply delete_id.
Qed.

Lemma for_each_discard_run names w :
  for_each names discard_module w = (Ok tt, with_modules (without names) w).
Proof.
  revert w. induction names as [|n names IH]; intros w; simpl.
  - unfold ret. f_equal. by destruct w.
  - unfold bind. rewrite discard_module_run, IH. f_equal.
Qed.

Lemma uncache_one_run name w :
  uncache_one name w =
  if bool_decide (name ∈ protected)
  then (Raise (mk_exc ValueError ("cannot uncache " +:+ name)), w)
  else (Ok tt, with_modules (delete name) w).
Proof.
  unfold uncache_one, protected. case_bool_decide.
  - reflexivity.
  - apply discard_module_run.
Qed.

(** The first loop of [uncache] deletes a prefix [done] of the names and
    stops at the first protected one. *)
Lemma for_each_uncache_one_run names w :
  ∃ done,
    (∀ n, n ∈ done → n ∈ names) ∧
    snd (for_each names uncache_one w) = with_modules (without done) w ∧
    match fst (for_each names uncache_one w) with
    | Ok _ => done = names ∧ ∀ n, n ∈ names → n ∉ protected
    | Raise e =>
        ∃ n, n ∈ names ∧ n ∈ protected ∧
             e = mk_exc ValueError ("cannot uncache " +:+ n)
    end.
Proof.
  revert w. induction names as [|n names IH]; intros w; simpl.
  - exists []. split; [done|]. split.
    + by destruct w.
    + split; [done|]. intros n Hn. by apply elem_of_nil in Hn.
  - unfold bind. rewrite uncache_one_run. case_bool_decide as Hp.
    + exists []. simpl. split; [intros ? Hn; by apply elem_of_nil in Hn|].
      split; [by destruct w|].
      exists n. split; [left|done].
    + destruct (IH (with_modules (delete n) w)) as (done & Hsub & Hw & Hr).
      exists (n :: done). split.
      { intros k [->|Hk]%elem_of_cons; [left|right; auto]. }
      split; [rewrite Hw; reflexivity|].
      destruct (fst (for_each names uncache_one (with_modules (delete n) w))).
      * destruct Hr as [-> Hr]. split; [done|].
        intros k [->|Hk]%elem_of_cons; auto.
      * destruct Hr as (k & Hk & Hkp & ->). exists k.
        split; [by right|done].
Qed.

(** What [uncache] does when it is entered, and when it is resumed. *)
Lemma uncache_run names w :
  ∃ done,
    (∀ n, n ∈ done → n ∈ names) ∧
    match uncache names w with
    | (Raise e, w') =>
        w' = with_modules (without done) w ∧
        ∃ n, n ∈ names ∧ n ∈ protected ∧
             e = mk_exc ValueError ("cannot uncache " +:+ n)
    | (Ok (_, resume), w') =>
        (∀ n, n ∈ names → n ∉ protected) ∧
        w' = with_modules (without names) w ∧
        ∀ t w2,
          resume t w2 =
          (match t with None => Ok tt | Some e => Raise e end,
           with_modules (without names) w2)
    end.
Proof.
  destruct (for_each_uncache_one_run names w) as (done & Hsub & Hw & Hr).
  exists done. split; [done|].
  unfold uncache. unfold mbind, SE_bind, bind.
  destruct (for_each names uncache_one w) as [[[]|e] w1] eqn:Hloop;
    simpl in Hw, Hr; subst w1.
  - destruct Hr as [-> Hr]. unfold try_yield_finally, mret, SE_ret, ret.
    simpl. split; [done|]. split; [done|].
    intros t w2. unfold try_finally, lift, thrown. simpl.
    destruct t; unfold raise, ret; simpl;
      rewrite for_each_discard_run; reflexivity.
  - split; [done|]. done.
Qed.

(** *** [import_state] *)

Lemma restore_run o l w :
  for_each o import_state_reset (l, w) = (Ok tt, (l, with_attrs (restore o) w)).
Proof.
  revert w. induction o as [|[k v] o IH]; intros w; simpl.
  - unfold ret. do 2 f_equal. by destruct w.
  - unfold bind, import_state_reset at 1, lift, sys_setattr, modify. simpl.
    rewrite IH. reflexivity.
Qed.

Lemma lookup_restore a0 o a k :
  saved_from a0 o →
  restore o a !! k = if bool_decide (k ∈ o.*1) then a0 !! k else a !! k.
Proof.
  unfold restore. revert a. induction o as [|[k' v] o IH]; intros a Hs; simpl.
  - reflexivity.
  - rewrite IH by (intros ? ? ?; apply Hs; by right).
    destruct (decide (k ∈ o.*1)) as [Hin|Hout].
    + rewrite !bool_decide_eq_true_2; [done|by right|done].
    + rewrite (bool_decide_eq_false_2 (k ∈ o.*1)) by done.
      destruct (decide (k = k')) as [->|Hne].
      * rewrite bool_decide_eq_true_2 by left.
        rewrite lookup_insert_eq. symmetry. apply Hs. left.
      * rewrite bool_decide_eq_false_2.
        -- by rewrite lookup_insert_ne.
        -- intros [?|?]%elem_of_cons; done.
Qed.

Lemma elem_of_dict_set {V} k (v : V) d kv :
  kv ∈ dict_set k v d → kv = (k, v) ∨ kv ∈ d.
Proof.
  induction d as [|[k' v'] d IH]; simpl.
  - intros ->%list_elem_of_singleton. by left.
  - destruct (String.eqb k' k).
    + intros [->|?]%elem_of_cons; [by left|right; by right].
    + intros [->|H]%elem_of_cons; [right; left|].
      destruct (IH H); [by left|right; by right].
Qed.

Lemma dict_set_keys {V} k (v : V) d k' :
  k' ∈ (dict_set k v d).*1 ↔ k' = k ∨ k' ∈ d.*1.
Proof.
  induction d as [|[k1 v1] d IH]; simpl.
  - rewrite list_elem_of_singleton. split; [by left|]. intros [?|H]; [done|].
    by apply elem_of_nil in H.
  - destruct (String.eqb_spec k1 k) as [->|Hne]; simpl.
    + rewrite !elem_of_cons. tauto.
    + rewrite !elem_of_cons, IH. tauto.
Qed.

Lemma dict_get_None_del {V} k (d : list (string * V)) :
  dict_get k d = None → dict_del k d = d.
Proof.
  unfold dict_del. induction d as [|[k1 v1] d IH]; simpl; [done|].
  destruct (String.eqb k1 k); simpl; [done|].
  intros H. by rewrite IH.
Qed.

Lemma dict_get_del_ne {V} k k' (d : list (string * V)) :
  k ≠ k' → dict_get k (dict_del k' d) = dict_get k d.
Proof.
  intros Hne. unfold dict_del. induction d as [|[k1 v1] d IH]; simpl; [done|].
  destruct (String.eqb_spec k1 k') as [->|H1]; simpl.
  - destruct (String.eqb_spec k' k) as [->|]; [done|]. apply IH.
  - rewrite IH. reflexivity.
Qed.

Lemma dict_del_keys {V} k (d : list (string * V)) k' :
  k' ∈ (dict_del k d).*1 ↔ k' ≠ k ∧ k' ∈ d.*1.
Proof.
  unfold dict_del. induction d as [|[k1 v1] d IH]; simpl.
  - split; [intros H; by apply elem_of_nil in H|intros [_ H]; done].
  - destruct (String.eqb_spec k1 k) as [->|H1]; simpl.
    + rewrite IH, elem_of_cons. split; [tauto|]. intros [? [?|?]]; done.
    + rewrite !elem_of_cons, IH. split; [|tauto].
      intros [->|[? ?]]; [split; [done|by left]|split; [done|by right]].
Qed.

(** One turn of the loop. *)
Lemma import_state_assign_run attr d o kw w :
  import_state_assign (attr, d) (mk_import_state_locals o kw, w) =
  match sys_attrs w !! attr with
  | None =>
      (Raise (mk_exc AttributeError attr), (mk_import_state_locals o kw, w))
  | Some v =>
      (Ok tt,
       (mk_import_state_locals (dict_set attr v o) (dict_del attr kw),
        with_attrs (insert attr (default d (dict_get attr kw))) w))
  end.
Proof.
  unfold import_state_assign, sys_getattr, sys_setattr. se_unfold. simpl.
  destruct (sys_attrs w !! attr) as [v|] eqn:Ha; simpl; [|done].
  destruct (dict_get attr kw) as [g|] eqn:Hg; simpl; [done|].
  by rewrite dict_get_None_del.
Qed.

(** The loop, from any point on: the attributes saved so far are the
    original ones, and only saved attributes were assigned. *)
Lemma import_state_loop_run a0 ds :
  ∀ o kw w r l' w',
    NoDup ds.*1 →
    (∀ k, k ∈ ds.*1 → k ∉ o.*1) →
    saved_from a0 o →
    (∀ k, k ∉ o.*1 → sys_attrs w !! k = a0 !! k) →
    for_each ds import_state_assign (mk_import_state_locals o kw, w)
      = (r, (l', w')) →
    saved_from a0 (originals l') ∧
    (∀ k, k ∉ (originals l').*1 → sys_attrs w' !! k = a0 !! k) ∧
    (∀ k, k ∉ ds.*1 → sys_attrs w' !! k = sys_attrs w !! k) ∧
    (∀ k, k ∈ (originals l').*1 → k ∈ o.*1 ∨ k ∈ ds.*1) ∧
    (∀ k, k ∈ o.*1 → k ∈ (originals l').*1) ∧
    sys_modules w' = sys_modules w ∧
    filesystem w' = filesystem w ∧
    match r with
    | Ok _ =>
        kwargs l' = remaining ds.*1 kw ∧
        ∀ k d, (k, d) ∈ ds →
          is_Some (a0 !! k) ∧ k ∈ (originals l').*1 ∧
          sys_attrs w' !! k = Some (default d (dict_get k kw))
    | Raise e =>
        ∃ k, k ∈ ds.*1 ∧ a0 !! k = None ∧ e = mk_exc AttributeError k
    end.
Proof.
  induction ds as [|[k d] ds IH]; intros o kw w r l' w' Hnd Hdisj Hsaved Hframe.
  - simpl. unfold ret. intros [= <- <- <-]. simpl.
    split_and!; auto.
    intros ? ? Hin. by apply elem_of_nil in Hin.
  - simpl in Hnd. apply NoDup_cons in Hnd as [Hk Hnd].
    assert (Hko : k ∉ o.*1) by (apply Hdisj; simpl; left).
    cbn [for_each]. unfold bind. rewrite import_state_assign_run.
    destruct (sys_attrs w !! k) as [v|] eqn:Hv.
    + intros Hrun.
      assert (Hav : a0 !! k = Some v) by (rewrite <- Hframe; done).
      eapply IH in Hrun as (Hs & Hf & Hfr & Hkeys & Hsub & Hm & Hfs & Hr);
        [|done|..].
      * split_and!; try done.
        -- intros k' Hk'. rewrite Hfr.
           ++ simpl. apply lookup_insert_ne. intros ->.
              apply Hk'. simpl. left.
           ++ intros ?. apply Hk'. simpl. by right.
        -- intros k' Hk'. destruct (Hkeys k' Hk') as [Ho|Hd].
           ++ apply dict_set_keys in Ho as [->|Ho];
                [right; simpl; left|by left].
           ++ right. simpl. by right.
        -- intros k' Hk'. apply Hsub. apply dict_set_keys. by right.
        -- destruct r as [[]|e].
           ++ destruct Hr as [Hkw Hvals]. split; [done|].
              intros k' d' [[= -> ->]|Hin]%elem_of_cons.
              ** split; [by eexists|]. split.
                 { apply Hsub. apply dict_set_keys. by left. }
                 rewrite Hfr by done. simpl. apply lookup_insert_eq.
              ** destruct (Hvals k' d' Hin) as (? & ? & Hval).
                 split; [done|]. split; [done|].
                 rewrite Hval. rewrite dict_get_del_ne; [done|].
                 intros ->. apply Hk.
                 apply list_elem_of_fmap. by exists (k, d').
           ++ destruct Hr as (k' & Hk' & Hnone & ->). exists k'.
              split; [simpl; by right|done].
      * intros k' Hk' [->|Ho]%dict_set_keys; [done|].
        apply (Hdisj k'); [simpl; by right|done].
      * intros k' v' [[= -> ->]|Hin]%elem_of_dict_set; [done|by apply Hsaved].
      * intros k' Hk'. simpl.
        assert (k' ≠ k) by (intros ->; apply Hk'; apply dict_set_keys; by left).
        rewrite lookup_insert_ne by done.
        apply Hframe. intros ?. apply Hk'. apply dict_set_keys. by right.
    + intros [= <- <- <-]. simpl. split_and!; auto.
      exists k. split; [simpl; left|].
      split; [|done]. rewrite <- Hframe; done.
Qed.

Lemma remaining_keys keys (kw : list (string * pyval)) k :
  k ∈ (remaining keys kw).*1 ↔ (k ∉ keys) ∧ k ∈ (kw.*1).
Proof.
  unfold remaining. revert kw.
  induction keys as [|k' keys IH]; intros kw; simpl.
  - split; [intros ?; split; [apply not_elem_of_nil|done]|by intros [_ ?]].
  - rewrite IH, dict_del_keys, not_elem_of_cons. tauto.
Qed.

Lemma import_state_restore_run l w :
  import_state_restore (l, w) =
  (Ok tt, (l, with_attrs (restore (originals l)) w)).
Proof.
  unfold import_state_restore. se_unfold. simpl. apply restore_run.
Qed.

(** What [import_state] does when it is entered, and when it is resumed. *)
Lemma import_state_run kw w :
  match import_state kw w with
  | (Raise e, w') =>
      w' = w ∧
      ((∃ k, k ∈ four ∧ sys_attrs w !! k = None ∧
             e = mk_exc AttributeError k) ∨
       ((∀ k, k ∈ four → is_Some (sys_attrs w !! k)) ∧
        remaining four kw ≠ [] ∧
        e = mk_exc ValueError
              ("unrecognized arguments: " +:+
               dict_keys_repr (remaining four kw))))
  | (Ok (_, resume), w1) =>
      remaining four kw = [] ∧
      (∀ k d, (k, d) ∈ import_state_defaults →
         is_Some (sys_attrs w !! k) ∧
         sys_attrs w1 !! k = Some (default d (dict_get k kw))) ∧
      (∀ k, k ∉ four → sys_attrs w1 !! k = sys_attrs w !! k) ∧
      sys_modules w1 = sys_modules w ∧
      filesystem w1 = filesystem w ∧
      ∃ o, saved_from (sys_attrs w) o ∧ (∀ k, k ∈ o.*1 ↔ k ∈ four) ∧
           ∀ t w2,
             resume t w2 =
             (match t with None => Ok tt | Some e => Raise e end,
              with_attrs (restore o) w2)
  end.
Proof.
  unfold import_state, try_yield_finally, import_state_replace.
  unfold mbind at 1, SE_bind at 1, bind at 1.
  destruct (for_each import_state_defaults import_state_assign
              (mk_import_state_locals [] kw, w)) as [r [l1 w1]] eqn:Hloop.
  apply (import_state_loop_run (sys_attrs w)) in Hloop
    as (Hs & Hf & Hfr & Hkeys & _ & Hm & Hfs & Hr).
  2:{ unfold import_state_defaults. simpl.
      repeat (apply NoDup_cons; split;
              [rewrite ?elem_of_cons, ?elem_of_nil; intros H;
               intuition discriminate|]).
      apply NoDup_nil_2. }
  2:{ intros ? _. simpl. apply not_elem_of_nil. }
  2:{ intros ? ? H. by apply elem_of_nil in H. }
  2:{ done. }
  assert (Hback : with_attrs (restore (originals l1)) w1 = w).
  { apply world_eq; simpl; [|done|done].
    apply map_eq. intros k. rewrite (lookup_restore (sys_attrs w)) by done.
    case_bool_decide; [done|]. by apply Hf. }
  destruct r as [[]|e].
  - destruct Hr as [Hkw Hvals].
    unfold mbind, SE_bind, bind, locals. simpl. rewrite Hkw.
    fold four. destruct (remaining four kw) as [|kv rest] eqn:Hrem; simpl.
    + unfold mret, SE_ret, ret. simpl.
      split; [exact Hrem|]. split.
      { intros k d Hin. destruct (Hvals k d Hin) as (? & ? & ?). done. }
      split; [apply Hfr|]. split; [done|]. split; [done|].
      exists (originals l1). split; [done|]. split.
      { intros k. split.
        - intros Hk. destruct (Hkeys k Hk) as [Ho|Hd]; [|done].
          simpl in Ho. by apply elem_of_nil in Ho.
        - intros Hk. apply list_elem_of_fmap in Hk as ([k' d] & -> & Hin).
          destruct (Hvals k' d Hin) as (? & ? & ?). done. }
      intros t w2. unfold try_finally.
      destruct t; unfold thrown, raise, ret; simpl;
        rewrite import_state_restore_run; reflexivity.
    + unfold raise. rewrite import_state_restore_run.
      cbn [fst snd]. split; [exact Hback|]. right. split.
      { intros k Hk. apply list_elem_of_fmap in Hk as ([k' d] & -> & Hin).
        destruct (Hvals k' d Hin) as (? & ? & ?). done. }
      change (dict_del "path_importer_cache"
                (dict_del "path_hooks"
                   (dict_del "path" (dict_del "meta_path" kw))))
        with (remaining four kw).
      rewrite Hrem. split; [done|reflexivity].
  - rewrite import_state_restore_run. simpl. split; [done|]. left.
    destruct Hr as (k & Hk & Hnone & ->). by exists k.
Qed.

Lemma remaining_nil kw :
  remaining four kw = [] ↔ ∀ k, k ∈ kw.*1 → k ∈ four.
Proof.
  split.
  - intros Hnil k Hk. destruct (decide (k ∈ four)) as [|Hout]; [done|].
    assert (Hin : k ∈ (remaining four kw).*1) by (by apply remaining_keys).
    rewrite Hnil in Hin. by apply elem_of_nil in Hin.
  - intros Hall.
    destruct (remaining four kw) as [|[k v] rest] eqn:Hrem; [done|].
    assert (Hin : k ∈ (remaining four kw).*1) by (rewrite Hrem; simpl; left).
    apply remaining_keys in Hin as [Hout Hin]. destruct Hout. by apply Hall.
Qed.

Lemma temporary_pycache_prefix_run prefix w :
  match temporary_pycache_prefix prefix w with
  | (Raise e, w') => w' = w ∧ sys_attrs w !! "pycache_prefix" = None
  | (Ok (_, resume), w1) =>
      ∃ orig, sys_attrs w !! "pycache_prefix" = Some orig ∧
        w1 = with_attrs (insert "pycache_prefix" prefix) w ∧
        ∀ t w2,
          resume t w2 =
          (match t with None => Ok tt | Some e => Raise e end,
           with_attrs (insert "pycache_prefix" orig) w2)
  end.
Proof.
  unfold temporary_pycache_prefix, sys_getattr, sys_setattr, try_yield_finally.
  se_unfold. destruct (sys_attrs w !! "pycache_prefix") as [orig|] eqn:Ho.
  - simpl. exists orig. split; [done|]. split; [done|].
    intros [e|] w2; reflexivity.
  - done.
Qed.

(** C1.  Whatever the keyword arguments and however the block ends,
    [import_state] leaves the four attributes of [sys] as it found them;
    when the four attributes exist and the keywords are among them, the
    block runs with each attribute replaced by the value given for it, or
    by its default, and its outcome is the outcome of the [with] statement.
    [temporary_pycache_prefix] does the same with [sys.pycache_prefix], and
    the wrapper that [writes_bytecode_files] returns does the same with
    [sys.dont_write_bytecode] around the wrapped function. *)
Theorem sys_attributes_restored :
  (∀ kw (body : unit → SE world unit) w,
     (∀ k, k ∈ four →
        sys_attrs (with_ (import_state kw) body w).2 !! k = sys_attrs w !! k) ∧
     ((∀ k, k ∈ four → is_Some (sys_attrs w !! k)) →
      (∀ k, k ∈ kw.*1 → k ∈ four) →
      ∃ w1,
        (∀ k d, (k, d) ∈ import_state_defaults →
           sys_attrs w1 !! k = Some (default d (dict_get k kw))) ∧
        (with_ (import_state kw) body w).1 = (body tt w1).1)) ∧
  (∀ prefix (body : unit → SE world unit) w,
     sys_attrs (with_ (temporary_pycache_prefix prefix) body w).2
       !! "pycache_prefix" = sys_attrs w !! "pycache_prefix" ∧
     (is_Some (sys_attrs w !! "pycache_prefix") →
      ∃ w1,
        sys_attrs w1 !! "pycache_prefix" = Some prefix ∧
        (with_ (temporary_pycache_prefix prefix) body w).1 = (body tt w1).1)) ∧
  (∀ Args (fxn : Args → SE world pyval) w0 wrapper w0' args w,
     writes_bytecode_files fxn w0 = (Ok wrapper, w0') →
     sys_attrs (wrapper args w).2 !! "dont_write_bytecode"
       = sys_attrs w !! "dont_write_bytecode" ∧
     (∀ flag, sys_attrs w0 !! "dont_write_bytecode" = Some flag →
        truthy flag = false →
        is_Some (sys_attrs w !! "dont_write_bytecode") →
        ∃ w1,
          sys_attrs w1 !! "dont_write_bytecode" = Some (VBool false) ∧
          (wrapper args w).1 = (fxn args w1).1)).
Proof.
  split_and!.
  - intros kw body w. unfold with_.
    pose proof (import_state_run kw w) as Hrun.
    destruct (import_state kw w) as [[[[] resume]|e] w1].
    + destruct Hrun as (Hrem & Hvals & _ & _ & _ & o & Hs & Hkeys & Hres).
      split.
      * intros k Hk.
        destruct (body tt w1) as [[[]|e] w2]; rewrite Hres; simpl;
          rewrite (lookup_restore (sys_attrs w)) by done;
          rewrite bool_decide_eq_true_2 by (by apply Hkeys); done.
      * intros _ _. exists w1. split.
        { intros k d Hin. by destruct (Hvals k d Hin). }
        destruct (body tt w1) as [[[]|e] w2]; rewrite Hres; done.
    + destruct Hrun as [-> Hcase]. split; [done|].
      intros Hpresent Hkw. exfalso.
      destruct Hcase as [(k & Hk & Hnone & _)|(_ & Hrem & _)].
      * destruct (Hpresent k Hk) as [? ?]. congruence.
      * by apply Hrem, remaining_nil.
  - intros prefix body w. unfold with_.
    pose proof (temporary_pycache_prefix_run prefix w) as Hrun.
    destruct (temporary_pycache_prefix prefix w) as [[[[] resume]|e] w1].
    + destruct Hrun as (orig & Ho & -> & Hres). split.
      * destruct (body tt _) as [[[]|e] w2]; rewrite Hres; simpl;
          by rewrite lookup_insert_eq.
      * intros _. exists (with_attrs (insert "pycache_prefix" prefix) w).
        split; [apply lookup_insert_eq|].
        destruct (body tt _) as [[[]|e] w2]; rewrite Hres; done.
    + destruct Hrun as [-> Hnone]. split; [done|].
      intros [? ?]. congruence.
  - intros Args fxn w0 wrapper w0' args w.
    unfold writes_bytecode_files, sys_getattr, sys_setattr. se_unfold.
    destruct (sys_attrs w0 !! "dont_write_bytecode") as [flag|] eqn:Hf;
      [|discriminate].
    destruct (truthy flag) eqn:Ht; intros [= <- <-].
    + split; [done|]. intros ? [= <-]. congruence.
    + destruct (sys_attrs w !! "dont_write_bytecode") as [orig|] eqn:Ho.
      * split.
        -- destruct (fxn args _) as [[v|e] w2]; simpl;
             by rewrite lookup_insert_eq.
        -- intros _ _ _ _.
           exists (with_attrs (insert "dont_write_bytecode" (VBool false)) w).
           split; [apply lookup_insert_eq|].
           destruct (fxn args _) as [[v|e] w2]; done.
      * split; [done|]. intros _ _ _ [? ?]. congruence.
Qed.

(** C10.  When the four attributes exist and some keyword is not one of
    them, entering [import_state] raises [ValueError] and the interpreter
    state is the one before the call: the four attributes that were
    replaced are back, and the block of the [with] statement is not run. *)
Theorem import_state_unrecognized kw w k :
  k ∈ kw.*1 →
  k ∉ four →
  (∀ a, a ∈ four → is_Some (sys_attrs w !! a)) →
  ∃ msg,
    import_state kw w = (Raise (mk_exc ValueError msg), w) ∧
    ∀ body, with_ (import_state kw) body w = (Raise (mk_exc ValueError msg), w).
Proof.
  intros Hk Hout Hpresent.
  pose proof (import_state_run kw w) as Hrun. unfold with_.
  destruct (import_state kw w) as [[[[] resume]|e] w1].
  - destruct Hrun as (Hrem & _). exfalso. apply Hout.
    by apply (proj1 (remaining_nil kw)).
  - destruct Hrun as [-> [(a & Ha & Hnone & _)|(_ & _ & ->)]].
    + destruct (Hpresent a Ha) as [? ?]. congruence.
    + eexists. split; [reflexivity|]. intros body. reflexivity.
Qed.

(** *** [create_modules] *)

Lemma make_directories_frame h dirs :
  ∀ fp l w r l' w',
    make_directories h dirs fp (l, w) = (r, (l', w')) → same_sys l w l' w'.
Proof.
  induction dirs as [|d dirs IH]; intros fp l w r l' w'; cbn [make_directories].
  - unfold mret, SE_ret, ret. intros [= <- <- <-]. by repeat split.
  - unfold on_fs. se_unfold. cbn [fst snd].
    destruct (path_exists h (path_join h fp d) (filesystem w)); cbn [negb].
    + intros Hrun. apply IH in Hrun. exact Hrun.
    + cbn beta iota. cbn [fst snd].
      destruct (mkdir h (path_join h fp d) (filesystem w)) as [[[]|e] fs1].
      * cbn [fst snd]. intros Hrun. apply IH in Hrun.
        destruct Hrun as (? & ? & ? & ? & ? & ?). by repeat split.
      * cbn [fst snd]. intros [= <- <- <-]. by repeat split.
Qed.

Lemma bind_inv {S A B} (m : SE S A) (k : A → SE S B) s r s' :
  (m ≫= k) s = (r, s') →
  (∃ a s1, m s = (Ok a, s1) ∧ k a s1 = (r, s')) ∨
  (∃ e, m s = (Raise e, s') ∧ r = Raise e).
Proof.
  unfold mbind, SE_bind, bind. destruct (m s) as [[a|e] s1].
  - intros H. left. by exists a, s1.
  - intros [= <- <-]. right. by exists e.
Qed.

Lemma lift_inv {L S A} (m : SE S A) (l : L) s r l' s' :
  lift m (l, s) = (r, (l', s')) → l' = l ∧ m s = (r, s').
Proof.
  unfold lift. simpl. destruct (m s) as [r1 s1]. by intros [= <- <- <-].
Qed.

Lemma set_locals_inv {L S} (f : L → L) (l : L) (s : S) r l' s' :
  set_locals f (l, s) = (r, (l', s')) → r = Ok tt ∧ l' = f l ∧ s' = s.
Proof. unfold set_locals. simpl. by intros [= <- <- <-]. Qed.

Lemma on_fs_inv {A} (m : SE (gmap string fs_node) A) w r w' :
  on_fs m w = (r, w') →
  sys_attrs w' = sys_attrs w ∧ sys_modules w' = sys_modules w.
Proof.
  unfold on_fs. destruct (m (filesystem w)) as [r1 fs1].
  by intros [= <- <-].
Qed.

Lemma create_one_module_frame h td name l w r l' w' :
  create_one_module h td name (l, w) = (r, (l', w')) →
  sys_attrs w' = sys_attrs w ∧
  state_manager l' = state_manager l ∧
  uncache_manager l' = uncache_manager l ∧
  temp_dir l' = temp_dir l ∧
  import_names l' = import_names l ∪ {[created_import_name name]} ∧
  ∀ k, k ≠ created_import_name name →
       sys_modules w' !! k = sys_modules w !! k.
Proof.
  unfold create_one_module. set (n := created_import_name name).
  intros H.
  apply bind_inv in H as [(? & [l1 w1] & H1 & H)|(e & H1 & ->)].
  2:{ apply set_locals_inv in H1 as [? _]. discriminate. }
  apply set_locals_inv in H1 as (_ & -> & ->).
  apply bind_inv in H as [(present & [l2 w2] & H2 & H)|(e & H2 & ->)].
  2:{ apply lift_inv in H2 as [_ H2]. discriminate H2. }
  apply lift_inv in H2 as [-> H2]. injection H2 as <- <-.
  apply bind_inv in H as [([] & [l3 w3] & H3 & H)|(e & H3 & ->)].
  - assert (Hdel : l3 = set_import_names (λ s, s ∪ {[n]}) l ∧
                   sys_attrs w3 = sys_attrs w ∧
                   ∀ k, k ≠ n → sys_modules w3 !! k = sys_modules w !! k).
    { unfold modules_contains in H3. simpl in H3.
      case_bool_decide as Hp.
      - apply lift_inv in H3 as [-> H3]. unfold modules_delitem in H3.
        destruct (sys_modules w !! n); [|discriminate H3].
        injection H3 as <-. split; [done|]. split; [done|].
        intros k Hk. simpl. by apply lookup_delete_ne.
      - injection H3 as <- <-. done. }
    destruct Hdel as (-> & Ha3 & Hm3).
    apply bind_inv in H as [(fp & [l4 w4] & H4 & H)|(e & H4 & ->)].
    + apply make_directories_frame in H4 as (Ha4 & Hm4 & ? & ? & ? & Hi4).
      apply bind_inv in H as [([] & [l5 w5] & H5 & H)|(e & H5 & ->)].
      * apply lift_inv in H5 as [-> H5]. apply on_fs_inv in H5 as [Ha5 Hm5].
        apply bind_inv in H as [([] & [l6 w6] & H6 & H)|(e & H6 & ->)].
        2:{ apply set_locals_inv in H6 as [? _]. discriminate. }
        apply set_locals_inv in H6 as (_ & -> & ->).
        apply set_locals_inv in H as (_ & -> & ->). simpl.
        simpl in *; split_and!; try congruence.
        intros k Hk. rewrite Hm5, Hm4. by apply Hm3.
      * apply lift_inv in H5 as [-> H5]. apply on_fs_inv in H5 as [Ha5 Hm5].
        simpl in *; split_and!; try congruence.
        intros k Hk. rewrite Hm5, Hm4. by apply Hm3.
    + apply make_directories_frame in H4 as (Ha4 & Hm4 & ? & ? & ? & Hi4).
      simpl in *; split_and!; try congruence.
      intros k Hk. rewrite Hm4. by apply Hm3.
  - unfold modules_contains in H3. simpl in H3.
    case_bool_decide as Hp; [|discriminate H3].
    apply lift_inv in H3 as [-> H3]. unfold modules_delitem in H3.
    destruct Hp as [m Hp]. rewrite Hp in H3. discriminate H3.
Qed.

Lemma bind_inv' {S A B} (m : SE S A) (k : A → SE S B) s r s' :
  bind m k s = (r, s') →
  (∃ a s1, m s = (Ok a, s1) ∧ k a s1 = (r, s')) ∨
  (∃ e, m s = (Raise e, s') ∧ r = Raise e).
Proof. apply bind_inv. Qed.

Lemma create_loop_frame h td names :
  ∀ l w r l' w',
    for_each names (create_one_module h td) (l, w) = (r, (l', w')) →
    sys_attrs w' = sys_attrs w ∧
    state_manager l' = state_manager l ∧
    uncache_manager l' = uncache_manager l ∧
    temp_dir l' = temp_dir l ∧
    (∀ k, k ∉ created_import_name <$> names →
          sys_modules w' !! k = sys_modules w !! k) ∧
    (r = Ok tt →
     import_names l' =
     import_names l ∪ list_to_set (created_import_name <$> names)).
Proof.
  induction names as [|name names IH]; intros l w r l' w'; cbn [for_each].
  - unfold ret. intros [= <- <- <-]. split_and!; try done.
    intros _. simpl. set_solver.
  - intros H.
    apply bind_inv' in H as [([] & [l1 w1] & H1 & H)|(e & H1 & ->)].
    + apply create_one_module_frame in H1 as (Ha & Hs & Hu & Ht & Hi & Hm).
      apply IH in H as (Ha' & Hs' & Hu' & Ht' & Hm' & Hi').
      split_and!; try congruence.
      * intros k Hk. rewrite fmap_cons in Hk.
        apply not_elem_of_cons in Hk as [Hne Hk].
        rewrite Hm' by done. by apply Hm.
      * intros Hr. rewrite (Hi' Hr), Hi, fmap_cons. simpl. set_solver.
    + apply create_one_module_frame in H1 as (Ha & Hs & Hu & Ht & Hi & Hm).
      split_and!; try congruence.
      intros k Hk. rewrite fmap_cons in Hk.
      apply not_elem_of_cons in Hk as [Hne Hk]. by apply Hm.
Qed.

Lemma enter_manager_inv {L Y} (store : manager world → L → L)
    (cm : SE world (Y * resume_fn world)) l w r l' w' :
  enter_manager store cm (l, w) = (r, (l', w')) →
  match cm w with
  | (Raise e, w1) => r = Raise e ∧ l' = store Finished l ∧ w' = w1
  | (Ok (y, resume), w1) =>
      r = Ok y ∧ l' = store (Suspended resume) l ∧ w' = w1
  end.
Proof.
  unfold enter_manager. simpl. destruct (cm w) as [[[y resume]|e] w1];
    by intros [= <- <- <-].
Qed.

Lemma create_modules_cleanup_run h names l w r l' w' :
  quiet (state_manager l) →
  removing names (uncache_manager l) →
  create_modules_cleanup h (l, w) = (r, (l', w')) →
  sys_modules w' =
  if suspended (uncache_manager l) then without names (sys_modules w)
  else sys_modules w.
Proof.
  intros Hq Hr. unfold create_modules_cleanup. intros H.
  apply bind_inv in H as [(l1 & [l2 w2] & H1 & H)|(e & H1 & ->)];
    [|discriminate H1].
  injection H1 as <- <- <-.
  assert (Hstate : ∃ w1, sys_modules w1 = sys_modules w ∧
            match state_manager l with
            | Some m => lift (manager_exit m)
            | None => mret tt
            end (l, w) = (Ok tt, (l, w1))).
  { destruct (state_manager l) as [[rs|]|]; simpl in *.
    - destruct (Hq w) as (w1 & Hrs & Hm). exists w1. split; [done|].
      unfold lift. simpl. by rewrite Hrs.
    - by exists w.
    - by exists w. }
  destruct Hstate as (w1 & Hm1 & Hs1).
  apply bind_inv in H as [([] & [l3 w3] & H2 & H)|(e & H2 & ->)];
    [|rewrite Hs1 in H2; discriminate H2].
  rewrite Hs1 in H2. injection H2 as <- <-.
  assert (Hunc : ∃ w2, sys_modules w2 =
              (if suspended (uncache_manager l)
               then without names (sys_modules w1) else sys_modules w1) ∧
            match uncache_manager l with
            | Some m => lift (manager_exit m)
            | None => mret tt
            end (l, w1) = (Ok tt, (l, w2))).
  { destruct (uncache_manager l) as [[ru|]|]; simpl in *.
    - eexists. split; [|unfold lift; simpl; rewrite Hr; reflexivity]. done.
    - by exists w1.
    - by exists w1. }
  destruct Hunc as (w2 & Hm2 & Hs2).
  apply bind_inv in H as [([] & [l4 w4] & H3 & H)|(e & H3 & ->)];
    [|rewrite Hs2 in H3; discriminate H3].
  rewrite Hs2 in H3. injection H3 as <- <-.
  destruct (temp_dir l) as [d|].
  - apply lift_inv in H as [-> H]. apply on_fs_inv in H as [_ Hm3].
    rewrite Hm3, Hm2, Hm1. done.
  - injection H as <- <- <-. rewrite Hm2, Hm1. done.
Qed.

Lemma create_modules_setup_run h names w r l' w' :
  create_modules_setup h names
    (mk_create_modules_locals [] ∅ None None None ∅, w) = (r, (l', w')) →
  (∀ k, k ∉ created_import_name <$> names →
        sys_modules w' !! k = sys_modules w !! k) ∧
  quiet (state_manager l') ∧
  ∃ U, (∀ k, k ∈ U → k ∈ created_import_name <$> names) ∧
       removing U (uncache_manager l') ∧
       ∀ y, r = Ok y →
         suspended (uncache_manager l') = true ∧
         (∀ k, k ∈ created_import_name <$> names → k ∈ U) ∧
         ∀ k, k ∈ U → sys_modules w' !! k = None.
Proof.
  set (names' := created_import_name <$> names).
  unfold create_modules_setup. intros H.
  apply bind_inv in H as [(td & [l1 w1] & H1 & H)|(e & H1 & ->)].
  2:{ apply lift_inv in H1 as [-> H1]. apply on_fs_inv in H1 as [_ Hm].
      split; [intros; by rewrite Hm|]. split; [done|].
      exists []. split; [intros ? Hk; by apply elem_of_nil in Hk|].
      split; [done|]. discriminate. }
  apply lift_inv in H1 as [-> H1]. apply on_fs_inv in H1 as [_ Hm1].
  apply bind_inv in H as [([] & [l2 w2] & H2 & H)|(e & H2 & ->)].
  2:{ apply set_locals_inv in H2 as [? _]. discriminate. }
  apply set_locals_inv in H2 as (_ & -> & ->).
  apply bind_inv in H as [([] & [l3 w3] & H3 & H)|(e & H3 & ->)].
  2:{ apply set_locals_inv in H3 as [? _]. discriminate. }
  apply set_locals_inv in H3 as (_ & -> & ->).
  apply bind_inv in H as [([] & [l4 w4] & H4 & H)|(e & H4 & ->)].
  2:{ apply create_loop_frame in H4 as (_ & Hs & Hu & _ & Hm & _).
      split; [intros k Hk; rewrite Hm by done; by rewrite Hm1|].
      rewrite Hs, Hu. simpl. split; [done|].
      exists []. split; [intros ? Hk; by apply elem_of_nil in Hk|].
      split; [done|]. discriminate. }
  apply create_loop_frame in H4 as (_ & Hs4 & Hu4 & _ & Hm4 & Hi4).
  specialize (Hi4 eq_refl). simpl in Hs4, Hu4, Hi4.
  apply bind_inv in H as [(l5 & [l6 w6] & H5 & H)|(e & H5 & ->)];
    [|discriminate H5].
  injection H5 as <- <- <-.
  set (U := elements (import_names l4)) in *.
  assert (HU : ∀ k, k ∈ U ↔ k ∈ names').
  { intros k. unfold U. rewrite elem_of_elements, Hi4. set_solver. }
  apply bind_inv in H as [([] & [l7 w7] & H6 & H)|(e & H6 & ->)].
  2:{ apply enter_manager_inv in H6.
      destruct (uncache_run U w4) as (done & Hdone & Hrun).
      destruct (uncache U w4) as [[[[] ru]|e'] w8];
        destruct H6 as (He & -> & ->); [discriminate He|].
      destruct Hrun as [-> _]. simpl. split.
      { intros k Hk. rewrite lookup_without.
        rewrite bool_decide_eq_false_2.
        - rewrite Hm4 by done. by rewrite Hm1.
        - intros Hin. apply Hk, HU, Hdone, Hin. }
      rewrite Hs4. split; [done|].
      exists []. split; [intros ? Hk; by apply elem_of_nil in Hk|].
      split; [done|]. discriminate. }
  apply enter_manager_inv in H6.
  destruct (uncache_run U w4) as (done & Hdone & Hrun).
  destruct (uncache U w4) as [[[[] ru]|e'] w8];
    destruct H6 as (He & -> & ->); [|discriminate He].
  destruct Hrun as (_ & -> & Hru).
  assert (Hframe : ∀ k, k ∉ names' →
            without U (sys_modules w4) !! k = sys_modules w !! k).
  { intros k Hk. rewrite lookup_without.
    rewrite bool_decide_eq_false_2 by (by rewrite HU).
    rewrite Hm4 by done. by rewrite Hm1. }
  apply bind_inv in H as [([] & [l9 w9] & H7 & H)|(e & H7 & ->)].
  2:{ apply enter_manager_inv in H7.
      match type of H7 with context [import_state ?kw ?w0] =>
        pose proof (import_state_run kw w0) as Hrun;
        destruct (import_state kw w0) as [[[[] rs]|e'] w10]
      end; destruct H7 as (He7 & -> & ->); [discriminate He7|].
      destruct Hrun as [-> _]. simpl. split; [done|]. split; [done|].
      exists U. split; [intros k; apply HU|]. split; [intros w0; apply Hru|].
      discriminate. }
  apply enter_manager_inv in H7.
  match type of H7 with context [import_state ?kw ?w0] =>
    pose proof (import_state_run kw w0) as Hrun;
    destruct (import_state kw w0) as [[[[] rs]|e'] w10]
  end; destruct H7 as (He7 & -> & ->); [|discriminate He7].
  destruct Hrun as (_ & _ & _ & Hm10 & _ & o & _ & _ & Hrs).
  apply bind_inv in H as [(l11 & [l12 w12] & H8 & H)|(e & H8 & ->)];
    [|discriminate H8].
  injection H8 as <- <- <-. injection H as <- <- <-. simpl.
  split; [intros k Hk; rewrite Hm10; by apply Hframe|].
  split.
  { intros w0. eexists. rewrite Hrs. split; [reflexivity|done]. }
  exists U. split; [intros k; apply HU|]. split; [intros w0; apply Hru|].
  intros y _. split; [done|]. split; [intros k; apply HU|].
  intros k Hk. rewrite Hm10. simpl. rewrite lookup_without.
  by rewrite bool_decide_eq_true_2.
Qed.

(** What [create_modules] does to [sys.modules] when it is entered and when
    it is resumed. *)
Lemma create_modules_run h names w :
  match create_modules h names w with
  | (Raise e, w') =>
      ∀ k, k ∉ created_import_name <$> names →
           sys_modules w' !! k = sys_modules w !! k
  | (Ok (_, resume), w1) =>
      (∀ k, sys_modules w1 !! k =
            if bool_decide (k ∈ created_import_name <$> names) then None
            else sys_modules w !! k) ∧
      ∀ t w2 k,
        sys_modules (resume t w2).2 !! k =
        if bool_decide (k ∈ created_import_name <$> names) then None
        else sys_modules w2 !! k
  end.
Proof.
  unfold create_modules, try_yield_finally.
  destruct (create_modules_setup h names _) as [r [l1 w1]] eqn:Hsetup.
  apply create_modules_setup_run in Hsetup as (Hframe & Hq & U & HU & Hr & Hok).
  destruct r as [y|e].
  - destruct (Hok y eq_refl) as (Hsusp & HU' & Hnone). simpl. split.
    + intros k. case_bool_decide as Hk; [by apply Hnone, HU'|by apply Hframe].
    + intros t w2 k. unfold try_finally.
      destruct (thrown t (l1, w2)) as [r0 [l2 w3]] eqn:Ht.
      assert (l2 = l1 ∧ w3 = w2) as [-> ->].
      { destruct t; unfold thrown, raise, ret in Ht;
          by injection Ht as <- <- <-. }
      destruct (create_modules_cleanup h (l1, w2)) as [r1 [l3 w4]] eqn:Hc.
      apply (create_modules_cleanup_run h U) in Hc; [|done|done].
      rewrite Hsusp in Hc.
      assert (sys_modules w4 !! k =
              if bool_decide (k ∈ created_import_name <$> names) then None
              else sys_modules w2 !! k) as Hgoal.
      { rewrite Hc, lookup_without.
        destruct (decide (k ∈ U)) as [Hin|Hout].
        - rewrite !bool_decide_eq_true_2; [done|by apply HU|done].
        - rewrite !bool_decide_eq_false_2; [done| |done].
          intros Hin. by apply Hout, HU'. }
      destruct r1; exact Hgoal.
  - destruct (create_modules_cleanup h (l1, w1)) as [r1 [l3 w4]] eqn:Hc.
    apply (create_modules_cleanup_run h U) in Hc; [|done|done].
    assert (∀ k, k ∉ created_import_name <$> names →
                 sys_modules w4 !! k = sys_modules w !! k) as Hgoal.
    { intros k Hk. rewrite Hc. destruct (suspended _).
      - rewrite lookup_without. rewrite bool_decide_eq_false_2.
        + by apply Hframe.
        + intros Hin. by apply Hk, HU.
      - by apply Hframe. }
    destruct r1; exact Hgoal.
Qed.

(** C2, as amended.  Neither [uncache] nor [create_modules] puts back what
    it removes from [sys.modules].  An entry whose name is not one of the
    uncached names is left alone on entry and on exit, so after exit it is
    what the block left; an uncached name has no entry when the block
    starts and none after exit, however the block ends.  For
    [create_modules] the uncached names are the import names of the
    modules it creates. *)
Theorem uncached_names_stay_uncached :
  (∀ names (body : unit → SE world unit) w,
     match uncache names w with
     | (Raise e, w') =>
         with_ (uncache names) body w = (Raise e, w') ∧
         ∀ k, k ∉ names → sys_modules w' !! k = sys_modules w !! k
     | (Ok (y, _), w1) =>
         (∀ k, sys_modules w1 !! k =
               if bool_decide (k ∈ names) then None else sys_modules w !! k) ∧
         ∀ k, sys_modules (with_ (uncache names) body w).2 !! k =
              if bool_decide (k ∈ names) then None
              else sys_modules (body y w1).2 !! k
     end) ∧
  (∀ h names (body : gmap string string → SE world unit) w,
     match create_modules h names w with
     | (Raise e, w') =>
         with_ (create_modules h names) body w = (Raise e, w') ∧
         ∀ k, k ∉ created_import_name <$> names →
              sys_modules w' !! k = sys_modules w !! k
     | (Ok (y, _), w1) =>
         (∀ k, sys_modules w1 !! k =
               if bool_decide (k ∈ created_import_name <$> names) then None
               else sys_modules w !! k) ∧
         ∀ k, sys_modules (with_ (create_modules h names) body w).2 !! k =
              if bool_decide (k ∈ created_import_name <$> names) then None
              else sys_modules (body y w1).2 !! k
     end).
Proof.
  split.
  - intros names body w. unfold with_.
    destruct (uncache_run names w) as (done & Hdone & Hrun).
    destruct (uncache names w) as [[[[] resume]|e] w1].
    + destruct Hrun as (_ & -> & Hres). split.
      * intros k. simpl. apply lookup_without.
      * intros k. destruct (body tt _) as [[[]|e] w2]; rewrite Hres; simpl;
          apply lookup_without.
    + destruct Hrun as [-> _]. split; [done|].
      intros k Hk. simpl. rewrite lookup_without.
      rewrite bool_decide_eq_false_2; [done|]. intros Hin. by apply Hk, Hdone.
  - intros h names body w. unfold with_.
    pose proof (create_modules_run h names w) as Hrun.
    destruct (create_modules h names w) as [[[y resume]|e] w1].
    + destruct Hrun as [Hentry Hres]. split; [done|].
      intros k. destruct (body y w1) as [[[]|e] w2].
      * apply (Hres None w2 k).
      * specialize (Hres (Some e) w2 k).
        destruct (resume (Some e) w2) as [[[]|e'] w3]; exact Hres.
    + done.
Qed.

End UtilFacts.

Module MockFacts.
Import Py Sys Util.

Lemma ImporterMock_fold_modules code names :
  ∀ self k,
    is_Some (modules (fold_left (ImporterMock_add code) names self) !! k) ↔
    k ∈ mock_import_name <$> names ∨ is_Some (modules self !! k).
Proof.
  induction names as [|name names IH]; intros self k; simpl.
  - split; [by right|]. intros [H|H]; [by apply elem_of_nil in H|done].
  - rewrite IH. unfold ImporterMock_add. simpl.
    rewrite elem_of_cons.
    destruct (decide (k = mock_import_name name)) as [->|Hne].
    + rewrite lookup_insert_eq. split; [intros _; left; by left|].
      intros _. right. by eexists.
    + rewrite lookup_insert_ne by done. tauto.
Qed.

(** The modules of a mock are the import names of the names it was built
    with. *)
Lemma ImporterMock_init_modules id names code k :
  is_Some (modules (ImporterMock_init id names code) !! k) ↔
  k ∈ mock_import_name <$> names.
Proof.
  unfold ImporterMock_init. rewrite ImporterMock_fold_modules. simpl.
  rewrite lookup_empty. split; [|by left].
  intros [H|[? H]]; [done|discriminate H].
Qed.

(** C3.  For a name that is not among the modules a mock was built with,
    [find_module] and [find_spec] answer [None], [load_module] and
    [create_module] raise [ImportError]; the hook of [mock_path_hook]
    raises [ImportError] for an entry that is not one of its entries and
    returns its importer otherwise. *)
Theorem mocks_reject_unknown_names :
  (∀ id names code fullname,
     fullname ∉ mock_import_name <$> names →
     let self := ImporterMock_init id names code in
     find_module self fullname = None ∧
     (∀ w, load_module self fullname w
           = (Raise (mk_exc ImportError EmptyString), w)) ∧
     (∀ h, find_spec h self fullname = Ok None) ∧
     (∀ spec, spec_name spec = fullname →
              create_module self spec
              = Raise (mk_exc ImportError EmptyString))) ∧
  (∀ (E I : Type) (eq_dec : EqDecision E) (entries : list E) (importer : I)
     (entry : E),
     (entry ∉ entries →
      mock_path_hook entries importer entry
      = Raise (mk_exc ImportError EmptyString)) ∧
     (entry ∈ entries → mock_path_hook entries importer entry = Ok importer)).
Proof.
  split.
  - intros id names code fullname Hout self.
    assert (Hnone : modules self !! fullname = None).
    { apply eq_None_not_Some. intros H. apply Hout.
      by apply (ImporterMock_init_modules id names code). }
    split_and!.
    + unfold find_module. rewrite Hnone.
      rewrite bool_decide_eq_false_2; [done|]. by intros [? ?].
    + intros w. unfold load_module. by rewrite Hnone.
    + intros h. unfold find_spec. by rewrite Hnone.
    + intros spec <-. unfold create_module. by rewrite Hnone.
  - intros E I eq_dec entries importer entry. unfold mock_path_hook. split.
    + intros H. by rewrite bool_decide_eq_false_2.
    + intros H. by rewrite bool_decide_eq_true_2.
Qed.

(** C4.  For a name among the modules the mock was built with,
    [load_module] puts the module made for it into [sys.modules] under
    that name, then runs the code registered for the name, if any, and
    returns that module when the code does not raise. *)
Theorem load_module_returns_module id names code fullname w :
  fullname ∈ mock_import_name <$> names →
  let self := ImporterMock_init id names code in
  ∃ m,
    modules self !! fullname = Some m ∧
    match module_code self !! fullname with
    | None =>
        load_module self fullname w =
        (Ok m, with_modules (insert fullname m) w)
    | Some run =>
        ∀ w', run (with_modules (insert fullname m) w) = (Ok tt, w') →
              load_module self fullname w = (Ok m, w')
    end.
Proof.
  intros Hin self.
  apply (ImporterMock_init_modules id names code) in Hin as [m Hm].
  exists m. split; [done|]. fold self in Hm.
  unfold load_module. rewrite Hm.
  destruct (module_code self !! fullname) as [run|].
  - intros w' Hrun. unfold mbind, SE_bind, bind, modules_setitem, modify,
      try_except, mret, SE_ret, ret.
    by rewrite Hrun.
  - reflexivity.
Qed.

(** C8, as amended.  When the code registered for the name raises an
    instance of [Exception], [load_module] raises and no entry for the
    name is left in [sys.modules]: the entry stored for the load is
    deleted and the exception of the code propagates, unless the code had
    removed the entry itself, in which case the [KeyError] of the deletion
    propagates.  When the code raises an exception that is no instance of
    [Exception], [load_module] deletes nothing: that exception propagates
    and the interpreter state, [sys.modules] included, is as the code left
    it. *)
Theorem load_module_failure_removes_entry self fullname m run w e w' :
  modules self !! fullname = Some m →
  module_code self !! fullname = Some run →
  run (with_modules (insert fullname m) w) = (Raise e, w') →
  (isinstance_exc e Exception = true →
   ∃ e' w'',
     load_module self fullname w = (Raise e', w'') ∧
     sys_modules w'' !! fullname = None ∧
     ((is_Some (sys_modules w' !! fullname) ∧
       e' = e ∧ w'' = with_modules (delete fullname) w') ∨
      (sys_modules w' !! fullname = None ∧
       e' = mk_exc KeyError fullname ∧ w'' = w'))) ∧
  (isinstance_exc e Exception = false →
   load_module self fullname w = (Raise e, w')).
Proof.
  intros Hm Hcode Hrun.
  assert (Hload : load_module self fullname w =
            if isinstance_exc e Exception then
              match sys_modules w' !! fullname with
              | Some _ => (Raise e, with_modules (delete fullname) w')
              | None => (Raise (mk_exc KeyError fullname), w')
              end
            else (Raise e, w')).
  { unfold load_module. rewrite Hm.
    unfold mbind, SE_bind, bind, modules_setitem, modify. cbn beta iota.
    destruct (module_code self !! fullname) as [run'|];
      [injection Hcode as ->|discriminate Hcode].
    unfold try_except.
    rewrite Hrun. destruct (isinstance_exc e Exception); [|done].
    unfold modules_delitem, raise.
    by destruct (sys_modules w' !! fullname). }
  rewrite Hload. split; intros Hexc; rewrite Hexc; [|done].
  destruct (sys_modules w' !! fullname) as [m'|] eqn:Hk.
  - exists e, (with_modules (delete fullname) w'). split; [done|].
    split; [apply lookup_delete_eq|]. left. by split; [eexists|].
  - exists (mk_exc KeyError fullname), w'. split; [done|].
    split; [done|by right].
Qed.

(** C9.  [exec_module] never raises an instance of [KeyError]: without
    code registered for the module it does nothing, a [KeyError] instance
    raised by the code is dropped, and any other exception raised by the
    code propagates. *)
Theorem exec_module_suppresses_KeyError self m w :
  (∀ e w', exec_module self m w = (Raise e, w') →
           isinstance_exc e KeyError = false) ∧
  (∀ spec, mod_spec m = Some spec →
     match module_code self !! spec_name spec with
     | None => exec_module self m w = (Ok tt, w)
     | Some run =>
         ∀ r w', run w = (r, w') →
           match r with
           | Ok _ => exec_module self m w = (Ok tt, w')
           | Raise e =>
               if isinstance_exc e KeyError
               then exec_module self m w = (Ok tt, w')
               else exec_module self m w = (Raise e, w')
           end
     end).
Proof.
  unfold exec_module, try_except, raise. split.
  - intros e w'. destruct (mod_spec m) as [spec|].
    + destruct (module_code self !! spec_name spec) as [run|].
      * destruct (run w) as [[[]|e0] w0]; [discriminate|].
        destruct (isinstance_exc e0 KeyError) eqn:Hk; [discriminate|].
        by intros [= <- <-].
      * simpl. discriminate.
    + simpl. by intros [= <- <-].
  - intros spec ->. destruct (module_code self !! spec_name spec) as [run|].
    + intros r w' ->. destruct r as [[]|e]; [done|].
      by destruct (isinstance_exc e KeyError).
    + reflexivity.
Qed.

End MockFacts.

Module ReaderFacts.
Import Py Sys Util.





End ReaderFacts.

Module ErrorFacts.
Import Py Sys Util UtilNotions.


End ErrorFacts.

Module Witnesses.
Import Py Sys Util Examples.
Import UtilNotions UtilFacts MockFacts ReaderFacts ErrorFacts.

(** Decide a closed proposition by evaluation. *)
Ltac by_evaluation := apply (bool_decide_unpack _); vm_compute; exact I.

(** Each of the four attributes, one after the other. *)
Ltac each_of_four H :=
  unfold four, import_state_defaults in H; simpl in H;
  repeat (apply elem_of_cons in H as [->|H]);
  [..|by apply elem_of_nil in H].

Lemma sys_attributes_restored_witness :
  sys_attrs
    (with_ (import_state [("path", VList [VStr "/tmp/t"])])
       (fun _ => failing) interpreter).2 !! "path"
  = sys_attrs interpreter !! "path" ∧
  ∃ w1,
    (∀ k d, (k, d) ∈ import_state_defaults →
       sys_attrs w1 !! k =
       Some (default d (dict_get k [("path", VList [VStr "/tmp/t"])]))) ∧
    (with_ (import_state [("path", VList [VStr "/tmp/t"])])
       (fun _ => failing) interpreter).1 = (failing w1).1.
Proof.
  destruct sys_attributes_restored as (H & _ & _).
  destruct (H [("path", VList [VStr "/tmp/t"])] (fun _ => failing) interpreter)
    as [Hback Hrun].
  split.
  - apply Hback. by_evaluation.
  - apply Hrun.
    + intros k Hk. each_of_four Hk; eexists; vm_compute; reflexivity.
    + intros k Hk. simpl in Hk. apply list_elem_of_singleton in Hk as ->.
      by_evaluation.
Defined.

Lemma import_state_unrecognized_witness :
  ∃ msg,
    import_state [("modules", VDict [])] interpreter
      = (Raise (mk_exc ValueError msg), interpreter) ∧
    ∀ body,
      with_ (import_state [("modules", VDict [])]) body interpreter
        = (Raise (mk_exc ValueError msg), interpreter).
Proof.
  apply (import_state_unrecognized [("modules", VDict [])] interpreter
           "modules").
  - by_evaluation.
  - by_evaluation.
  - intros k Hk. each_of_four Hk; eexists; vm_compute; reflexivity.
Defined.

Lemma uncached_names_stay_uncached_witness :
  sys_modules (uncache ["sys"] interpreter).2 !! "spam"
  = sys_modules interpreter !! "spam" ∧
  sys_modules
    (with_ (uncache ["spam"]) (fun _ => mret tt) interpreter).2 !! "spam"
  = None ∧
  sys_modules
    (with_ (create_modules simple_host ["spam"; "pkg.__init__"])
       (fun _ => mret tt) interpreter).2 !! "spam"
  = None.
Proof.
  destruct uncached_names_stay_uncached as [H H']. split_and!.
  - pose proof (H ["sys"] (fun _ => mret tt) interpreter) as H1.
    change (uncache ["sys"] interpreter)
      with (@Raise (unit * resume_fn world)
              (mk_exc ValueError "cannot uncache sys"), interpreter) in H1.
    destruct H1 as [_ H1]. apply H1. by_evaluation.
  - pose proof (H ["spam"] (fun _ => mret tt) interpreter) as H2.
    destruct (uncache ["spam"] interpreter) as [[[[] resume]|e] w1] eqn:Hu.
    + destruct H2 as [_ H2]. rewrite (H2 "spam").
      by rewrite bool_decide_eq_true_2 by left.
    + vm_compute in Hu. discriminate Hu.
  - pose proof (H' simple_host ["spam"; "pkg.__init__"] (fun _ => mret tt)
                  interpreter) as H3.
    destruct (create_modules simple_host ["spam"; "pkg.__init__"] interpreter)
      as [[[y resume]|e] w1] eqn:Hc.
    + destruct H3 as [_ H3]. rewrite (H3 "spam").
      rewrite bool_decide_eq_true_2; [done|]. by_evaluation.
    + vm_compute in Hc. discriminate Hc.
Defined.

Lemma mocks_reject_unknown_names_witness :
  find_module failing_mock "ham" = None ∧
  load_module failing_mock "ham" interpreter
    = (Raise (mk_exc ImportError EmptyString), interpreter) ∧
  mock_path_hook ["/tmp/t"] failing_mock "/usr/lib"
    = Raise (mk_exc ImportError EmptyString).
Proof.
  destruct mocks_reject_unknown_names as [Hmock Hhook].
  destruct (Hmock 2 ["eggs"; "pkg.__init__"] {["eggs" := failing]} "ham")
    as (Hfind & Hload & _).
  - by_evaluation.
  - split; [exact Hfind|]. split; [apply Hload|].
    apply Hhook. by_evaluation.
Defined.

Lemma load_module_returns_module_witness :
  ∃ m,
    modules failing_mock !! "pkg" = Some m ∧
    load_module failing_mock "pkg" interpreter
      = (Ok m, with_modules (insert "pkg" m) interpreter).
Proof.
  destruct (load_module_returns_module 2 ["eggs"; "pkg.__init__"]
              {["eggs" := failing]} "pkg" interpreter) as (m & Hm & Hload).
  - by_evaluation.
  - exists m. split; [exact Hm|].
    change (module_code
              (ImporterMock_init 2 ["eggs"; "pkg.__init__"]
                 {["eggs" := failing]}) !! "pkg")
      with (@None (SE world unit)) in Hload.
    exact Hload.
Defined.

Lemma load_module_failure_removes_entry_witness :
  (∃ e' w'',
     load_module failing_mock "eggs" interpreter = (Raise e', w'') ∧
     sys_modules w'' !! "eggs" = None) ∧
  load_module exiting_mock "spam" interpreter =
    (Raise (mk_exc SystemExit EmptyString),
     with_modules
       (insert "spam"
          (mk_module "spam" (Some 1) (Some "<mock __file__>") None
             (Some "spam") None None)) interpreter).
Proof.
  split.
  - destruct (load_module_failure_removes_entry failing_mock "eggs"
                (mk_module "eggs" (Some 2) (Some "<mock __file__>") None
                   (Some "eggs") None None)
                failing interpreter (mk_exc RuntimeError "boom")
                (with_modules
                   (insert "eggs"
                      (mk_module "eggs" (Some 2) (Some "<mock __file__>")
                         None (Some "eggs") None None)) interpreter))
      as [Hexc _].
    + vm_compute. reflexivity.
    + vm_compute. reflexivity.
    + reflexivity.
    + destruct (Hexc eq_refl) as (e' & w'' & Hload & Hnone & _).
      exists e', w''. split; [exact Hload|exact Hnone].
  - destruct (load_module_failure_removes_entry exiting_mock "spam"
                (mk_module "spam" (Some 1) (Some "<mock __file__>") None
                   (Some "spam") None None)
                exiting interpreter (mk_exc SystemExit EmptyString)
                (with_modules
                   (insert "spam"
                      (mk_module "spam" (Some 1) (Some "<mock __file__>")
                         None (Some "spam") None None)) interpreter))
      as [_ Hbase].
    + vm_compute. reflexivity.
    + vm_compute. reflexivity.
    + reflexivity.
    + apply Hbase. reflexivity.
Defined.

Lemma exec_module_suppresses_KeyError_witness :
  exec_module failing_mock eggs_loaded interpreter
    = (Raise (mk_exc RuntimeError "boom"), interpreter) ∧
  isinstance_exc (mk_exc RuntimeError "boom") KeyError = false.
Proof.
  destruct (exec_module_suppresses_KeyError failing_mock eggs_loaded
              interpreter) as [Hnever Hrun].
  assert (Hexec : exec_module failing_mock eggs_loaded interpreter
                  = (Raise (mk_exc RuntimeError "boom"), interpreter)).
  { specialize (Hrun (mk_spec "eggs" 2 (Some "<mock __file__>") None) eq_refl).
    change (module_code failing_mock !! "eggs") with (Some failing) in Hrun.
    apply (Hrun (Raise (mk_exc RuntimeError "boom")) interpreter eq_refl). }
  split; [exact Hexec|]. exact (Hnever _ _ Hexec).
Defined.



(** C2, the claim as stated: an entry that was cached before [uncache] is
    entered is not cached after it is left. *)
Lemma uncache_does_not_restore :
  sys_modules interpreter !! "spam" = Some spam ∧
  sys_modules
    (with_ (uncache ["spam"]) (fun _ => mret tt) interpreter).2 !! "spam"
  = None.
Proof. split; vm_compute; reflexivity. Qed.



(** C8, the claim as stated: module code that raises [SystemExit] leaves
    the entry that [load_module] stored. *)
Lemma load_module_exit_keeps_entry :
  (load_module exiting_mock "spam" interpreter).1
    = Raise (mk_exc SystemExit EmptyString) ∧
  sys_modules (load_module exiting_mock "spam" interpreter).2 !! "spam"
    = modules exiting_mock !! "spam" ∧
  is_Some (modules exiting_mock !! "spam").
Proof.
  split; [vm_compute; reflexivity|]. split; [vm_compute; reflexivity|].
  eexists. vm_compute. reflexivity.
Qed.

End Witnesses.

(** * Further properties of the helpers *)

Module ExtensionsFacts.
Import Py Sys Util Extensions MoreNotions.

Lemma try_suffixes_None h fs E p suffixes :
  try_suffixes h fs E p suffixes = None ↔
  ∀ e, e ∈ suffixes →
       path_exists h (path_join h p (name E +:+ e)) fs = false.
Proof.
  induction suffixes as [|e0 suffixes IH]; simpl.
  - split; [|done]. intros _ e He. by apply elem_of_nil in He.
  - destruct (path_exists h _ fs) eqn:Hex.
    + split; [done|]. intros H. specialize (H e0 ltac:(left)). congruence.
    + rewrite IH. split.
      * intros H e [->|He]%elem_of_cons; [done|by apply H].
      * intros H e He. apply H. by right.
Qed.

Lemma try_suffixes_Some h fs E p suffixes E' :
  try_suffixes h fs E p suffixes = Some E' →
  ∃ s1 e s2,
    suffixes = (s1 ++ e :: s2)%list ∧
    (∀ e', e' ∈ s1 →
           path_exists h (path_join h p (name E +:+ e')) fs = false) ∧
    path_exists h (path_join h p (name E +:+ e)) fs = true ∧
    E' = found_at h E p e.
Proof.
  induction suffixes as [|e0 suffixes IH]; simpl; [done|].
  destruct (path_exists h _ fs) eqn:Hex.
  - intros [= <-]. exists [], e0, suffixes. split; [done|].
    split; [intros ? H; by apply elem_of_nil in H|]. done.
  - intros H. destruct (IH H) as (s1 & e & s2 & -> & Hno & Hyes & ->).
    exists (e0 :: s1), e, s2. split; [done|]. split; [|done].
    intros e' [->|He]%elem_of_cons; [done|by apply Hno].
Qed.

(** X1. The search either finds no candidate file and leaves [EXTENSIONS] as
    it was, or records a directory of [sys.path], a suffix, the file name
    made of the module name and the suffix, and the joined path, which
    exists; the name of the module is never changed. *)
Theorem extension_details_found_or_unchanged h fs sys_path suffixes E :
  let E' := _extension_details h fs sys_path suffixes E in
  ((∀ p e, p ∈ sys_path → e ∈ suffixes →
           path_exists h (path_join h p (name E +:+ e)) fs = false) ∧
   E' = E) ∨
  (∃ p e,
     p ∈ sys_path ∧ e ∈ suffixes ∧
     path_exists h (path_join h p (name E +:+ e)) fs = true ∧
     path E' = Some p ∧ ext E' = Some e ∧
     filename E' = Some (name E +:+ e) ∧
     file_path E' = Some (path_join h p (name E +:+ e)) ∧
     name E' = name E).
Proof.
  induction sys_path as [|p0 sys_path IH]; simpl.
  - left. split; [|done]. intros p e Hp. by apply elem_of_nil in Hp.
  - destruct (try_suffixes h fs E p0 suffixes) as [E'|] eqn:Htry.
    + right. apply try_suffixes_Some in Htry
        as (s1 & e & s2 & -> & _ & Hyes & ->).
      exists p0, e. split; [by left|]. split; [|done].
      apply elem_of_app. right. by left.
    + destruct IH as [[Hno ->]|(p & e & Hp & He & Hrest)].
      * left. split; [|done].
        intros p e [->|Hp]%elem_of_cons He; [|by apply Hno].
        by apply (proj1 (try_suffixes_None h fs E p0 suffixes)).
      * right. exists p, e. split; [by right|done].
Qed.

(** X2. The search stops at the first hit: directories are tried in the
    order of [sys.path] and, within a directory, suffixes in the order of
    [EXTENSION_SUFFIXES]; what comes after the hit is not looked at. *)
Theorem extension_details_first_match h fs l1 p l2 s1 e s2 E :
  (∀ p' e', p' ∈ l1 → e' ∈ (s1 ++ e :: s2)%list →
            path_exists h (path_join h p' (name E +:+ e')) fs = false) →
  (∀ e', e' ∈ s1 →
         path_exists h (path_join h p (name E +:+ e')) fs = false) →
  path_exists h (path_join h p (name E +:+ e)) fs = true →
  _extension_details h fs (l1 ++ p :: l2) (s1 ++ e :: s2) E =
  {| path := Some p; ext := Some e;
     filename := Some (name E +:+ e);
     file_path := Some (path_join h p (name E +:+ e));
     name := name E |}.
Proof.
  intros Hl1 Hs1 Hyes.
  induction l1 as [|p0 l1 IH]; simpl.
  - assert (Htry : try_suffixes h fs E p (s1 ++ e :: s2) =
                   Some (found_at h E p e)).
    { clear Hl1. induction s1 as [|e0 s1 IHs]; simpl.
      - by rewrite Hyes.
      - rewrite (Hs1 e0) by left. apply IHs.
        intros e' He'. apply Hs1. by right. }
    by rewrite Htry.
  - rewrite (proj2 (try_suffixes_None h fs E p0 _)).
    + apply IH. intros p' e' Hp'. apply Hl1. by right.
    + intros e' He'. apply Hl1; [by left|done].
Qed.

End ExtensionsFacts.

Module UncacheFacts.
Import Py Sys Util UtilNotions UtilFacts.

Lemma for_each_app {S A} (l1 l2 : list A) (f : A → SE S unit) s :
  for_each (l1 ++ l2) f s =
  match for_each l1 f s with
  | (Ok _, s1) => for_each l2 f s1
  | (Raise e, s1) => (Raise e, s1)
  end.
Proof.
  revert s. induction l1 as [|x l1 IH]; intros s; simpl.
  - reflexivity.
  - unfold bind. destruct (f x s) as [[[]|e] s1]; [apply IH|done].
Qed.

Lemma for_each_uncache_one_unprotected names w :
  (∀ k, k ∈ names → k ∉ protected) →
  for_each names uncache_one w = (Ok tt, with_modules (without names) w).
Proof.
  revert w. induction names as [|n names IH]; intros w Hun; simpl.
  - unfold ret. f_equal. by destruct w.
  - unfold bind. rewrite uncache_one_run.
    rewrite bool_decide_eq_false_2 by (apply Hun; left).
    rewrite IH; [done|]. intros k Hk. apply Hun. by right.
Qed.

(** X3. Entering [uncache] raises exactly when one of the names is [sys],
    [marshal] or [imp]. The [ValueError] names the first such name; the
    names listed before it are already gone from [sys.modules] and stay so,
    and the block of the [with] statement is not run. Without such a name
    entering cannot fail. *)
Theorem uncache_stops_at_protected_name :
  (∀ l1 n l2 w,
     (∀ k, k ∈ l1 → k ∉ protected) → n ∈ protected →
     uncache (l1 ++ n :: l2) w =
       (Raise (mk_exc ValueError ("cannot uncache " +:+ n)),
        with_modules (without l1) w) ∧
     ∀ body,
       with_ (uncache (l1 ++ n :: l2)) body w =
       (Raise (mk_exc ValueError ("cannot uncache " +:+ n)),
        with_modules (without l1) w)) ∧
  (∀ names w,
     (∀ k, k ∈ names → k ∉ protected) →
     ∃ resume,
       uncache names w = (Ok (tt, resume), with_modules (without names) w)).
Proof.
  split.
  - intros l1 n l2 w Hun Hp.
    assert (Hrun : uncache (l1 ++ n :: l2) w =
                   (Raise (mk_exc ValueError ("cannot uncache " +:+ n)),
                    with_modules (without l1) w)).
    { unfold uncache. unfold mbind, SE_bind, bind.
      rewrite for_each_app, for_each_uncache_one_unprotected by done.
      simpl. unfold bind. rewrite uncache_one_run.
      by rewrite bool_decide_eq_true_2. }
    split; [done|]. intros body. unfold with_. by rewrite Hrun.
  - intros names w Hun. unfold uncache. unfold mbind, SE_bind, bind.
    rewrite for_each_uncache_one_unprotected by done.
    unfold try_yield_finally, mret, SE_ret, ret. simpl.
    eapply ex_intro. reflexivity.
Qed.

End UncacheFacts.

Module MockInitFacts.
Import Py Sys Util UtilNotions UtilFacts MoreNotions.

Lemma append_cons c s t : String c s +:+ t = String c (s +:+ t).
Proof. reflexivity. Qed.

Lemma append_nil_l t : EmptyString +:+ t = t.
Proof. reflexivity. Qed.

Lemma substring_all s : String.substring 0 (String.length s) s = s.
Proof. induction s as [|c s IH]; simpl; [done|by f_equal]. Qed.

Lemma substring_split s n :
  (n <= String.length s)%nat →
  s = String.substring 0 n s +:+ String.substring n (String.length s - n) s.
Proof.
  revert n. induction s as [|c s IH]; intros n Hn; simpl in *.
  - by destruct n.
  - destruct n as [|n]; simpl.
    + by rewrite append_nil_l, substring_all.
    + rewrite append_cons. f_equal. apply IH. lia.
Qed.

Lemma endswith_split s suffix :
  Str.endswith s suffix = true →
  s = Str.drop_last (String.length suffix) s +:+ suffix.
Proof.
  unfold Str.endswith, Str.drop_last. intros H.
  apply andb_true_iff in H as [Hle Heq].
  apply Nat.leb_le in Hle. apply String.eqb_eq in Heq.
  rewrite (substring_split s (String.length s - String.length suffix))
    at 1 by lia.
  f_equal. rewrite <- Heq at 3. f_equal. lia.
Qed.

Lemma contains_app c s t :
  Str.contains c (s +:+ t) = Str.contains c s || Str.contains c t.
Proof.
  induction s as [|d s IH]; [done|].
  rewrite append_cons. simpl. rewrite IH. by rewrite orb_assoc.
Qed.

(** A name that is not its own import name is the import name followed by
    [.__init__]. *)
Lemma mock_import_name_package name :
  mock_import_name name ≠ name →
  name = mock_import_name name +:+ ".__init__".
Proof.
  unfold mock_import_name.
  destruct (Str.endswith name ".__init__") eqn:He; simpl; [|done].
  intros _. by apply endswith_split in He.
Qed.

(** What [__init__] stores for [name]. *)
Lemma ImporterMock_add_module code self name :
  modules (ImporterMock_add code self name) !! mock_import_name name =
  Some {| mod_name := mock_import_name name;
          mod_loader := Some (self_id self);
          mod_file := Some "<mock __file__>";
          mod_package :=
            if negb (Str.contains "." name) then None
            else if String.eqb (mock_import_name name) name
                 then Some (Str.rsplit1_head "." name)
                 else Some (mock_import_name name);
          mod_attr := Some name;
          mod_path :=
            if negb (String.eqb (mock_import_name name) name)
            then Some ["<mock __path__>"] else None;
          mod_spec := None |}.
Proof. unfold ImporterMock_add. simpl. by rewrite lookup_insert_eq. Qed.

Lemma ImporterMock_add_id code self name :
  self_id (ImporterMock_add code self name) = self_id self.
Proof. reflexivity. Qed.

Lemma ImporterMock_fold_id code names self :
  self_id (fold_left (ImporterMock_add code) names self) = self_id self.
Proof.
  revert self. induction names as [|n names IH]; intros self; simpl; [done|].
  by rewrite IH.
Qed.

Lemma ImporterMock_add_made code self name :
  ∃ m, modules (ImporterMock_add code self name) !! mock_import_name name
       = Some m ∧
       made_for (self_id self) (mock_import_name name) m name.
Proof.
  eexists. split; [apply ImporterMock_add_module|].
  unfold made_for. simpl. split_and!; try done.
  - intros Heq. rewrite <- Heq, String.eqb_refl. simpl. split; [done|].
    by destruct (Str.contains "." name).
  - intros Hne.
    assert (Hb : String.eqb (mock_import_name name) name = false).
    { apply String.eqb_neq. congruence. }
    rewrite Hb. simpl.
    pose proof (mock_import_name_package name ltac:(congruence)) as Hn.
    split; [done|]. split; [done|].
    assert (Hc : Str.contains "." name = true).
    { rewrite Hn, contains_app. apply orb_true_iff. by right. }
    by rewrite Hc.
Qed.

Lemma ImporterMock_fold_made code names :
  ∀ self k m,
    modules (fold_left (ImporterMock_add code) names self) !! k = Some m →
    modules self !! k = Some m ∨
    ∃ name, name ∈ names ∧ made_for (self_id self) k m name.
Proof.
  induction names as [|name names IH]; intros self k m; simpl.
  - by left.
  - intros H. apply IH in H as [H|(n & Hn & Hm)].
    + destruct (decide (k = mock_import_name name)) as [->|Hne].
      * right. exists name. split; [by left|].
        destruct (ImporterMock_add_made code self name) as (m' & Hm' & Hmade).
        congruence.
      * left. unfold ImporterMock_add in H. simpl in H.
        by rewrite lookup_insert_ne in H.
    + right. exists n. split; [by right|done].
Qed.

Lemma ImporterMock_fold_code code names :
  ∀ self k,
    module_code (fold_left (ImporterMock_add code) names self) !! k =
    if bool_decide (k ∈ mock_import_name <$> names)
    then match code !! k with
         | Some c => Some c
         | None => module_code self !! k
         end
    else module_code self !! k.
Proof.
  induction names as [|name names IH]; intros self k; simpl.
  - done.
  - rewrite IH.
    assert (Hadd : module_code (ImporterMock_add code self name) !! k =
              if decide (k = mock_import_name name)
              then match code !! k with
                   | Some c => Some c
                   | None => module_code self !! k
                   end
              else module_code self !! k).
    { unfold ImporterMock_add. simpl.
      destruct (decide (k = mock_import_name name)) as [->|Hne].
      - destruct (code !! mock_import_name name);
          [by rewrite lookup_insert_eq|done].
      - destruct (code !! mock_import_name name);
          [by rewrite lookup_insert_ne|done]. }
    rewrite Hadd.
    change (list_fmap string string mock_import_name names)
      with (mock_import_name <$> names).
    destruct (decide (k = mock_import_name name)) as [->|Hne].
    + rewrite (bool_decide_eq_true_2
                 (mock_import_name name ∈
                    mock_import_name name :: (mock_import_name <$> names)))
        by left.
      destruct (bool_decide _); [|done].
      by destruct (code !! mock_import_name name).
    + destruct (decide (k ∈ mock_import_name <$> names)) as [Hin|Hout].
      * rewrite !bool_decide_eq_true_2; [done|by right|done].
      * rewrite !bool_decide_eq_false_2; [done| |done].
        by intros [?|?]%elem_of_cons.
Qed.

Lemma mock_module_file id names code k m :
  modules (ImporterMock_init id names code) !! k = Some m →
  mod_file m = Some "<mock __file__>".
Proof.
  unfold ImporterMock_init. intros H.
  apply ImporterMock_fold_made in H as [H|(name & _ & Hmade)].
  - simpl in H. by rewrite lookup_empty in H.
  - by destruct Hmade as (_ & _ & _ & Hf & _).
Qed.

(** X4. Every module a mock holds was made by [__init__] for one of the
    names it was given: it is stored under its own name, its loader is the
    mock and its file the mock file. A name that is its own import name
    gives a plain module, without [__path__], whose package is what precedes
    the last dot, if any; any other name is the import name followed by
    [.__init__] and gives a package: [__path__] is set and the package is
    the module itself. *)
Theorem mock_module_attributes id names code k m :
  modules (ImporterMock_init id names code) !! k = Some m →
  mod_name m = k ∧ mod_loader m = Some id ∧
  mod_file m = Some "<mock __file__>" ∧
  ∃ name,
    name ∈ names ∧ mock_import_name name = k ∧ mod_attr m = Some name ∧
    (name = k →
     mod_path m = None ∧
     mod_package m =
       if Str.contains "." name then Some (Str.rsplit1_head "." name)
       else None) ∧
    (name ≠ k →
     name = k +:+ ".__init__" ∧
     mod_path m = Some ["<mock __path__>"] ∧ mod_package m = Some k).
Proof.
  unfold ImporterMock_init. intros H.
  apply ImporterMock_fold_made in H as [H|(name & Hin & Hmade)].
  - simpl in H. by rewrite lookup_empty in H.
  - simpl in Hmade.
    destruct Hmade as (Hk & Hname & Hl & Hf & _ & Ha & Hplain & Hpkg).
    split; [done|]. split; [done|]. split; [done|].
    exists name. by split_and!.
Qed.

(** X5. The code a mock registers is the code it was given, for the import
    names of its modules and for nothing else; so code is only ever
    registered for a module the mock holds. *)
Theorem mock_code_is_given_code id names code k :
  module_code (ImporterMock_init id names code) !! k =
    (if bool_decide (k ∈ mock_import_name <$> names) then code !! k
     else None) ∧
  (is_Some (module_code (ImporterMock_init id names code) !! k) →
   is_Some (modules (ImporterMock_init id names code) !! k)).
Proof.
  assert (H : module_code (ImporterMock_init id names code) !! k =
              if bool_decide (k ∈ mock_import_name <$> names) then code !! k
              else None).
  { unfold ImporterMock_init. rewrite ImporterMock_fold_code. simpl.
    rewrite lookup_empty. destruct (bool_decide _); [|done].
    by destruct (code !! k). }
  split; [done|]. rewrite H. case_bool_decide as Hk.
  - intros _. by apply MockFacts.ImporterMock_init_modules.
  - by intros [? ?].
Qed.

(** X6. For a name a mock holds a module for, the two finders, the item
    access and [create_module] agree: [find_module] answers the mock,
    [find_spec] does not raise and passes the name, the mock file, the mock
    as loader and the [__path__] of the module on to
    [spec_from_file_location], and [create_module] and the item access
    return the module that [load_module] stores. *)
Theorem mock_finders_agree h id names code fullname :
  fullname ∈ mock_import_name <$> names →
  let self := ImporterMock_init id names code in
  ∃ m,
    modules self !! fullname = Some m ∧
    find_module self fullname = Some self ∧
    find_spec h self fullname =
      Ok (spec_from_file_location h fullname "<mock __file__>" id
            (mod_path m)) ∧
    (∀ spec, spec_name spec = fullname → create_module self spec = Ok m) ∧
    MockManager.__getitem__ self fullname = Ok m.
Proof.
  intros Hin self.
  apply (MockFacts.ImporterMock_init_modules id names code) in Hin as [m Hm].
  exists m. fold self in Hm. split; [done|].
  pose proof (mock_module_file id names code fullname m Hm) as Hf.
  split_and!.
  - unfold find_module. rewrite Hm.
    by rewrite bool_decide_eq_true_2 by by eexists.
  - unfold find_spec. rewrite Hm, Hf. unfold self, ImporterMock_init.
    by rewrite ImporterMock_fold_id.
  - intros spec <-. unfold create_module. by rewrite Hm.
  - unfold MockManager.__getitem__. by rewrite Hm.
Qed.

End MockInitFacts.

Module MockManagerFacts.
Import Py Sys Util UtilNotions UtilFacts MockManager.

Lemma modules_keys_fold names :
  ∀ acc k,
    k ∈ fold_left
          (fun keys name =>
             if bool_decide (mock_import_name name ∈ keys) then keys
             else (keys ++ [mock_import_name name])%list) names acc ↔
    k ∈ acc ∨ k ∈ mock_import_name <$> names.
Proof.
  induction names as [|name names IH]; intros acc k; simpl.
  - split; [by left|]. intros [H|H]; [done|by apply elem_of_nil in H].
  - rewrite IH, elem_of_cons. case_bool_decide as Hin.
    + split; [tauto|]. intros [H|[->|H]]; tauto.
    + rewrite elem_of_app, list_elem_of_singleton. tauto.
Qed.

(** The keys of [self.modules] are the import names of the names the mock
    was built with. *)
Lemma elem_of_modules_keys names k :
  k ∈ modules_keys names ↔ k ∈ mock_import_name <$> names.
Proof.
  unfold modules_keys. rewrite modules_keys_fold.
  split; [|by right]. intros [H|H]; [by apply elem_of_nil in H|done].
Qed.

(** X7. A [with] statement on a mock none of whose modules is named [sys],
    [marshal] or [imp]: the block runs with the modules of the mock removed
    from [sys.modules], its outcome is the outcome of the statement, and
    after it the modules of the mock are removed again, also those the block
    loaded; nothing else of the interpreter state is touched by the mock. *)
Theorem with_mock_uncaches names body st w :
  (∀ k, k ∈ mock_import_name <$> names → k ∉ protected) →
  ∃ w1 w3,
    (∀ k, sys_modules w1 !! k =
          if bool_decide (k ∈ mock_import_name <$> names) then None
          else sys_modules w !! k) ∧
    sys_attrs w1 = sys_attrs w ∧ filesystem w1 = filesystem w ∧
    with_mock (modules_keys names) body (st, w) =
      ((body w1).1, (Some Finished, w3)) ∧
    (∀ k, sys_modules w3 !! k =
          if bool_decide (k ∈ mock_import_name <$> names) then None
          else sys_modules (body w1).2 !! k) ∧
    sys_attrs w3 = sys_attrs (body w1).2 ∧
    filesystem w3 = filesystem (body w1).2.
Proof.
  intros Hun.
  set (keys := modules_keys names).
  assert (Hlook : ∀ (m : gmap string module) k,
            without keys m !! k =
            if bool_decide (k ∈ mock_import_name <$> names) then None
            else m !! k).
  { intros m k. rewrite lookup_without.
    destruct (decide (k ∈ mock_import_name <$> names)) as [Hin|Hout].
    - rewrite !bool_decide_eq_true_2; [done|done|].
      by apply elem_of_modules_keys.
    - rewrite !bool_decide_eq_false_2; [done|done|].
      intros Hk. by apply Hout, elem_of_modules_keys. }
  exists (with_modules (without keys) w).
  exists (with_modules (without keys)
            (body (with_modules (without keys) w)).2).
  split; [intros k; apply Hlook|]. split; [done|]. split; [done|].
  split; [|split; [intros k; apply Hlook|done]].
  unfold with_mock, __enter__, enter_manager, mbind, SE_bind, bind. simpl.
  destruct (uncache_run keys w) as (done & _ & Hrun).
  destruct (uncache keys w) as [[[[] resume]|e] w1].
  - destruct Hrun as (_ & -> & Hres).
    unfold try_finally, lift, __exit__, mbind, SE_bind, bind, locals,
      set_locals, manager_exit. simpl.
    destruct (body _) as [r w2]. simpl. unfold lift. simpl.
    rewrite Hres. by destruct r.
  - destruct Hrun as (_ & n & Hn & Hp & _). exfalso.
    apply (Hun n); [|done]. by apply elem_of_modules_keys.
Qed.

(** X8. A [with] statement on a mock that holds a module named [sys],
    [marshal] or [imp] raises [ValueError] on entry: the block is not run,
    and [sys.modules] has lost nothing but modules of the mock. *)
Theorem with_mock_protected_name names st w :
  (∃ k, k ∈ mock_import_name <$> names ∧ k ∈ protected) →
  ∃ n w',
    n ∈ mock_import_name <$> names ∧ n ∈ protected ∧
    (∀ k, k ∉ mock_import_name <$> names →
          sys_modules w' !! k = sys_modules w !! k) ∧
    ∀ body,
      with_mock (modules_keys names) body (st, w) =
      (Raise (mk_exc ValueError ("cannot uncache " +:+ n)),
       (Some Finished, w')).
Proof.
  intros (k0 & Hk0 & Hp0).
  set (keys := modules_keys names).
  destruct (uncache_run keys w) as (done & Hdone & Hrun).
  destruct (uncache keys w) as [[[[] resume]|e] w1] eqn:Hu.
  - destruct Hrun as (Hun & _). exfalso.
    apply (Hun k0); [|done]. by apply elem_of_modules_keys.
  - destruct Hrun as (-> & n & Hn & Hp & ->).
    exists n, (with_modules (without done) w).
    split; [by apply elem_of_modules_keys|]. split; [done|]. split.
    + intros k Hk. simpl. rewrite lookup_without.
      rewrite bool_decide_eq_false_2; [done|].
      intros Hin. by apply Hk, elem_of_modules_keys, Hdone.
    + intros body.
      unfold with_mock, __enter__, enter_manager, mbind, SE_bind, bind.
      simpl. fold keys. by rewrite Hu.
Qed.

End MockManagerFacts.

Module CreateModulesFacts.
Import Py Sys Util UtilNotions UtilFacts MoreNotions.

Lemma make_directories_result h dirs :
  ∀ fp l w fp' l' w',
    make_directories h dirs fp (l, w) = (Ok fp', (l', w')) →
    fp' = fold_left (path_join h) dirs fp ∧ mapping l' = mapping l.
Proof.
  induction dirs as [|d dirs IH]; intros fp l w fp' l' w';
    cbn [make_directories].
  - unfold mret, SE_ret, ret. by intros [= <- <- <-].
  - unfold on_fs. se_unfold. cbn [fst snd].
    destruct (path_exists h (path_join h fp d) (filesystem w)); cbn [negb].
    + intros Hrun. by apply IH in Hrun.
    + cbn beta iota. cbn [fst snd].
      destruct (mkdir h (path_join h fp d) (filesystem w)) as [[[]|e] fs1].
      * cbn [fst snd]. intros Hrun. by apply IH in Hrun.
      * cbn [fst snd]. discriminate.
Qed.

Lemma create_one_module_mapping h td name l w l' w' :
  create_one_module h td name (l, w) = (Ok tt, (l', w')) →
  mapping l' = <[name := module_file_path h td name]> (mapping l).
Proof.
  unfold create_one_module. intros H.
  apply bind_inv in H as [(? & [l1 w1] & H1 & H)|(e & _ & He)];
    [|discriminate He].
  apply set_locals_inv in H1 as (_ & -> & ->).
  apply bind_inv in H as [(present & [l2 w2] & H2 & H)|(e & _ & He)];
    [|discriminate He].
  apply lift_inv in H2 as [-> H2]. injection H2 as <- <-.
  apply bind_inv in H as [([] & [l3 w3] & H3 & H)|(e & _ & He)];
    [|discriminate He].
  assert (Hl3 : mapping l3 = mapping l).
  { destruct (bool_decide _).
    - by apply lift_inv in H3 as [-> _].
    - by injection H3 as <- <-. }
  apply bind_inv in H as [(fp & [l4 w4] & H4 & H)|(e & _ & He)];
    [|discriminate He].
  apply make_directories_result in H4 as [-> Hl4].
  apply bind_inv in H as [([] & [l5 w5] & H5 & H)|(e & _ & He)];
    [|discriminate He].
  apply lift_inv in H5 as [-> _].
  apply bind_inv in H as [([] & [l6 w6] & H6 & H)|(e & _ & He)];
    [|discriminate He].
  apply set_locals_inv in H6 as (_ & -> & ->).
  apply set_locals_inv in H as (_ & -> & ->). simpl.
  by rewrite Hl4, Hl3.
Qed.

Lemma create_loop_mapping h td names :
  ∀ l w l' w',
    for_each names (create_one_module h td) (l, w) = (Ok tt, (l', w')) →
    mapping l' =
    fold_left (fun m name => <[name := module_file_path h td name]> m)
      names (mapping l).
Proof.
  induction names as [|name names IH]; intros l w l' w'; cbn [for_each].
  - unfold ret. by intros [= <- <-].
  - intros H.
    apply bind_inv' in H as [([] & [l1 w1] & H1 & H)|(e & _ & He)];
      [|discriminate He].
    apply create_one_module_mapping in H1. apply IH in H.
    simpl. by rewrite H, H1.
Qed.

Lemma lookup_created_mapping h td names k :
  created_mapping h td names !! k =
  if bool_decide (k ∈ names) then Some (module_file_path h td k)
  else if bool_decide (k = ".root") then Some td else None.
Proof.
  unfold created_mapping.
  assert (H : ∀ m : gmap string string,
            fold_left
              (fun m name => <[name := module_file_path h td name]> m)
              names m !! k =
            if bool_decide (k ∈ names) then Some (module_file_path h td k)
            else m !! k).
  { induction names as [|name names IH]; intros m; simpl; [done|].
    rewrite IH. destruct (decide (k ∈ names)) as [Hin|Hout].
    - rewrite !bool_decide_eq_true_2; [done|by right|done].
    - rewrite (bool_decide_eq_false_2 (k ∈ names)) by done.
      destruct (decide (k = name)) as [->|Hne].
      + rewrite lookup_insert_eq. by rewrite bool_decide_eq_true_2 by left.
      + rewrite lookup_insert_ne by done.
        rewrite bool_decide_eq_false_2; [done|].
        by intros [?|?]%elem_of_cons. }
  rewrite H. destruct (bool_decide (k ∈ names)); [done|].
  case_bool_decide as Hk.
  - subst k. apply lookup_singleton_eq.
  - by apply lookup_singleton_ne.
Qed.

(** What entering the managers leaves behind.  When the set-up raises, the
    attributes of [sys] are untouched and [import_state] is not waiting;
    when it succeeds, [import_state] is waiting with the original values
    of its four attributes saved. *)
Lemma create_modules_setup_state h names w r l' w' :
  create_modules_setup h names
    (mk_create_modules_locals [] ∅ None None None ∅, w) = (r, (l', w')) →
  match r with
  | Raise _ =>
      sys_attrs w' = sys_attrs w ∧ suspended (state_manager l') = false
  | Ok y =>
      ∃ td fs1 o rs,
        mkdtemp h (filesystem w) = (Ok td, fs1) ∧
        temp_dir l' = Some td ∧
        y = created_mapping h td names ∧
        state_manager l' = Some (Suspended rs) ∧
        saved_from (sys_attrs w) o ∧ (∀ k, k ∈ o.*1 ↔ k ∈ four) ∧
        (∀ t w2,
           rs t w2 =
           (match t with None => Ok tt | Some e => Raise e end,
            with_attrs (restore o) w2)) ∧
        (∀ k d, (k, d) ∈ import_state_defaults →
           sys_attrs w' !! k =
           Some (default d (dict_get k [("path", VList [VStr td])]))) ∧
        (∀ k, k ∉ four → sys_attrs w' !! k = sys_attrs w !! k)
  end.
Proof.
  unfold create_modules_setup. intros H.
  apply bind_inv in H as [(td & [l1 w1] & H1 & H)|(e & H1 & ->)].
  2:{ apply lift_inv in H1 as [-> H1]. by apply on_fs_inv in H1 as [Ha _]. }
  apply lift_inv in H1 as [-> H1].
  assert (Hmk : ∃ fs1, mkdtemp h (filesystem w) = (Ok td, fs1)).
  { unfold on_fs in H1. destruct (mkdtemp h (filesystem w)) as [r1 fs1].
    injection H1 as -> _. by exists fs1. }
  apply on_fs_inv in H1 as [Ha1 _].
  apply bind_inv in H as [([] & [l2 w2] & H2 & H)|(e & H2 & ->)].
  2:{ apply set_locals_inv in H2 as [? _]. discriminate. }
  apply set_locals_inv in H2 as (_ & -> & ->).
  apply bind_inv in H as [([] & [l3 w3] & H3 & H)|(e & H3 & ->)].
  2:{ apply set_locals_inv in H3 as [? _]. discriminate. }
  apply set_locals_inv in H3 as (_ & -> & ->).
  apply bind_inv in H as [([] & [l4 w4] & H4 & H)|(e & H4 & ->)].
  2:{ apply create_loop_frame in H4 as (Ha & Hs & _).
      rewrite Hs. simpl. split; [congruence|done]. }
  pose proof (create_loop_mapping _ _ _ _ _ _ _ H4) as Hmap.
  apply create_loop_frame in H4 as (Ha4 & Hs4 & Hu4 & Ht4 & _ & _).
  simpl in Hs4, Hu4, Ht4, Hmap.
  apply bind_inv in H as [(l5 & [l6 w6] & H5 & H)|(e & H5 & ->)];
    [|discriminate H5].
  injection H5 as <- <- <-.
  set (U := elements (import_names l4)) in *.
  apply bind_inv in H as [([] & [l7 w7] & H6 & H)|(e & H6 & ->)].
  2:{ apply enter_manager_inv in H6.
      destruct (uncache_run U w4) as (done & Hdone & Hrun).
      destruct (uncache U w4) as [[[[] ru]|e'] w8];
        destruct H6 as (He & -> & ->); [discriminate He|].
      destruct Hrun as [-> _]. simpl. rewrite Hs4.
      split; [congruence|done]. }
  apply enter_manager_inv in H6.
  destruct (uncache_run U w4) as (done & Hdone & Hrun).
  destruct (uncache U w4) as [[[[] ru]|e'] w8];
    destruct H6 as (He & -> & ->); [|discriminate He].
  destruct Hrun as (_ & -> & Hru).
  apply bind_inv in H as [([] & [l9 w9] & H7 & H)|(e & H7 & ->)].
  2:{ apply enter_manager_inv in H7.
      match type of H7 with context [import_state ?kw ?w0] =>
        pose proof (import_state_run kw w0) as Hrun;
        destruct (import_state kw w0) as [[[[] rs]|e'] w10]
      end; destruct H7 as (He7 & -> & ->); [discriminate He7|].
      destruct Hrun as [-> _]. simpl. split; [congruence|done]. }
  apply enter_manager_inv in H7.
  match type of H7 with context [import_state ?kw ?w0] =>
    pose proof (import_state_run kw w0) as Hrun;
    destruct (import_state kw w0) as [[[[] rs]|e'] w10]
  end; destruct H7 as (He7 & -> & ->); [|discriminate He7].
  destruct Hrun as (_ & Hvals & Hother & _ & _ & o & Hsaved & Hkeys & Hrs).
  simpl in Hvals, Hother, Hsaved.
  apply bind_inv in H as [(l11 & [l12 w12] & H8 & H)|(e & H8 & ->)];
    [|discriminate H8].
  injection H8 as <- <- <-. injection H as <- <- <-.
  destruct Hmk as [fs1 Hmk].
  exists td, fs1, o, rs. simpl.
  split; [done|]. split; [done|].
  split; [by rewrite Hmap|]. split; [done|].
  split; [by rewrite <- Ha1, <- Ha4|]. split; [done|]. split; [done|].
  split.
  - intros k d Hin. by destruct (Hvals k d Hin).
  - intros k Hk. rewrite Hother by done. by rewrite Ha4, Ha1.
Qed.

(** The [finally] block, as far as the attributes of [sys] go. *)
Lemma create_modules_cleanup_attrs h names l w r l' w' :
  removing names (uncache_manager l) →
  create_modules_cleanup h (l, w) = (r, (l', w')) →
  match state_manager l with
  | Some (Suspended rs) =>
      ∀ w1, rs None w = (Ok tt, w1) → sys_attrs w' = sys_attrs w1
  | _ => sys_attrs w' = sys_attrs w
  end.
Proof.
  intros Hr. unfold create_modules_cleanup. intros H.
  apply bind_inv in H as [(l1 & [l2 w2] & H1 & H)|(e & H1 & ->)];
    [|discriminate H1].
  injection H1 as <- <- <-.
  assert (Hrest : ∀ w1,
            (match uncache_manager l with
             | Some m => lift (manager_exit m)
             | None => mret tt
             end ≫= λ _,
               match temp_dir l with
               | Some d => lift (on_fs (rmtree h d))
               | None => raise (mk_exc UnboundLocalError "temp_dir")
               end) (l, w1) = (r, (l', w')) →
            sys_attrs w' = sys_attrs w1).
  { intros w1 H'.
    apply bind_inv in H' as [([] & [l3 w3] & H2 & H')|(e & H2 & ->)].
    - assert (Ha : sys_attrs w3 = sys_attrs w1).
      { destruct (uncache_manager l) as [[ru|]|]; simpl in *.
        - apply lift_inv in H2 as [_ H2]. rewrite Hr in H2.
          by injection H2 as <-.
        - apply lift_inv in H2 as [_ H2]. by injection H2 as <-.
        - by injection H2 as <- <-. }
      destruct (temp_dir l) as [d|].
      + apply lift_inv in H' as [_ H']. apply on_fs_inv in H' as [Ha' _].
        congruence.
      + injection H' as <- <- <-. done.
    - destruct (uncache_manager l) as [[ru|]|]; simpl in *.
      + apply lift_inv in H2 as [_ H2]. rewrite Hr in H2. discriminate H2.
      + apply lift_inv in H2 as [_ H2]. discriminate H2.
      + discriminate H2. }
  destruct (state_manager l) as [[rs|]|].
  - intros w1 Hrs.
    apply bind_inv in H as [([] & [l3 w3] & H2 & H)|(e & H2 & ->)].
    + apply lift_inv in H2 as [-> H2]. simpl in H2. rewrite Hrs in H2.
      injection H2 as <-. by apply Hrest.
    + apply lift_inv in H2 as [_ H2]. simpl in H2. rewrite Hrs in H2.
      discriminate H2.
  - apply bind_inv in H as [([] & [l3 w3] & H2 & H)|(e & H2 & ->)].
    + apply lift_inv in H2 as [-> H2]. injection H2 as <-. by apply Hrest.
    + apply lift_inv in H2 as [_ H2]. discriminate H2.
  - apply bind_inv in H as [([] & [l3 w3] & H2 & H)|(e & H2 & ->)].
    + injection H2 as <- <-. by apply Hrest.
    + discriminate H2.
Qed.

(** X9. When [tempfile.mkdtemp()] fails, its error is lost: the [finally]
    block reads [temp_dir], which was never bound, and the
    [UnboundLocalError] of that read is what [create_modules] raises. The
    block of the [with] statement is not run. *)
Theorem create_modules_mkdtemp_failure h names w e fs1 :
  mkdtemp h (filesystem w) = (Raise e, fs1) →
  ∀ body,
    with_ (create_modules h names) body w =
    (Raise (mk_exc UnboundLocalError "temp_dir"),
     with_filesystem (fun _ => fs1) w).
Proof.
  intros Hmk body.
  unfold with_, create_modules, try_yield_finally, create_modules_setup.
  unfold mbind at 1, SE_bind at 1, bind at 1.
  unfold lift at 1, on_fs at 1. simpl. rewrite Hmk. simpl.
  reflexivity.
Qed.

(** X10. Whatever happens while the files are made, in the block and on
    exit, after a [with] statement on [create_modules] the four attributes
    of [sys] that [import_state] manages have the values they had before it. *)
Theorem create_modules_restores_import_state h names body w k :
  k ∈ four →
  sys_attrs (with_ (create_modules h names) body w).2 !! k =
  sys_attrs w !! k.
Proof.
  intros Hk. unfold with_, create_modules, try_yield_finally.
  destruct (create_modules_setup h names _) as [r [l1 w1]] eqn:Hsetup.
  pose proof (create_modules_setup_state _ _ _ _ _ _ Hsetup) as Hstate.
  apply create_modules_setup_run in Hsetup as (_ & _ & U & _ & Hrem & _).
  destruct r as [y|e].
  - destruct Hstate
      as (td & fs1 & o & rs & _ & _ & _ & Hs & Hsaved & Hkeys & Hrs & _).
    assert (Hexit : ∀ t w2,
              sys_attrs
                (let '(r, ls3) :=
                   try_finally (thrown t) (create_modules_cleanup h) (l1, w2)
                 in (r, ls3.2)).2 !! k = sys_attrs w !! k).
    { intros t w2. unfold try_finally.
      destruct (thrown t (l1, w2)) as [r0 [l2 w3]] eqn:Ht.
      assert (l2 = l1 ∧ w3 = w2) as [-> ->].
      { destruct t; unfold thrown, raise, ret in Ht;
          by injection Ht as <- <- <-. }
      destruct (create_modules_cleanup h (l1, w2)) as [r1 [l3 w4]] eqn:Hc.
      apply (create_modules_cleanup_attrs h U) in Hc; [|done].
      rewrite Hs in Hc. specialize (Hc _ (Hrs None w2)).
      assert (sys_attrs w4 !! k = sys_attrs w !! k) as Hgoal.
      { rewrite Hc. simpl.
        rewrite (lookup_restore (sys_attrs w)) by done.
        by rewrite bool_decide_eq_true_2 by by apply Hkeys. }
      destruct r1 as [[]|e1]; simpl; exact Hgoal. }
    cbn beta iota. cbn [fst snd]. destruct (body y w1) as [[[]|e] w2].
    + apply Hexit.
    + specialize (Hexit (Some e) w2).
      destruct (let '(r, ls3) := try_finally _ _ _ in (r, ls3.2))
        as [[[]|e'] w3]; exact Hexit.
  - destruct Hstate as [Ha Hsusp].
    destruct (create_modules_cleanup h (l1, w1)) as [r1 [l3 w4]] eqn:Hc.
    apply (create_modules_cleanup_attrs h U) in Hc; [|done].
    assert (sys_attrs w4 = sys_attrs w1) as Hgoal.
    { by destruct (state_manager l1) as [[rs|]|]. }
    destruct r1; simpl; by rewrite Hgoal, Ha.
Qed.

(** X11. When [create_modules] is entered without error, the block gets a
    dictionary that maps [.root] to the temporary directory (unless a module
    is named [.root], whose file then takes the entry) and every name to the
    file made for it, and nothing else; meanwhile [sys.path] holds the
    temporary directory alone and the three other attributes managed by
    [import_state] are empty. *)
Theorem create_modules_yields_mapping h names w mapping resume w1 :
  create_modules h names w = (Ok (mapping, resume), w1) →
  ∃ td fs1,
    mkdtemp h (filesystem w) = (Ok td, fs1) ∧
    (∀ name, name ∈ names →
       mapping !! name = Some (module_file_path h td name)) ∧
    (".root" ∉ names → mapping !! ".root" = Some td) ∧
    (∀ k, is_Some (mapping !! k) → k = ".root" ∨ k ∈ names) ∧
    sys_attrs w1 !! "path" = Some (VList [VStr td]) ∧
    sys_attrs w1 !! "meta_path" = Some (VList []) ∧
    sys_attrs w1 !! "path_hooks" = Some (VList []) ∧
    sys_attrs w1 !! "path_importer_cache" = Some (VDict []).
Proof.
  unfold create_modules, try_yield_finally.
  destruct (create_modules_setup h names _) as [r [l1 w0]] eqn:Hsetup.
  apply create_modules_setup_state in Hsetup.
  destruct r as [y|e].
  2:{ destruct (create_modules_cleanup h (l1, w0)) as [[[]|e'] ?];
        discriminate. }
  intros [= <- _ <-].
  destruct Hsetup
    as (td & fs1 & o & rs & Hmk & _ & -> & _ & _ & _ & _ & Hvals & _).
  exists td, fs1. split; [done|]. split_and!.
  - intros name Hin. rewrite lookup_created_mapping.
    by rewrite bool_decide_eq_true_2.
  - intros Hroot. rewrite lookup_created_mapping.
    rewrite bool_decide_eq_false_2 by done.
    by rewrite bool_decide_eq_true_2.
  - intros k. rewrite lookup_created_mapping.
    case_bool_decide as Hin; [by right|].
    case_bool_decide as Hk; [by left|]. by intros [? ?].
  - apply (Hvals "path" (VList [])). unfold import_state_defaults.
    rewrite !elem_of_cons. tauto.
  - apply (Hvals "meta_path" (VList [])). unfold import_state_defaults.
    rewrite !elem_of_cons. tauto.
  - apply (Hvals "path_hooks" (VList [])). unfold import_state_defaults.
    rewrite !elem_of_cons. tauto.
  - apply (Hvals "path_importer_cache" (VDict [])).
    unfold import_state_defaults. rewrite !elem_of_cons. tauto.
Qed.

(** The [finally] block once both managers were entered: they are left
    and the temporary directory is removed. *)
Lemma create_modules_cleanup_entered h names l w td rs o :
  removing names (uncache_manager l) →
  state_manager l = Some (Suspended rs) →
  (∀ t w2,
     rs t w2 =
     (match t with None => Ok tt | Some e => Raise e end,
      with_attrs (restore o) w2)) →
  temp_dir l = Some td →
  ∃ l' w',
    create_modules_cleanup h (l, w) =
      ((rmtree h td (filesystem w)).1, (l', w')) ∧
    filesystem w' = (rmtree h td (filesystem w)).2.
Proof.
  intros Hr Hs Hrs Ht.
  unfold create_modules_cleanup, mbind, SE_bind, bind, locals, lift,
    manager_exit, on_fs. simpl. rewrite Hs, Ht. simpl. rewrite Hrs. simpl.
  destruct (uncache_manager l) as [[ru|]|]; simpl in *.
  - rewrite Hr. simpl.
    destruct (rmtree h td (filesystem w)) as [r fs]. by eexists _, _.
  - destruct (rmtree h td (filesystem w)) as [r fs]. by eexists _, _.
  - unfold mret, SE_ret, ret. simpl.
    destruct (rmtree h td (filesystem w)) as [r fs]. by eexists _, _.
Qed.

(** X19.  Once [create_modules] was entered without error, leaving the
    [with] statement always removes the temporary directory, from the
    file system as the block left it, also when the block raised.  The
    outcome of the statement is the outcome of the block, unless the
    removal itself raises. *)
Theorem create_modules_removes_temp_dir h names w mapping resume w1 :
  create_modules h names w = (Ok (mapping, resume), w1) →
  ∃ td fs1,
    mkdtemp h (filesystem w) = (Ok td, fs1) ∧
    ∀ body,
      filesystem (with_ (create_modules h names) body w).2 =
        (rmtree h td (filesystem (body mapping w1).2)).2 ∧
      (with_ (create_modules h names) body w).1 =
        match (rmtree h td (filesystem (body mapping w1).2)).1 with
        | Ok _ => (body mapping w1).1
        | Raise e => Raise e
        end.
Proof.
  intros H. pose proof H as H'.
  unfold create_modules, try_yield_finally in H'.
  destruct (create_modules_setup h names _) as [r [l1 w0]] eqn:Hsetup.
  pose proof (create_modules_setup_state _ _ _ _ _ _ Hsetup) as Hstate.
  apply create_modules_setup_run in Hsetup as (_ & _ & U & _ & Hrem & _).
  destruct r as [y|e].
  2:{ destruct (create_modules_cleanup h (l1, w0)) as [[[]|e'] ?];
        discriminate. }
  injection H' as <- <- <-.
  destruct Hstate
    as (td & fs1 & o & rs & Hmk & Htd & _ & Hs & _ & _ & Hrs & _).
  exists td, fs1. split; [done|]. intros body.
  unfold with_. rewrite H.
  destruct (body y w0) as [[[]|e] w2]; cbn [fst snd]; unfold try_finally.
  - destruct (create_modules_cleanup_entered h U l1 w2 td rs o)
      as (l' & w' & Hc & Hfs); [done..|].
    unfold thrown, ret. rewrite Hc.
    destruct (rmtree h td (filesystem w2)) as [[[]|e'] fs2]; simpl in *; done.
  - destruct (create_modules_cleanup_entered h U l1 w2 td rs o)
      as (l' & w' & Hc & Hfs); [done..|].
    unfold thrown, raise. rewrite Hc.
    destruct (rmtree h td (filesystem w2)) as [[[]|e'] fs2]; simpl in *; done.
Qed.

End CreateModulesFacts.

Module ImportNameFacts.
Import Py Sys Util MockInitFacts.

Lemma length_append s t :
  String.length (s +:+ t) = (String.length s + String.length t)%nat.
Proof.
  induction s as [|c s IH]; [done|]. rewrite append_cons. simpl. by rewrite IH.
Qed.

Lemma substring_append_l s t :
  String.substring 0 (String.length s) (s +:+ t) = s.
Proof.
  induction s as [|c s IH].
  - rewrite append_nil_l. by destruct t.
  - rewrite append_cons. simpl. by rewrite IH.
Qed.

Lemma substring_append_r s t :
  String.substring (String.length s) (String.length t) (s +:+ t) = t.
Proof.
  induction s as [|c s IH].
  - rewrite append_nil_l. apply substring_all.
  - rewrite append_cons. simpl. apply IH.
Qed.

Lemma endswith_append s t : Str.endswith (s +:+ t) t = true.
Proof.
  unfold Str.endswith. rewrite length_append.
  apply andb_true_iff. split; [apply Nat.leb_le; lia|].
  replace (String.length s + String.length t - String.length t)%nat
    with (String.length s) by lia.
  rewrite substring_append_r. apply String.eqb_refl.
Qed.

Lemma drop_last_append s t : Str.drop_last (String.length t) (s +:+ t) = s.
Proof.
  unfold Str.drop_last. rewrite length_append.
  replace (String.length s + String.length t - String.length t)%nat
    with (String.length s) by lia.
  apply substring_append_l.
Qed.

Lemma append_assoc s t u : (s +:+ t) +:+ u = s +:+ (t +:+ u).
Proof.
  induction s as [|c s IH]; [done|]. rewrite !append_cons. by rewrite IH.
Qed.

Lemma length_substring_le n s :
  (String.length (String.substring 0 n s) <= n)%nat.
Proof.
  revert s. induction n as [|n IH]; intros [|c s]; simpl; try lia.
  specialize (IH s). lia.
Qed.

Lemma endswith_length s t :
  Str.endswith s t = true → (String.length t <= String.length s)%nat.
Proof.
  unfold Str.endswith. intros H. apply andb_true_iff in H as [H _].
  by apply Nat.leb_le.
Qed.

(** X12. [create_modules] tests for the ending [__init__] and the mocks for
    [.__init__], and both then cut off nine characters. For [pkg.__init__]
    both get [pkg], and a name that does not end in [__init__] is its own
    import name for both. The two differ exactly on the names that end in
    [__init__] without a dot before it: the mocks keep such a name,
    [create_modules] cuts it. *)
Theorem import_names_agree :
  (∀ p, created_import_name (p +:+ ".__init__") = p ∧
        mock_import_name (p +:+ ".__init__") = p) ∧
  (∀ name, Str.endswith name "__init__" = false →
           created_import_name name = name ∧ mock_import_name name = name) ∧
  (∀ name, created_import_name name = mock_import_name name ↔
           Str.endswith name "__init__" = false ∨
           Str.endswith name ".__init__" = true).
Proof.
  assert (Hdot : ∀ name, Str.endswith name ".__init__" = true →
                         Str.endswith name "__init__" = true).
  { intros name H. apply endswith_split in H. rewrite H.
    change ".__init__" with ("." +:+ "__init__") at 2.
    rewrite <- append_assoc. apply endswith_append. }
  split_and!.
  - intros p. unfold created_import_name, mock_import_name.
    rewrite (Hdot _ (endswith_append p ".__init__")).
    rewrite (endswith_append p ".__init__"). simpl.
    split; apply (drop_last_append p ".__init__").
  - intros name H. unfold created_import_name, mock_import_name.
    rewrite H. simpl. split; [done|].
    destruct (Str.endswith name ".__init__") eqn:Hd; [|done].
    apply Hdot in Hd. congruence.
  - intros name. unfold created_import_name, mock_import_name.
    destruct (Str.endswith name "__init__") eqn:Hu; simpl.
    + destruct (Str.endswith name ".__init__") eqn:Hd; simpl.
      * split; [by right|done].
      * split; [|by intros [?|?]]. intros Heq. exfalso.
        apply endswith_length in Hu. simpl in Hu.
        pose proof (length_substring_le (String.length name - 9) name) as Hl.
        unfold Str.drop_last in Heq. simpl in Heq. rewrite Heq in Hl. lia.
    + split; [by left|]. intros _.
      destruct (Str.endswith name ".__init__") eqn:Hd; [|done].
      apply Hdot in Hd. congruence.
Qed.

End ImportNameFacts.

Module ReaderContentsFacts.
Import Py Sys Util.

Lemma contents_drain_running entries :
  ∀ fuel, (List.length entries < fuel)%nat →
          contents_drain fuel (Running entries) = Ok entries.
Proof.
  induction entries as [|entry entries IH]; intros [|fuel] Hf; simpl in *;
    try lia.
  - reflexivity.
  - rewrite IH by lia. reflexivity.
Qed.

(** X13. Listing the generator that [contents] returns gives the [contents]
    handed to [create_package], in their order, when [path] is not an
    exception; when [path] is an exception other than a [StopIteration],
    listing raises it, and the generator is finished: a further [next]
    raises [StopIteration]. *)
Theorem contents_lists_entries loader file path is_package entries fuel :
  let reader := (create_package loader file path is_package entries).2 in
  (is_Exception_instance path = false →
   (List.length entries < fuel)%nat →
   contents_drain fuel (contents reader) = Ok entries) ∧
  (∀ e, path = VExc e → isinstance_exc e Exception = true →
        isinstance_exc e StopIteration = false → (0 < fuel)%nat →
        contents_drain fuel (contents reader) = Raise e ∧
        contents_next (contents_next (contents reader)).2 =
          (Raise (mk_exc StopIteration EmptyString), Exhausted)).
Proof.
  simpl. split.
  - intros Hp Hf. destruct fuel as [|fuel]; [lia|].
    pose proof (contents_drain_running entries (S fuel) Hf) as Hrun.
    destruct entries as [|entry entries]; simpl in *; by rewrite Hp.
  - intros e -> He Hs Hf. destruct fuel as [|fuel]; [lia|].
    simpl. rewrite He. simpl. rewrite Hs. simpl. by rewrite Hs.
Qed.

End ReaderContentsFacts.

Module ZipSetupFacts.
Import Py Sys Util UtilFacts ZipSetupBase.

Lemma sys_path_append_run x items w :
  sys_attrs w !! "path" = Some (VList items) →
  sys_path_append x w =
  (Ok tt, with_attrs (insert "path" (VList (items ++ [VStr x]))) w).
Proof.
  intros H. unfold sys_path_append, sys_getattr, sys_setattr. se_unfold.
  by rewrite H.
Qed.

Lemma sys_path_remove_run x items w :
  sys_attrs w !! "path" = Some (VList items) →
  sys_path_remove x w =
  match list_remove x items with
  | Some items' => (Ok tt, with_attrs (insert "path" (VList items')) w)
  | None => (Raise (mk_exc ValueError "list.remove(x): x not in list"), w)
  end.
Proof.
  intros H. unfold sys_path_remove, sys_getattr, sys_setattr. se_unfold.
  rewrite H. by destruct (list_remove x items).
Qed.

Lemma cache_delitem_run key cache w :
  sys_attrs w !! "path_importer_cache" = Some (VDict cache) →
  cache_delitem key w =
  if existsb (fun kv => str_eq key (fst kv)) cache then
    (Ok tt,
     with_attrs
       (insert "path_importer_cache"
          (VDict (List.filter (fun kv => negb (str_eq key (fst kv))) cache)))
       w)
  else (Raise (mk_exc KeyError key), w).
Proof.
  intros H. unfold cache_delitem, sys_getattr, sys_setattr. se_unfold.
  rewrite H. by destruct (existsb _ cache).
Qed.

(** The three [try] statements, one at a time. *)
Lemma tearDownClass_run zp c w items cache :
  _zip_path c = Some zp →
  sys_attrs w !! "path" = Some (VList items) →
  sys_attrs w !! "path_importer_cache" = Some (VDict cache) →
  let w1 :=
    match list_remove zp items with
    | Some items' => with_attrs (insert "path" (VList items')) w
    | None => w
    end in
  let w2 :=
    with_attrs
      (insert "path_importer_cache"
         (VDict (List.filter (fun kv => negb (str_eq zp (fst kv))) cache)))
      w1 in
  tearDownClass (c, w) =
  if existsb (fun kv => str_eq zp (fst kv)) cache then
    match data c with
    | None => (Raise (mk_exc AttributeError "data"), (c, w2))
    | Some d =>
        (Ok tt,
         (mk_cls (ZIP_MODULE c) None None,
          match sys_modules w2 !! mod_name d with
          | Some _ => with_modules (delete (mod_name d)) w2
          | None => w2
          end))
    end
  else
    (Ok tt,
     (match data c with
      | None => c
      | Some _ => mk_cls (ZIP_MODULE c) None None
      end, w1)).
Proof.
  intros Hzp Hpath Hcache w1 w2.
  assert (Hcache1 : sys_attrs w1 !! "path_importer_cache"
                    = Some (VDict cache)).
  { unfold w1. destruct (list_remove zp items); [|done].
    simpl. by rewrite lookup_insert_ne. }
  unfold tearDownClass.
  unfold mbind at 1, SE_bind at 1, bind at 1.
  assert (H1 : try_except
                 (c0 ← locals;
                  zip_path ← getattr "_zip_path" (_zip_path c0);
                  lift (sys_path_remove zip_path))
                 ValueError (λ _, mret ()) (c, w) = (Ok tt, (c, w1))).
  { unfold try_except, mbind, SE_bind, bind, locals, getattr, lift. simpl.
    rewrite Hzp. unfold mret, SE_ret, ret. simpl.
    rewrite (sys_path_remove_run zp items w Hpath). unfold w1.
    by destruct (list_remove zp items). }
  rewrite H1.
  unfold mbind at 1, SE_bind at 1, bind at 1.
  destruct (existsb (fun kv => str_eq zp (fst kv)) cache) eqn:Hex.
  - destruct (data c) as [d|] eqn:Hd.
    + assert (H2 : try_except
                     (c0 ← locals;
                      zip_path ← getattr "_zip_path" (_zip_path c0);
                      lift (cache_delitem zip_path);;
                      c1 ← locals;
                      d0 ← getattr "data" (data c1);
                      lift (modules_delitem (mod_name d0)))
                     KeyError (λ _, mret ()) (c, w1) =
                   (Ok tt,
                    (c, match sys_modules w2 !! mod_name d with
                        | Some _ => with_modules (delete (mod_name d)) w2
                        | None => w2
                        end))).
      { unfold try_except, mbind, SE_bind, bind, locals, getattr, lift.
        simpl. rewrite Hzp. unfold mret, SE_ret, ret. simpl.
        rewrite (cache_delitem_run zp cache w1 Hcache1), Hex. simpl.
        rewrite Hd. simpl. unfold modules_delitem. fold w2.
        change (sys_modules w1) with (sys_modules w2).
        by destruct (sys_modules w2 !! mod_name d). }
      rewrite H2.
      unfold try_except, mbind, SE_bind, bind, locals, getattr, set_locals.
      simpl. rewrite Hd. unfold mret, SE_ret, ret. simpl. rewrite Hzp.
      reflexivity.
    + assert (H2 : try_except
                     (c0 ← locals;
                      zip_path ← getattr "_zip_path" (_zip_path c0);
                      lift (cache_delitem zip_path);;
                      c1 ← locals;
                      d0 ← getattr "data" (data c1);
                      lift (modules_delitem (mod_name d0)))
                     KeyError (λ _, mret ()) (c, w1) =
                   (Raise (mk_exc AttributeError "data"), (c, w2))).
      { unfold try_except, mbind, SE_bind, bind, locals, getattr, lift.
        simpl. rewrite Hzp. unfold mret, SE_ret, ret. simpl.
        rewrite (cache_delitem_run zp cache w1 Hcache1), Hex. simpl.
        rewrite Hd. reflexivity. }
      by rewrite H2.
  - assert (H2 : try_except
                   (c0 ← locals;
                    zip_path ← getattr "_zip_path" (_zip_path c0);
                    lift (cache_delitem zip_path);;
                    c1 ← locals;
                    d0 ← getattr "data" (data c1);
                    lift (modules_delitem (mod_name d0)))
                   KeyError (λ _, mret ()) (c, w1) = (Ok tt, (c, w1))).
    { unfold try_except, mbind, SE_bind, bind, locals, getattr, lift.
      simpl. rewrite Hzp. unfold mret, SE_ret, ret. simpl.
      rewrite (cache_delitem_run zp cache w1 Hcache1), Hex. reflexivity. }
    rewrite H2.
    unfold try_except, mbind, SE_bind, bind, locals, getattr, set_locals.
    simpl. destruct (data c) as [d|] eqn:Hd.
    + unfold mret, SE_ret, ret. simpl. rewrite Hzp. reflexivity.
    + reflexivity.
Qed.

Lemma str_eq_true x v : str_eq x v = true ↔ v = VStr x.
Proof.
  destruct v; simpl; try (split; [discriminate|discriminate]).
  rewrite String.eqb_eq. split; [by intros ->|by intros [= ->]].
Qed.

Lemma list_remove_absent x items :
  VStr x ∉ items → list_remove x items = None.
Proof.
  induction items as [|item items IH]; simpl; [done|].
  intros [Hne Hout]%not_elem_of_cons.
  destruct (str_eq x item) eqn:He.
  - apply str_eq_true in He. congruence.
  - by rewrite IH.
Qed.

Lemma list_remove_first x l1 l2 :
  VStr x ∉ l1 → list_remove x (l1 ++ VStr x :: l2) = Some (l1 ++ l2)%list.
Proof.
  induction l1 as [|item l1 IH]; simpl.
  - intros _. by rewrite String.eqb_refl.
  - intros [Hne Hout]%not_elem_of_cons.
    destruct (str_eq x item) eqn:He.
    + apply str_eq_true in He. congruence.
    + by rewrite IH.
Qed.

Lemma existsb_key x (cache : list (pyval * pyval)) :
  existsb (fun kv => str_eq x (fst kv)) cache = true ↔
  ∃ v, (VStr x, v) ∈ cache.
Proof.
  rewrite existsb_exists. split.
  - intros ([k v] & Hin & Hk). simpl in Hk. apply str_eq_true in Hk as ->.
    exists v. by apply list_elem_of_In.
  - intros (v & Hin). exists (VStr x, v). split.
    + by apply list_elem_of_In.
    + simpl. apply String.eqb_refl.
Qed.

(** [tearDownClass] on a class that has both attributes. *)
Lemma tearDownClass_ready zp d c w items cache :
  _zip_path c = Some zp → data c = Some d →
  sys_attrs w !! "path" = Some (VList items) →
  sys_attrs w !! "path_importer_cache" = Some (VDict cache) →
  ∃ w',
    tearDownClass (c, w) = (Ok tt, (mk_cls (ZIP_MODULE c) None None, w')) ∧
    sys_attrs w' !! "path" =
      Some (VList (default items (list_remove zp items))) ∧
    (∀ k, k ≠ "path" → k ≠ "path_importer_cache" →
          sys_attrs w' !! k = sys_attrs w !! k) ∧
    filesystem w' = filesystem w.
Proof.
  intros Hzp Hd Hpath Hcache.
  rewrite (tearDownClass_run zp c w items cache Hzp Hpath Hcache), Hd.
  set (w1 := match list_remove zp items with
             | Some items' => with_attrs (insert "path" (VList items')) w
             | None => w
             end).
  assert (Hw1 : sys_attrs w1 !! "path" =
                  Some (VList (default items (list_remove zp items))) ∧
                (∀ k, k ≠ "path" → sys_attrs w1 !! k = sys_attrs w !! k) ∧
                filesystem w1 = filesystem w).
  { unfold w1. destruct (list_remove zp items); simpl; [|done].
    split; [apply lookup_insert_eq|]. split; [|done].
    intros k Hk. by rewrite lookup_insert_ne. }
  destruct Hw1 as (Hp & Hother & Hfs).
  destruct (existsb _ cache).
  - eexists. split; [reflexivity|].
    destruct (sys_modules _ !! mod_name d); simpl; split_and!.
    all: try (intros; rewrite lookup_insert_ne by done; auto).
    all: done.
  - eexists. split; [reflexivity|]. split_and!; auto.
Qed.

(** X14.  Once [setUpClass] has set both class attributes, [tearDownClass]
    does not raise: it deletes both attributes of the class and takes the
    first occurrence of the zip path off [sys.path], or leaves [sys.path]
    alone when the path is not on it.  Of the attributes of [sys] it
    touches [path] and [path_importer_cache] only, and it leaves the files
    alone. *)
Theorem tearDownClass_clears_the_class zp d c w items cache :
  _zip_path c = Some zp → data c = Some d →
  sys_attrs w !! "path" = Some (VList items) →
  sys_attrs w !! "path_importer_cache" = Some (VDict cache) →
  ∃ w',
    tearDownClass (c, w) = (Ok tt, (mk_cls (ZIP_MODULE c) None None, w')) ∧
    (VStr zp ∉ items → sys_attrs w' !! "path" = Some (VList items)) ∧
    (∀ l1 l2, items = (l1 ++ VStr zp :: l2)%list → VStr zp ∉ l1 →
              sys_attrs w' !! "path" = Some (VList (l1 ++ l2))) ∧
    (∀ k, k ≠ "path" → k ≠ "path_importer_cache" →
          sys_attrs w' !! k = sys_attrs w !! k) ∧
    filesystem w' = filesystem w.
Proof.
  intros Hzp Hd Hpath Hcache.
  destruct (tearDownClass_ready zp d c w items cache)
    as (w' & Hrun & Hp & Hother & Hfs); [done..|].
  exists w'. split; [done|]. split_and!; [| |done..].
  - intros Hout. by rewrite Hp, list_remove_absent.
  - intros l1 l2 -> Hout. by rewrite Hp, list_remove_first.
Qed.

(** X15.  [tearDownClass] takes the module [data] out of [sys.modules] only when
    the zip path is a key of [sys.path_importer_cache]: the two deletions
    share one [try], so when the first one fails with [KeyError] the module
    stays cached.  When the key is there, its entry is deleted and so is
    the module. *)
Theorem tearDownClass_uncaches_with_the_importer zp d c w items cache :
  _zip_path c = Some zp → data c = Some d →
  sys_attrs w !! "path" = Some (VList items) →
  sys_attrs w !! "path_importer_cache" = Some (VDict cache) →
  ((∀ v, (VStr zp, v) ∉ cache) →
   sys_modules (tearDownClass (c, w)).2.2 = sys_modules w ∧
   sys_attrs (tearDownClass (c, w)).2.2 !! "path_importer_cache" =
     Some (VDict cache)) ∧
  ((∃ v, (VStr zp, v) ∈ cache) →
   sys_modules (tearDownClass (c, w)).2.2 =
     delete (mod_name d) (sys_modules w) ∧
   ∃ cache',
     sys_attrs (tearDownClass (c, w)).2.2 !! "path_importer_cache" =
       Some (VDict cache') ∧
     ∀ k v, (k, v) ∈ cache' ↔ (k, v) ∈ cache ∧ k ≠ VStr zp).
Proof.
  intros Hzp Hd Hpath Hcache.
  rewrite (tearDownClass_run zp c w items cache Hzp Hpath Hcache), Hd.
  set (w1 := match list_remove zp items with
             | Some items' => with_attrs (insert "path" (VList items')) w
             | None => w
             end).
  assert (Hm1 : sys_modules w1 = sys_modules w).
  { unfold w1. by destruct (list_remove zp items). }
  assert (Hc1 : sys_attrs w1 !! "path_importer_cache" = Some (VDict cache)).
  { unfold w1. destruct (list_remove zp items); [|done].
    simpl. by rewrite lookup_insert_ne. }
  split.
  - intros Hno.
    assert (Hex : existsb (fun kv => str_eq zp (fst kv)) cache = false).
    { apply not_true_is_false. intros H. apply existsb_key in H as [v Hv].
      by apply (Hno v). }
    rewrite Hex. simpl. done.
  - intros Hyes. rewrite (proj2 (existsb_key zp cache) Hyes).
    split.
    + destruct (sys_modules _ !! mod_name d) eqn:Hk; simpl in *.
      * by rewrite Hm1.
      * rewrite Hm1 in Hk. rewrite Hm1. symmetry. by apply delete_id.
    + eexists. split.
      * destruct (sys_modules _ !! mod_name d); simpl; apply lookup_insert_eq.
      * intros k v. rewrite list_elem_of_In, filter_In, <- list_elem_of_In.
        simpl. rewrite negb_true_iff.
        split; intros [Hin Hk]; (split; [done|]).
        -- intros ->. simpl in Hk. by rewrite String.eqb_refl in Hk.
        -- apply not_true_is_false. intros H. by apply str_eq_true in H.
Qed.

(** X16.  [tearDownClass] relies on [setUpClass]: without [_zip_path] it raises
    [AttributeError] at once and changes nothing, so a second
    [tearDownClass] in a row fails; with [_zip_path] but no [data], as
    after a [setUpClass] whose import failed, the zip path is taken off
    [sys.path] but [_zip_path] stays on the class, and the call raises
    [AttributeError] when the zip path is a key of
    [sys.path_importer_cache]. *)
Theorem tearDownClass_relies_on_setUpClass :
  (∀ c w,
     _zip_path c = None →
     tearDownClass (c, w) =
     (Raise (mk_exc AttributeError "_zip_path"), (c, w))) ∧
  (∀ zp d c w items cache,
     _zip_path c = Some zp → data c = Some d →
     sys_attrs w !! "path" = Some (VList items) →
     sys_attrs w !! "path_importer_cache" = Some (VDict cache) →
     ∃ s, tearDownClass (c, w) = (Ok tt, s) ∧
          tearDownClass s = (Raise (mk_exc AttributeError "_zip_path"), s)) ∧
  (∀ zp c w items cache,
     _zip_path c = Some zp → data c = None →
     sys_attrs w !! "path" = Some (VList items) →
     sys_attrs w !! "path_importer_cache" = Some (VDict cache) →
     ∃ w',
       (tearDownClass (c, w)).2 = (c, w') ∧
       sys_attrs w' !! "path" =
         Some (VList (default items (list_remove zp items))) ∧
       (tearDownClass (c, w)).1 =
         if existsb (fun kv => str_eq zp (fst kv)) cache
         then Raise (mk_exc AttributeError "data") else Ok tt).
Proof.
  assert (Hnone : ∀ c w,
            _zip_path c = None →
            tearDownClass (c, w) =
            (Raise (mk_exc AttributeError "_zip_path"), (c, w))).
  { intros c w Hzp. unfold tearDownClass.
    unfold mbind at 1, SE_bind at 1, bind at 1.
    unfold try_except at 1, mbind, SE_bind, bind, locals, getattr. simpl.
    rewrite Hzp. reflexivity. }
  split; [exact Hnone|]. split.
  - intros zp d c w items cache Hzp Hd Hpath Hcache.
    destruct (tearDownClass_ready zp d c w items cache)
      as (w' & Hrun & _); [done..|].
    eexists. split; [exact Hrun|]. by apply Hnone.
  - intros zp c w items cache Hzp Hd Hpath Hcache.
    rewrite (tearDownClass_run zp c w items cache Hzp Hpath Hcache), Hd.
    destruct (existsb _ cache); simpl.
    + eexists. split; [reflexivity|]. split; [|done].
      simpl. rewrite lookup_insert_ne by done.
      destruct (list_remove zp items); simpl; [apply lookup_insert_eq|done].
    + eexists. split; [reflexivity|]. split; [|done].
      destruct (list_remove zp items); simpl; [apply lookup_insert_eq|done].
Qed.

(** X17.  [setUpClass] followed by [tearDownClass], when the import succeeds and
    leaves [sys.path] alone: both class attributes are gone again, and
    [sys.path] is as before when the zip path was not on it.  When it was,
    [sys.path] is not restored: [append] adds the path at the end and
    [remove] takes out the first occurrence, so the path has moved to the
    end. *)
Theorem setUpClass_tearDownClass_sys_path h c w zm f items m w2 cache :
  ZIP_MODULE c = Some zm → mod_file zm = Some f →
  sys_attrs w !! "path" = Some (VList items) →
  let zp := joinpath h (parent h f) "ziptestdata.zip" in
  import_module h "ziptestdata"
    (with_attrs (insert "path" (VList (items ++ [VStr zp]))) w)
    = (Ok m, w2) →
  sys_attrs w2 !! "path" = Some (VList (items ++ [VStr zp])) →
  sys_attrs w2 !! "path_importer_cache" = Some (VDict cache) →
  ∃ w3,
    (setUpClass h ;; tearDownClass) (c, w) =
      (Ok tt, (mk_cls (ZIP_MODULE c) None None, w3)) ∧
    (VStr zp ∉ items → sys_attrs w3 !! "path" = Some (VList items)) ∧
    (∀ l1 l2, items = (l1 ++ VStr zp :: l2)%list → VStr zp ∉ l1 →
              sys_attrs w3 !! "path" =
              Some (VList (l1 ++ l2 ++ [VStr zp]))).
Proof.
  intros Hzm Hf Hpath zp Himport Hpath2 Hcache2.
  assert (Hset : setUpClass h (c, w) =
                 (Ok tt, (mk_cls (ZIP_MODULE c) (Some zp) (Some m), w2))).
  { unfold setUpClass, mbind, SE_bind, bind, locals, getattr, set_locals,
      lift. simpl. rewrite Hzm. simpl. rewrite Hf.
    unfold mret, SE_ret, ret. simpl.
    rewrite (sys_path_append_run _ items w Hpath). fold zp.
    cbn [fst snd]. rewrite Himport.
    unfold set_data, set__zip_path. simpl. by rewrite ?Hzm. }
  unfold mbind, SE_bind, bind. rewrite Hset.
  destruct (tearDownClass_ready zp m
              (mk_cls (ZIP_MODULE c) (Some zp) (Some m)) w2
              (items ++ [VStr zp]) cache)
    as (w3 & Hrun & Hp & _); [done..|].
  exists w3. split; [exact Hrun|]. split.
  - intros Hout. rewrite Hp, list_remove_first by done.
    simpl. by rewrite app_nil_r.
  - intros l1 l2 -> Hout. rewrite Hp, <- app_assoc. simpl.
    by rewrite list_remove_first.
Qed.

End ZipSetupFacts.

Module MissingAttributeFacts.
Import Py Sys Util UtilNotions UtilFacts.

(** X18.  When [sys] lacks an attribute a helper reads, the helper raises
    the [AttributeError] of the read, runs neither the block nor the
    wrapped function, and leaves the interpreter state exactly as it was:
    [import_state] for any of its four attributes, whatever it had
    already replaced, [temporary_pycache_prefix] for [pycache_prefix], and
    the wrapper of [writes_bytecode_files] for [dont_write_bytecode]. *)
Theorem missing_attribute_changes_nothing :
  (∀ kw w,
     (∃ k, k ∈ four ∧ sys_attrs w !! k = None) →
     ∃ k, k ∈ four ∧ sys_attrs w !! k = None ∧
          ∀ body,
            with_ (import_state kw) body w =
            (Raise (mk_exc AttributeError k), w)) ∧
  (∀ prefix w,
     sys_attrs w !! "pycache_prefix" = None →
     ∀ body,
       with_ (temporary_pycache_prefix prefix) body w =
       (Raise (mk_exc AttributeError "pycache_prefix"), w)) ∧
  (∀ Args (fxn : Args → SE world pyval) w0 flag wrapper w0',
     sys_attrs w0 !! "dont_write_bytecode" = Some flag →
     truthy flag = false →
     writes_bytecode_files fxn w0 = (Ok wrapper, w0') →
     ∀ args w,
       sys_attrs w !! "dont_write_bytecode" = None →
       wrapper args w =
       (Raise (mk_exc AttributeError "dont_write_bytecode"), w)).
Proof.
  split_and!.
  - intros kw w (k0 & Hk0 & Hnone0).
    pose proof (import_state_run kw w) as Hrun.
    destruct (import_state kw w) as [[[[] resume]|e] w1] eqn:Hi.
    + destruct Hrun as (_ & Hvals & _). exfalso.
      unfold four in Hk0. apply list_elem_of_fmap in Hk0 as ([k d] & -> & Hin).
      destruct (Hvals k d Hin) as [[v Hv] _]. simpl in Hnone0. congruence.
    + destruct Hrun as [-> [(k & Hk & Hnone & ->)|(Hall & _)]].
      * exists k. split; [done|]. split; [done|].
        intros body. unfold with_. by rewrite Hi.
      * destruct (Hall k0 Hk0) as [v Hv]. congruence.
  - intros prefix w Hnone body.
    unfold with_, temporary_pycache_prefix, sys_getattr. se_unfold.
    by rewrite Hnone.
  - intros Args fxn w0 flag wrapper w0' Hflag Ht.
    unfold writes_bytecode_files, sys_getattr, sys_setattr. se_unfold.
    rewrite Hflag, Ht. intros [= <- <-] args w Hnone. by rewrite Hnone.
Qed.

End MissingAttributeFacts.

Module BytecodeFacts.
Import Py Sys Util UtilFacts Bytecode MoreNotions.

Lemma ensure_bytecode_path_run h o bytecode_path w :
  ensure_bytecode_path h o bytecode_path w =
  let '(r, fs1) := mkdir h (dirname o bytecode_path) (filesystem w) in
  (match r with
   | Ok _ => Ok tt
   | Raise e =>
       if isinstance_exc e OSError && bool_decide (errno o e = Some EEXIST)
       then Ok tt else Raise e
   end, with_filesystem (fun _ => fs1) w).
Proof.
  unfold ensure_bytecode_path, try_except, on_fs.
  destruct (mkdir h (dirname o bytecode_path) (filesystem w))
    as [[[]|e] fs1]; [done|].
  destruct (isinstance_exc e OSError); [|done].
  by destruct (bool_decide (errno o e = Some EEXIST)).
Qed.

(** X20.  [ensure_bytecode_path] never raises an [OSError] whose [errno]
    is [EEXIST], and it touches nothing but the file system.  With a
    [mkdir] that reports a directory that exists, a call that returned can
    be repeated: the second call returns as well and changes nothing. *)
Theorem ensure_bytecode_path_tolerates_existing h o bytecode_path w :
  (∀ e w',
     ensure_bytecode_path h o bytecode_path w = (Raise e, w') →
     ¬ (isinstance_exc e OSError = true ∧ errno o e = Some EEXIST)) ∧
  sys_attrs (ensure_bytecode_path h o bytecode_path w).2 = sys_attrs w ∧
  sys_modules (ensure_bytecode_path h o bytecode_path w).2 = sys_modules w ∧
  (mkdir_reports_existing h o →
   ∀ w1,
     ensure_bytecode_path h o bytecode_path w = (Ok tt, w1) →
     ensure_bytecode_path h o bytecode_path w1 = (Ok tt, w1)).
Proof.
  rewrite ensure_bytecode_path_run.
  destruct (mkdir h (dirname o bytecode_path) (filesystem w))
    as [r fs1] eqn:Hmk.
  split_and!; try done.
  - intros e w'. destruct r as [[]|e0]; [discriminate|].
    destruct (isinstance_exc e0 OSError) eqn:Hi; simpl.
    + case_bool_decide as He; [discriminate|].
      intros [= <- <-] [_ He']. done.
    + intros [= <- <-] [Hi' _]. congruence.
  - intros Hlaw w1 Hrun.
    assert (Hok : r = Ok tt ∨
              ∃ e, r = Raise e ∧ isinstance_exc e OSError = true ∧
                   errno o e = Some EEXIST).
    { destruct r as [[]|e0]; [by left|]. right. exists e0.
      destruct (isinstance_exc e0 OSError); simpl in Hrun; [|discriminate].
      case_bool_decide as He; [done|discriminate]. }
    assert (Hw1 : w1 = with_filesystem (fun _ => fs1) w).
    { destruct r as [[]|e0]; [by injection Hrun as <-|].
      destruct (isinstance_exc e0 OSError && _); [|discriminate].
      by injection Hrun as <-. }
    destruct (Hlaw _ _ _ _ Hmk Hok) as (e & Hmk' & Hi & He).
    rewrite ensure_bytecode_path_run, Hw1. simpl. rewrite Hmk', Hi. simpl.
    rewrite bool_decide_eq_true_2 by done. by destruct w.
Qed.

End BytecodeFacts.

Module MoreWitnesses.
Import Py Sys Util UtilNotions Examples MoreNotions MoreExamples Witnesses.
Import ExtensionsFacts UncacheFacts MockInitFacts MockManagerFacts.
Import CreateModulesFacts ImportNameFacts ReaderContentsFacts ZipSetupFacts.
Import MissingAttributeFacts BytecodeFacts.

(** Every element of a concrete list has a decidable property. *)
Ltac for_each_element := apply Forall_forall; by_evaluation.

Lemma extension_details_found_or_unchanged_witness :
  Extensions.name
    (Extensions._extension_details simple_host lib_dynload
       ["/usr"; "/lib"] [".pyd"; ".so"] Extensions.EXTENSIONS)
  = "_testcapi".
Proof.
  destruct (extension_details_found_or_unchanged simple_host lib_dynload
              ["/usr"; "/lib"] [".pyd"; ".so"] Extensions.EXTENSIONS)
    as [[_ ->]|(p & e & _ & _ & _ & _ & _ & _ & _ & ->)]; reflexivity.
Defined.

Lemma extension_details_first_match_witness :
  Extensions._extension_details simple_host lib_dynload
    ["/usr"; "/lib"; "/opt"] [".pyd"; ".so"; ".abi3.so"]
    Extensions.EXTENSIONS
  = {| Extensions.path := Some "/lib"; Extensions.ext := Some ".so";
       Extensions.filename := Some "_testcapi.so";
       Extensions.file_path := Some "/lib/_testcapi.so";
       Extensions.name := "_testcapi" |}.
Proof.
  apply (extension_details_first_match simple_host lib_dynload
           ["/usr"] "/lib" ["/opt"] [".pyd"] ".so" [".abi3.so"]
           Extensions.EXTENSIONS).
  - intros p' e' Hp He.
    apply list_elem_of_singleton in Hp as ->.
    repeat (apply elem_of_cons in He as [->|He]); [reflexivity..|].
    by apply elem_of_nil in He.
  - intros e' He. apply list_elem_of_singleton in He as ->. reflexivity.
  - reflexivity.
Defined.

Lemma uncache_stops_at_protected_name_witness :
  uncache ["spam"; "sys"; "eggs"] interpreter =
  (Raise (mk_exc ValueError "cannot uncache sys"),
   with_modules (without ["spam"]) interpreter).
Proof.
  destruct uncache_stops_at_protected_name as [H _].
  apply (H ["spam"] "sys" ["eggs"] interpreter).
  - for_each_element.
  - by_evaluation.
Defined.

Lemma mock_module_attributes_witness :
  ∃ name,
    name ∈ ["eggs"; "pkg.__init__"] ∧ mock_import_name name = "pkg" ∧
    (name ≠ "pkg" → name = "pkg" +:+ ".__init__").
Proof.
  destruct (mock_module_attributes 2 ["eggs"; "pkg.__init__"]
              {["eggs" := failing]} "pkg"
              (mk_module "pkg" (Some 2) (Some "<mock __file__>")
                 (Some "pkg") (Some "pkg.__init__")
                 (Some ["<mock __path__>"]) None))
    as (_ & _ & _ & name & Hin & Hname & _ & _ & Hpkg).
  - vm_compute. reflexivity.
  - exists name. split; [exact Hin|]. split; [exact Hname|].
    intros Hne. by destruct (Hpkg Hne).
Defined.

Lemma mock_code_is_given_code_witness :
  is_Some (modules failing_mock !! "eggs").
Proof.
  apply (mock_code_is_given_code 2 ["eggs"; "pkg.__init__"]
           {["eggs" := failing]} "eggs").
  eexists. vm_compute. reflexivity.
Defined.

Lemma mock_finders_agree_witness :
  ∃ m, modules failing_mock !! "pkg" = Some m ∧
       find_module failing_mock "pkg" = Some failing_mock ∧
       find_spec simple_host failing_mock "pkg" =
         Ok (Some (mk_spec "pkg" 2 (Some "<mock __file__>") (mod_path m))).
Proof.
  destruct (mock_finders_agree simple_host 2 ["eggs"; "pkg.__init__"]
              {["eggs" := failing]} "pkg") as (m & Hm & Hf & Hs & _).
  - by_evaluation.
  - exists m. split; [exact Hm|]. split; [exact Hf|exact Hs].
Defined.

Lemma with_mock_uncaches_witness :
  ∃ w1 w3,
    sys_modules w1 !! "eggs" = None ∧
    MockManager.with_mock (MockManager.modules_keys ["eggs"; "pkg.__init__"])
      failing (None, interpreter) = ((failing w1).1, (Some Finished, w3)) ∧
    sys_modules w3 !! "pkg" = None.
Proof.
  destruct (with_mock_uncaches ["eggs"; "pkg.__init__"] failing None
              interpreter) as (w1 & w3 & H1 & _ & _ & Hrun & H3 & _).
  - for_each_element.
  - exists w1, w3. split; [|split; [exact Hrun|]].
    + rewrite (H1 "eggs"). reflexivity.
    + rewrite (H3 "pkg"). reflexivity.
Defined.

Lemma with_mock_protected_name_witness :
  ∃ n w',
    n ∈ ["sys"] ∧
    MockManager.with_mock (MockManager.modules_keys ["sys"]) failing
      (None, interpreter) =
    (Raise (mk_exc ValueError ("cannot uncache " +:+ n)),
     (Some Finished, w')).
Proof.
  destruct (with_mock_protected_name ["sys"] None interpreter)
    as (n & w' & Hn & _ & _ & Hrun).
  - exists "sys". split; by_evaluation.
  - exists n, w'. split; [exact Hn|apply Hrun].
Defined.

Lemma create_modules_mkdtemp_failure_witness :
  with_ (create_modules full_disk_host ["spam"]) (fun _ => failing)
    interpreter =
  (Raise (mk_exc UnboundLocalError "temp_dir"),
   with_filesystem (fun _ => filesystem interpreter) interpreter).
Proof.
  apply (create_modules_mkdtemp_failure full_disk_host ["spam"] interpreter
           (mk_exc OSError "No space left") (filesystem interpreter)).
  reflexivity.
Defined.

Lemma create_modules_restores_import_state_witness :
  sys_attrs
    (with_ (create_modules simple_host ["spam"; "pkg.__init__"])
       (fun _ => failing) interpreter).2 !! "path"
  = sys_attrs interpreter !! "path".
Proof.
  apply (create_modules_restores_import_state simple_host
           ["spam"; "pkg.__init__"] (fun _ => failing) interpreter "path").
  by_evaluation.
Defined.

Lemma create_modules_yields_mapping_witness :
  match create_modules simple_host ["pkg.__init__"] interpreter with
  | (Ok (mapping, _), w1) =>
      ∃ td,
        mapping !! "pkg.__init__" =
          Some (module_file_path simple_host td "pkg.__init__") ∧
        sys_attrs w1 !! "path" = Some (VList [VStr td])
  | (Raise _, _) => False
  end.
Proof.
  destruct (create_modules simple_host ["pkg.__init__"] interpreter)
    as [[[mapping resume]|e] w1] eqn:Hrun.
  - apply create_modules_yields_mapping in Hrun
      as (td & fs1 & _ & Hnames & _ & _ & Hpath & _).
    exists td. split; [|exact Hpath]. apply Hnames. by_evaluation.
  - vm_compute in Hrun. discriminate Hrun.
Defined.

Lemma import_names_agree_witness :
  created_import_name ("pkg" +:+ ".__init__") = "pkg" ∧
  mock_import_name "spam" = "spam" ∧
  created_import_name "my__init__" ≠ mock_import_name "my__init__".
Proof.
  destruct import_names_agree as (Hpkg & Hplain & Hiff).
  split; [apply Hpkg|]. split; [apply Hplain; reflexivity|].
  intros Heq. apply Hiff in Heq as [H|H]; vm_compute in H; discriminate H.
Defined.

Lemma contents_lists_entries_witness :
  contents_drain 3
    (contents (create_package 7 VNone (VStr "/pkg") true ["a"; "b/c"]).2)
  = Ok ["a"; "b/c"].
Proof.
  apply (contents_lists_entries 7 VNone (VStr "/pkg") true ["a"; "b/c"] 3).
  - reflexivity.
  - simpl. lia.
Defined.

Lemma tearDownClass_clears_the_class_witness :
  ∃ w',
    ZipSetupBase.tearDownClass (ZipSetup_ready, zip_interpreter true) =
      (Ok tt, (ZipSetup, w')) ∧
    sys_attrs w' !! "path" = Some (VList [VStr "/usr/lib/python"]).
Proof.
  destruct (tearDownClass_clears_the_class zip_path ziptestdata
              ZipSetup_ready (zip_interpreter true)
              [VStr "/usr/lib/python"; VStr zip_path]
              [(VStr zip_path, VObj 7)])
    as (w' & Hrun & _ & Hfirst & _); [reflexivity..|].
  exists w'. split; [exact Hrun|].
  apply (Hfirst [VStr "/usr/lib/python"] []); [reflexivity|].
  intros H%list_elem_of_singleton. discriminate H.
Defined.

Lemma tearDownClass_uncaches_with_the_importer_witness :
  sys_modules
    (ZipSetupBase.tearDownClass (ZipSetup_ready, zip_interpreter false)).2.2
  = sys_modules (zip_interpreter false) ∧
  sys_modules
    (ZipSetupBase.tearDownClass (ZipSetup_ready, zip_interpreter true)).2.2
  = delete "ziptestdata" (sys_modules (zip_interpreter true)).
Proof.
  split.
  - destruct (tearDownClass_uncaches_with_the_importer zip_path ziptestdata
                ZipSetup_ready (zip_interpreter false)
                [VStr "/usr/lib/python"; VStr zip_path] [])
      as [Hno _]; [reflexivity..|].
    apply Hno. intros v Hv. by apply elem_of_nil in Hv.
  - destruct (tearDownClass_uncaches_with_the_importer zip_path ziptestdata
                ZipSetup_ready (zip_interpreter true)
                [VStr "/usr/lib/python"; VStr zip_path]
                [(VStr zip_path, VObj 7)])
      as [_ Hyes]; [reflexivity..|].
    apply Hyes. exists (VObj 7). by left.
Defined.

Lemma tearDownClass_relies_on_setUpClass_witness :
  ZipSetupBase.tearDownClass (ZipSetup, interpreter) =
    (Raise (mk_exc AttributeError "_zip_path"), (ZipSetup, interpreter)) ∧
  ∃ s,
    ZipSetupBase.tearDownClass (ZipSetup_ready, zip_interpreter true) =
      (Ok tt, s) ∧
    ZipSetupBase.tearDownClass s =
      (Raise (mk_exc AttributeError "_zip_path"), s).
Proof.
  destruct tearDownClass_relies_on_setUpClass as (Hnone & Htwice & _).
  split; [by apply Hnone|].
  apply (Htwice zip_path ziptestdata ZipSetup_ready (zip_interpreter true)
           [VStr "/usr/lib/python"; VStr zip_path]
           [(VStr zip_path, VObj 7)]); reflexivity.
Defined.

Lemma setUpClass_tearDownClass_sys_path_witness :
  ∃ w3,
    (ZipSetupBase.setUpClass zip_importer ;; ZipSetupBase.tearDownClass)
      (ZipSetup, interpreter) = (Ok tt, (ZipSetup, w3)) ∧
    sys_attrs w3 !! "path" = sys_attrs interpreter !! "path".
Proof.
  destruct (setUpClass_tearDownClass_sys_path zip_importer ZipSetup
              interpreter zipdata01 "/t/zipdata01/__init__.py"
              [VStr "/usr/lib/python"] ziptestdata
              (with_modules (insert "ziptestdata" ziptestdata)
                 (with_attrs
                    (insert "path_importer_cache"
                       (VDict [(VStr zip_path, VObj 7)]))
                    (with_attrs
                       (insert "path"
                          (VList [VStr "/usr/lib/python"; VStr zip_path]))
                       interpreter)))
              [(VStr zip_path, VObj 7)])
    as (w3 & Hrun & Hout & _); [reflexivity..|].
  exists w3. split; [exact Hrun|].
  rewrite Hout; [reflexivity|].
  intros H%list_elem_of_singleton. discriminate H.
Defined.

Lemma missing_attribute_changes_nothing_witness :
  (∃ k,
     with_ (import_state []) (fun _ => failing) bare_interpreter =
     (Raise (mk_exc AttributeError k), bare_interpreter)) ∧
  with_ (temporary_pycache_prefix VNone) (fun _ => failing) bare_interpreter =
    (Raise (mk_exc AttributeError "pycache_prefix"), bare_interpreter).
Proof.
  destruct missing_attribute_changes_nothing as (Himport & Hprefix & _).
  split.
  - destruct (Himport [] bare_interpreter) as (k & _ & _ & Hrun).
    + exists "path". split; [by_evaluation|reflexivity].
    + exists k. apply Hrun.
  - apply Hprefix. reflexivity.
Defined.

Lemma create_modules_removes_temp_dir_witness :
  match create_modules simple_host ["spam"] interpreter with
  | (Ok (_, _), w1) =>
      ∃ td,
        filesystem
          (with_ (create_modules simple_host ["spam"]) (fun _ => failing)
             interpreter).2 =
        (rmtree simple_host td (filesystem (failing w1).2)).2
  | (Raise _, _) => False
  end.
Proof.
  destruct (create_modules simple_host ["spam"] interpreter)
    as [[[mapping resume]|e] w1] eqn:Hrun.
  - destruct (create_modules_removes_temp_dir _ _ _ _ _ _ Hrun)
      as (td & fs1 & _ & Hbody).
    exists td. apply (Hbody (fun _ => failing)).
  - vm_compute in Hrun. discriminate Hrun.
Defined.

Lemma posix_host_reports_existing :
  mkdir_reports_existing posix_host posix_errors.
Proof.
  intros p fs r fs' Hmk _. simpl in Hmk.
  exists (mk_exc OSError "File exists"). simpl.
  destruct (fs !! p) as [node|] eqn:Hp; injection Hmk as <- <-.
  - by rewrite Hp.
  - by rewrite lookup_insert_eq.
Qed.

Lemma ensure_bytecode_path_tolerates_existing_witness :
  Bytecode.ensure_bytecode_path posix_host posix_errors
    "/t/__pycache__/m.pyc"
    (with_filesystem (fun _ => {["/t/__pycache__" := Dir]}) interpreter)
  = (Ok tt,
     with_filesystem (fun _ => {["/t/__pycache__" := Dir]}) interpreter).
Proof.
  destruct (ensure_bytecode_path_tolerates_existing posix_host posix_errors
              "/t/__pycache__/m.pyc" interpreter) as (_ & _ & _ & Hagain).
  apply Hagain.
  - exact posix_host_reports_existing.
  - reflexivity.
Defined.

End MoreWitnesses.
